(** * luci-app-podman: OpenWrt network integration and IPv6 ULA derivation

    A shallow embedding of [podman/openwrt-network.js] (the reconciler that
    keeps Podman networks and the OpenWrt UCI configuration in step) and of
    [deriveUlaFromIpv4] (the IPv6 ULA utility), with the properties the
    design document states about them. *)

From Stdlib Require Import ZArith Ascii String.
From stdpp Require Import base option list strings gmap.

Local Open Scope string_scope.
Local Open Scope list_scope.

(** ** JavaScript values used by the module *)

(** A UCI option value: list-typed options come back as an array, all others
    as a scalar string. *)
Inductive Value :=
| VStr (s : string)
| VList (l : list string).

#[global] Instance Value_eq_dec : EqDecision Value.
Proof. solve_decision. Defined.

(** Truthiness of a possibly undefined string ([undefined], [null] and the
    empty string are falsy). *)
Definition truthy (o : option string) : bool :=
  match o with
  | Some s => negb (bool_decide (s = ""))
  | None => false
  end.

(** [a || d] on a possibly undefined string with a string default. *)
Definition orDefault (o : option string) (d : string) : string :=
  match o with
  | Some s => if bool_decide (s = "") then d else s
  | None => d
  end.

(** Truthiness of an option value as [uci.get] returns it: arrays are
    objects and always truthy. *)
Definition truthyValue (o : option Value) : bool :=
  match o with
  | Some (VStr s) => negb (bool_decide (s = ""))
  | Some (VList _) => true
  | None => false
  end.

(** The list-or-scalar normalisation the module repeats at every read:
    [Array.isArray(v) ? v : (v ? [v] : [])]. *)
Definition asList (o : option Value) : list string :=
  match o with
  | Some (VList l) => l
  | Some (VStr s) => if bool_decide (s = "") then [] else [s]
  | None => []
  end.

(** [Array.prototype.includes] on strings. *)
Definition includes (l : list string) (x : string) : bool :=
  bool_decide (x ∈ l).

(** Property-key coercion of a value used as a section id
    ([Array.prototype.toString] joins with a comma). *)
Definition jsKey (v : Value) : string :=
  match v with
  | VStr s => s
  | VList l => String.concat "," l
  end.

(** ** The configuration store (LuCI [uci]) *)

(** Section ids. Named sections carry the name the caller chose; anonymous
    sections get an id generated by the store, which never coincides with a
    caller-chosen name. *)
Inductive Sid :=
| Named (n : string)
| Generated (k : nat).

#[global] Instance Sid_eq_dec : EqDecision Sid.
Proof. solve_decision. Defined.

Record Sect := mkSect {
  sname : Sid;                     (* '.name' *)
  stype : string;                  (* '.type' *)
  sopts : gmap string Value
}.

#[global] Instance Sect_eq_dec : EqDecision Sect.
Proof. solve_decision. Defined.

(** The store maps a configuration name ('network', 'firewall', 'dhcp') to
    its ordered list of sections. *)
Abbreviation Store := (gmap string (list Sect)).

Definition sections (s : Store) (conf : string) : list Sect :=
  default [] (s !! conf).

Definition hasName (sid : Sid) (x : Sect) : bool :=
  bool_decide (sname x = sid).

(** [uci.get(conf, sid)]: the section object, or null. *)
Definition uci_get_section (s : Store) (conf : string) (sid : Sid) : option Sect :=
  List.find (hasName sid) (sections s conf).

(** [uci.get(conf, sid, opt)]: the option value, or null. *)
Definition uci_get (s : Store) (conf : string) (sid : Sid) (opt : string)
  : option Value :=
  match uci_get_section s conf sid with
  | Some x => sopts x !! opt
  | None => None
  end.

(** [uci.sections(conf, type)]: the sections of that type, in order. *)
Definition uci_sections (s : Store) (conf type : string) : list Sect :=
  List.filter (fun x => bool_decide (stype x = type)) (sections s conf).

(** Apply [f] to the first section called [sid]; nothing happens when there
    is none. *)
Fixpoint updSect (sid : Sid) (f : Sect -> Sect) (l : list Sect) : list Sect :=
  match l with
  | [] => []
  | x :: r => if hasName sid x then f x :: r else x :: updSect sid f r
  end.

Definition setOpt (opt : string) (v : option Value) (x : Sect) : Sect :=
  match v with
  | Some (VStr "") | None => mkSect (sname x) (stype x) (delete opt (sopts x))
  | Some w => mkSect (sname x) (stype x) (<[opt := w]> (sopts x))
  end.

(** [uci.set(conf, sid, opt, val)]: sets the option of an existing section;
    a null or empty value removes the option. *)
Definition uci_set (s : Store) (conf : string) (sid : Sid) (opt : string)
    (v : option Value) : Store :=
  alter (updSect sid (setOpt opt v)) conf s.

(** [uci.unset(conf, sid, opt)]. *)
Definition uci_unset (s : Store) (conf : string) (sid : Sid) (opt : string) : Store :=
  uci_set s conf sid opt None.

(** [uci.add(conf, type, name)]: a new, empty, named section at the end. *)
Definition uci_add (s : Store) (conf type : string) (sid : Sid) : Store :=
  <[conf := sections s conf ++ [mkSect sid type ∅]]> s.

(** The first generated id above every generated id in use. *)
Definition genBound (l : list Sect) : nat :=
  foldr (fun x acc => match sname x with
                      | Generated k => Nat.max (S k) acc
                      | Named _ => acc
                      end) 0%nat l.

(** [uci.add(conf, type)]: a new anonymous section; returns its generated
    id together with the store. *)
Definition uci_add_anon (s : Store) (conf type : string) : Sid * Store :=
  let id := Generated (genBound (sections s conf)) in
  (id, uci_add s conf type id).

(** [uci.remove(conf, sid)]. *)
Definition uci_remove (s : Store) (conf : string) (sid : Sid) : Store :=
  alter (List.filter (fun x => negb (hasName sid x))) conf s.

(** ** String helpers of the JavaScript runtime *)

(** [s.split(sep)] for a non-empty separator: the pieces between the
    non-overlapping occurrences of [sep], scanned left to right. [skip]
    counts the characters of a matched separator still to be dropped. *)
Fixpoint splitGo (sep : string) (skip : nat) (s : string) : list string :=
  match s with
  | EmptyString => [EmptyString]
  | String c r =>
      match skip with
      | S k => splitGo sep k r
      | O =>
          if String.prefix sep s
          then EmptyString :: splitGo sep (String.length sep - 1) r
          else match splitGo sep 0 r with
               | h :: t => String c h :: t
               | [] => [String c EmptyString]
               end
      end
  end.

Definition split (sep s : string) : list string := splitGo sep 0 s.

(** [l.join(sep)]. *)
Definition join (sep : string) (l : list string) : string := String.concat sep l.

(** ** The world the promises run in *)

(** Calls that leave the browser, in the order they are issued. *)
Inductive Event :=
| EvSave
| EvApply (timeout : Z)
| EvFlushCache
| EvExec (path : string) (args : list string)
| EvDelay (ms : Z).

(** The collaborators whose promise may reject. *)
Inductive Call :=
| CallLoad (conf : string)
| CallSave
| CallApply
| CallFlushCache
| CallExec.

#[global] Instance Call_eq_dec : EqDecision Call.
Proof. solve_decision. Defined.

(** [staged] is the store as [uci.get] sees it, buffered edits included;
    [saved] is what the last [uci.save] persisted; [trace] records the
    outgoing calls; [failing] lists the collaborators that currently reject. *)
Record World := mkWorld {
  staged : Store;
  saved : Store;
  trace : list Event;
  failing : list Call
}.

Definition withStaged (w : World) (s : Store) : World :=
  mkWorld s (saved w) (trace w) (failing w).

Definition logEvent (e : Event) (w : World) : World :=
  mkWorld (staged w) (saved w) (trace w ++ [e]) (failing w).

Definition fails (w : World) (c : Call) : bool := bool_decide (c ∈ failing w).

Inductive Outcome (A : Type) :=
| Resolved (a : A)
| Rejected.
Arguments Resolved {A} a.
Arguments Rejected {A}.

(** A promise, run to settlement: the world it leaves and how it settled. *)
Definition Promise (A : Type) : Type := World -> World * Outcome A.

#[global] Instance Promise_ret : MRet Promise :=
  fun A a w => (w, Resolved a).

(** [p.then(f)]. *)
#[global] Instance Promise_bind : MBind Promise :=
  fun A B f p w =>
    match p w with
    | (w', Resolved a) => f a w'
    | (w', Rejected) => (w', Rejected)
    end.

(** [p.catch(() => h)]. *)
Definition catch {A} (p : Promise A) (h : Promise A) : Promise A :=
  fun w =>
    match p w with
    | (w', Rejected) => h w'
    | r => r
    end.

(** [Promise.all([p, q])] of two calls: both are issued, and the result
    rejects as soon as one of them does. *)
Definition all2 (p q : Promise unit) : Promise unit :=
  fun w =>
    let '(w1, r1) := p w in
    let '(w2, r2) := q w1 in
    match r1, r2 with
    | Resolved _, Resolved _ => (w2, Resolved tt)
    | _, _ => (w2, Rejected)
    end.

(** A synchronous callback that edits the store and returns a value. *)
Definition callback {A} (f : Store -> Store * A) : Promise A :=
  fun w => let '(s, a) := f (staged w) in (withStaged w s, Resolved a).

(** A synchronous callback that may throw; the edits made before the throw
    stay in the store. *)
Definition callbackThrowing {A} (f : Store -> Store * option A) : Promise A :=
  fun w =>
    let '(s, r) := f (staged w) in
    (withStaged w s, match r with Some a => Resolved a | None => Rejected end).

Definition settle (w : World) (c : Call) : World * Outcome unit :=
  (w, if fails w c then Rejected else Resolved tt).

(** [uci.load(conf)]: the staged view is kept as it is. *)
Definition uci_load (conf : string) : Promise unit :=
  fun w => settle w (CallLoad conf).

(** [uci.save()]: persists the buffered edits. *)
Definition uci_save : Promise unit :=
  fun w =>
    let w1 := logEvent EvSave w in
    if fails w CallSave then (w1, Rejected)
    else (mkWorld (staged w1) (staged w1) (trace w1) (failing w1), Resolved tt).

(** [uci.apply(timeout)]. *)
Definition uci_apply (timeout : Z) : Promise unit :=
  fun w => settle (logEvent (EvApply timeout) w) CallApply.

(** [network.flushCache()]. *)
Definition flushCache : Promise unit :=
  fun w => settle (logEvent EvFlushCache w) CallFlushCache.

(** [fs.exec(path, args)]. *)
Definition fs_exec (path : string) (args : list string) : Promise unit :=
  fun w => settle (logEvent (EvExec path args) w) CallExec.

(** [new Promise(resolve => setTimeout(resolve, ms))]. *)
Definition delay (ms : Z) : Promise unit :=
  fun w => (logEvent (EvDelay ms) w, Resolved tt).

(** ** openwrt-network.js *)

(** The [options] object of [createIntegration] and [repairIntegration].
    [bridgeName] is required for the bridge driver and [parent] for
    macvlan/ipvlan; the field the driver does not use is ignored. *)
Record Options := mkOptions {
  driver : option string;
  bridgeName : string;
  parent : string;
  subnet : string;
  gateway : string;
  ipv6subnet : option string;
  ipv6gateway : option string;
  zoneName : option string
}.

Record Details := mkDetails {
  hasInterface : bool;
  hasDevice : bool;
  hasDnsmasqExclusion : bool;
  detailsDriver : string            (* details.driver *)
}.

Record Status := mkStatus {
  complete : bool;
  missing : list string;
  details : Details
}.

Record Integration := mkIntegration {
  networkName : string;
  deviceName : option Value;
  intGateway : option Value;        (* gateway *)
  netmask : option Value;
  proto : option Value
}.

Record RepairResult := mkRepairResult {
  added : list string;
  skipped : list string;
  repairDetails : Details           (* details *)
}.

(** [needsBridge(driver)]: [!driver || driver === 'bridge']. *)
Definition needsBridge (driver : string) : bool :=
  bool_decide (driver = "") || bool_decide (driver = "bridge").

(** [zones.find(s => uci.get(conf, s['.name'], 'name') === name)]. *)
Definition findByName (s : Store) (conf type name : string) : option Sect :=
  List.find (fun x => bool_decide (uci_get s conf (sname x) "name" = Some (VStr name)))
            (uci_sections s conf type).

(** A section id is a string; the empty one is falsy. *)
Definition sidTruthy (sid : Sid) : bool :=
  match sid with
  | Named n => negb (bool_decide (n = ""))
  | Generated _ => true
  end.

(** The synchronous part of [_configureDnsmasq]: returns [skip]. *)
Definition dnsmasqEdits (bridgeName : string) (enable : bool) (s : Store)
  : Store * bool :=
  match uci_sections s "dhcp" "dnsmasq" with
  | [] => (s, true)
  | main :: _ =>
      let mainSection := sname main in
      let notinterfaceList := asList (uci_get s "dhcp" mainSection "notinterface") in
      if enable then
        if negb (includes notinterfaceList bridgeName)
        then (uci_set s "dhcp" mainSection "notinterface"
                (Some (VList (notinterfaceList ++ [bridgeName]))), false)
        else (s, false)
      else
        let filtered := List.filter (fun iface => negb (bool_decide (iface = bridgeName)))
                                    notinterfaceList in
        if bool_decide (0 < length filtered)%nat
        then (uci_set s "dhcp" mainSection "notinterface" (Some (VList filtered)), false)
        else (uci_unset s "dhcp" mainSection "notinterface", false)
  end.

(** [_restartDnsmasq]: a failed restart is swallowed. *)
Definition _restartDnsmasq : Promise unit :=
  catch (fs_exec "/etc/init.d/dnsmasq" ["restart"] ;; delay 1000) (mret tt).

(** [_configureDnsmasq(bridgeName, enable)]. *)
Definition _configureDnsmasq (bridgeName : string) (enable : bool) : Promise unit :=
  uci_load "dhcp" ;;
  skip ← callback (dnsmasqEdits bridgeName enable);
  if (skip : bool) then mret tt          (* every later step passes [skip] on *)
  else uci_apply 90 ;; uci_save ;; _restartDnsmasq.

(** The synchronous part of [_isDnsmasqExcluded]. *)
Definition isExcluded (s : Store) (bridgeName : string) : bool :=
  match uci_sections s "dhcp" "dnsmasq" with
  | [] => false
  | main :: _ =>
      match uci_get s "dhcp" (sname main) "notinterface" with
      | Some (VList l) => includes l bridgeName
      | Some (VStr x) => negb (bool_decide (x = "")) && bool_decide (x = bridgeName)
      | None => false
      end
  end.

(** [_isDnsmasqExcluded(bridgeName)]. *)
Definition _isDnsmasqExcluded (bridgeName : string) : Promise bool :=
  catch (uci_load "dhcp" ;; callback (fun s => (s, isExcluded s bridgeName)))
        (mret false).

(** Zone part of the callback of [removeIntegration]: take the network out
    of the first zone that lists it, and drop a 'podman*' zone that becomes
    empty together with its DNS rule. [None] when it throws ([startsWith]
    on a zone name that is not a string). *)
Definition removeZoneEdits (networkName : string) (s : Store) : option Store :=
  let zones := uci_sections s "firewall" "zone" in
  let found := List.find (fun zone =>
                 includes (asList (uci_get s "firewall" (sname zone) "network"))
                          networkName) zones in
  match found with
  | Some zone =>
      let networkZone := sname zone in
      let zoneName := uci_get s "firewall" networkZone "name" in
      if sidTruthy networkZone then
        let networkList :=
          List.filter (fun n => negb (bool_decide (n = networkName)))
                      (asList (uci_get s "firewall" networkZone "network")) in
        if bool_decide (0 < length networkList)%nat then
          Some (uci_set s "firewall" networkZone "network" (Some (VList networkList)))
        else
          match zoneName with
          | Some (VList _) => None
          | Some (VStr zn) =>
              if negb (bool_decide (zn = "")) && String.prefix "podman" zn then
                let s1 := uci_remove s "firewall" networkZone in
                let dnsRuleName := "Allow-" +:+ zn +:+ "-DNS" in
                match findByName s1 "firewall" "rule" dnsRuleName with
                | Some dnsRule => Some (uci_remove s1 "firewall" (sname dnsRule))
                | None => Some s1
                end
              else
                Some (uci_set s "firewall" networkZone "network"
                        (Some (VList networkList)))
          | None =>
              Some (uci_set s "firewall" networkZone "network"
                      (Some (VList networkList)))
          end
      else Some s
  | None => Some s
  end.

(** Network part of the callback: drop the interface, then the bridge
    device when no other interface points at it. Returns
    [shouldRemoveBridge]. *)
Definition removeNetworkEdits (networkName deviceName driver : string) (s : Store)
  : Store * bool :=
  let s := match uci_get_section s "network" (Named networkName) with
           | Some _ => uci_remove s "network" (Named networkName)
           | None => s
           end in
  if needsBridge driver then
    let otherInterfaces :=
      List.filter (fun x =>
          bool_decide (uci_get s "network" (sname x) "device" = Some (VStr deviceName))
          && negb (bool_decide (sname x = Named networkName)))
        (uci_sections s "network" "interface") in
    let shouldRemoveBridge := bool_decide (length otherInterfaces = 0%nat) in
    if shouldRemoveBridge then
      match uci_get_section s "network" (Named deviceName) with
      | Some _ => (uci_remove s "network" (Named deviceName), true)
      | None => (s, true)
      end
    else (s, false)
  else (s, false).

(** The synchronous part of [removeIntegration]: returns
    [shouldRemoveBridge], or throws. *)
Definition removeEdits (networkName deviceName driver : string) (s : Store)
  : Store * option bool :=
  match removeZoneEdits networkName s with
  | None => (s, None)
  | Some s =>
      let '(s, shouldRemoveBridge) :=
        removeNetworkEdits networkName deviceName driver s in
      (s, Some shouldRemoveBridge)
  end.

(** [removeIntegration(networkName, deviceName, driver)]. *)
Definition removeIntegration (networkName deviceName : string)
    (driver : option string) : Promise unit :=
  let driver := orDefault driver "bridge" in
  all2 (uci_load "network") (uci_load "firewall") ;;
  shouldRemoveBridge ← callbackThrowing (removeEdits networkName deviceName driver);
  uci_save ;;
  uci_apply 90 ;;
  flushCache ;;
  if needsBridge driver && shouldRemoveBridge
  then _configureDnsmasq deviceName false
  else mret tt.

(** The synchronous part of [hasIntegration]. *)
Definition interfaceExists (s : Store) (networkName : string) : bool :=
  bool_decide (is_Some (uci_get_section s "network" (Named networkName))).

(** [hasIntegration(networkName)]. *)
Definition hasIntegration (networkName : string) : Promise bool :=
  catch (uci_load "network" ;;
         callback (fun s => (s, interfaceExists s networkName)))
        (mret false).

(** The synchronous part of [getIntegration]. *)
Definition readIntegration (s : Store) (networkName : string) : option Integration :=
  match uci_get_section s "network" (Named networkName) with
  | None => None
  | Some _ =>
      Some (mkIntegration networkName
              (uci_get s "network" (Named networkName) "device")
              (uci_get s "network" (Named networkName) "ipaddr")
              (uci_get s "network" (Named networkName) "netmask")
              (uci_get s "network" (Named networkName) "proto"))
  end.

(** [getIntegration(networkName)]. *)
Definition getIntegration (networkName : string) : Promise (option Integration) :=
  catch (uci_load "network" ;;
         callback (fun s => (s, readIntegration s networkName)))
        (mret None).

(** The dnsmasq part of the status check; [deviceName] is the value read
    from the interface's [device] option. *)
Definition deviceExcluded (notinterfaces : option Value) (deviceName : Value) : bool :=
  match notinterfaces, deviceName with
  | Some (VList l), VStr d => includes l d
  | Some (VStr x), VStr d => negb (bool_decide (x = "")) && bool_decide (x = d)
  | _, _ => false
  end.

(** The synchronous part of [isIntegrationComplete]. *)
Definition inspect (networkName driver : string) (s : Store) : Status :=
  let iface := uci_get_section s "network" (Named networkName) in
  let missing := match iface with Some _ => [] | None => ["interface"] end in
  let hasInterface := bool_decide (is_Some iface) in
  let result missing hasDevice hasDnsmasqExclusion :=
    mkStatus (bool_decide (length missing = 0%nat)) missing
             (mkDetails hasInterface hasDevice hasDnsmasqExclusion driver) in
  match uci_get s "network" (Named networkName) "device" with
  | Some deviceName =>
      if truthyValue (Some deviceName) then
        if needsBridge driver then
          let deviceSid := Named (jsKey deviceName) in
          match uci_get_section s "network" deviceSid with
          | None => result (missing ++ ["device"]) false false
          | Some _ =>
              let deviceType := uci_get s "network" deviceSid "type" in
              if negb (bool_decide (deviceType = Some (VStr "bridge")))
              then result (missing ++ ["device"]) false false
              else
                match uci_sections s "dhcp" "dnsmasq" with
                | main :: _ =>
                    let notinterfaces :=
                      uci_get s "dhcp" (sname main) "notinterface" in
                    if deviceExcluded notinterfaces deviceName
                    then result missing true true
                    else result (missing ++ ["dnsmasq"]) true false
                | [] => result missing true true
                end
          end
        else result missing true true
      else result (missing ++ ["device"]) false false
  | None => result (missing ++ ["device"]) false false
  end.

(** [isIntegrationComplete(networkName, driver)]. *)
Definition isIntegrationComplete (networkName : string) (driver : option string)
  : Promise Status :=
  let driver := orDefault driver "bridge" in
  catch (all2 (uci_load "network") (uci_load "dhcp") ;;
         callback (fun s => (s, inspect networkName driver s)))
        (mret (mkStatus false ["unknown"] (mkDetails false false false driver))).

Section Integration.

(** [parseInt] of the JavaScript runtime ([None] is NaN) and
    [network.prefixToMask] of the host network layer ([None] is null). *)
Variable parseInt : string -> option Z.
Variable prefixToMask : option Z -> option string.

(** [cidrToIP(cidr)]: [undefined] cannot occur, [split] never returns an
    empty array. *)
Definition cidrToIP (cidr : string) : string :=
  match split "/" cidr with
  | ip :: _ => ip
  | [] => ""
  end.

(** [cidrToPrefix(cidr)]. *)
Definition cidrToPrefix (cidr : string) : option Z :=
  match split "/" cidr with
  | [_; p] => parseInt p
  | _ => Some 24%Z
  end.

Definition str (s : string) : option Value := Some (VStr s).

(** The bridge-device step shared by [createIntegration] and
    [repairIntegration]; [ipv6] is [options.ipv6subnet] in the former and
    absent in the latter. *)
Definition addBridgeDevice (deviceName : string) (ipv6 : option string) (s : Store)
  : Store :=
  let dev := Named deviceName in
  let s := uci_add s "network" "device" dev in
  let s := uci_set s "network" dev "type" (str "bridge") in
  let s := uci_set s "network" dev "name" (str deviceName) in
  let s := uci_set s "network" dev "bridge_empty" (str "1") in
  let s := uci_set s "network" dev "ipv6" (str "0") in
  if truthy ipv6 then
    let s := uci_set s "network" dev "ipv6" (str "1") in
    uci_set s "network" dev "ip6assign" (str "64")
  else s.

(** The interface step shared by both operations. *)
Definition addInterface (networkName deviceName : string) (options : Options)
    (s : Store) : Store :=
  let ifc := Named networkName in
  let netmask := prefixToMask (cidrToPrefix (subnet options)) in
  let s := uci_add s "network" "interface" ifc in
  let s := uci_set s "network" ifc "proto" (str "static") in
  let s := uci_set s "network" ifc "device" (str deviceName) in
  let s := uci_set s "network" ifc "ipaddr" (str (gateway options)) in
  uci_set s "network" ifc "netmask" (VStr <$> netmask).

(** The zone name [createIntegration] resolves. *)
Definition resolveZone (networkName : string) (options : Options) : string :=
  let requestedZone := orDefault (zoneName options) "_create_new_" in
  if bool_decide (requestedZone = "_create_new_")
  then "podman_" +:+ networkName
  else requestedZone.

(** The bridge name or the parent interface, by driver. *)
Definition deviceOf (options : Options) : string :=
  if needsBridge (orDefault (driver options) "bridge")
  then bridgeName options
  else parent options.

(** Step 1 of [createIntegration]: the bridge device, for bridge networks
    only. *)
Definition ensureDevice (options : Options) (s : Store) : Store :=
  if needsBridge (orDefault (driver options) "bridge") then
    match uci_get_section s "network" (Named (deviceOf options)) with
    | None => addBridgeDevice (deviceOf options) (ipv6subnet options) s
    | Some _ => s
    end
  else s.

(** Step 2: the network interface, for all drivers. *)
Definition ensureInterface (networkName : string) (options : Options) (s : Store)
  : Store :=
  match uci_get_section s "network" (Named networkName) with
  | None =>
      let s := addInterface networkName (deviceOf options) options s in
      if truthy (ipv6subnet options) && truthy (ipv6gateway options)
      then uci_set s "network" (Named networkName) "ip6addr"
             (str (default "" (ipv6gateway options) +:+ "/64"))
      else s
  | Some _ => s
  end.

(** Step 3: create the firewall zone, or join the existing one. *)
Definition ensureZone (networkName ZONE_NAME : string) (s : Store) : Store :=
  match findByName s "firewall" "zone" ZONE_NAME with
  | None =>
      let '(zoneId, s) := uci_add_anon s "firewall" "zone" in
      let s := uci_set s "firewall" zoneId "name" (str ZONE_NAME) in
      let s := uci_set s "firewall" zoneId "input" (str "DROP") in
      let s := uci_set s "firewall" zoneId "output" (str "ACCEPT") in
      let s := uci_set s "firewall" zoneId "forward" (str "REJECT") in
      uci_set s "firewall" zoneId "network" (Some (VList [networkName]))
  | Some existingZone =>
      let zoneSection := sname existingZone in
      let networkList := asList (uci_get s "firewall" zoneSection "network") in
      if negb (includes networkList networkName)
      then uci_set s "firewall" zoneSection "network"
             (Some (VList (networkList ++ [networkName])))
      else s
  end.

Definition dnsRuleNameOf (zone : string) : string := "Allow-" +:+ zone +:+ "-DNS".

(** Step 4: the DNS rule of the zone. *)
Definition ensureDnsRule (ZONE_NAME : string) (s : Store) : Store :=
  let dnsRuleName := dnsRuleNameOf ZONE_NAME in
  match findByName s "firewall" "rule" dnsRuleName with
  | None =>
      let '(ruleId, s) := uci_add_anon s "firewall" "rule" in
      let s := uci_set s "firewall" ruleId "name" (str dnsRuleName) in
      let s := uci_set s "firewall" ruleId "src" (str ZONE_NAME) in
      let s := uci_set s "firewall" ruleId "dest_port" (str "53") in
      uci_set s "firewall" ruleId "target" (str "ACCEPT")
  | Some _ => s
  end.

(** The synchronous part of [createIntegration]: the four guarded steps, in
    the order of the source. *)
Definition createEdits (networkName : string) (options : Options) (s : Store) : Store :=
  let ZONE_NAME := resolveZone networkName options in
  let s := ensureDevice options s in
  let s := ensureInterface networkName options s in
  let s := ensureZone networkName ZONE_NAME s in
  ensureDnsRule ZONE_NAME s.

(** [createIntegration(networkName, options)]. *)
Definition createIntegration (networkName : string) (options : Options)
  : Promise unit :=
  let driver := orDefault (driver options) "bridge" in
  let deviceName := deviceOf options in
  all2 (uci_load "network") (uci_load "firewall") ;;
  callback (fun s => (createEdits networkName options s, tt)) ;;
  uci_save ;;
  uci_apply 90 ;;
  flushCache ;;
  if needsBridge driver
  then _configureDnsmasq deviceName true
  else mret tt.

(** The synchronous part of [repairIntegration]: returns the [added] and
    [skipped] arrays as they stand after the callback. *)
Definition repairEdits (networkName : string) (options : Options) (st : Details)
    (s : Store) : Store * (list string * list string) :=
  let driver := orDefault (driver options) "bridge" in
  let deviceName := deviceOf options in
  let '(s, added, skipped) :=
    if negb (hasDevice st) && needsBridge driver then
      match uci_get_section s "network" (Named deviceName) with
      | None => (addBridgeDevice deviceName None s, ["device"], [])
      | Some _ => (s, [], ["device"])
      end
    else (s, [], ["device"]) in
  let '(s, added, skipped) :=
    if negb (hasInterface st) then
      match uci_get_section s "network" (Named networkName) with
      | None => (addInterface networkName deviceName options s,
                 added ++ ["interface"], skipped)
      | Some _ => (s, added, skipped ++ ["interface"])
      end
    else (s, added, skipped ++ ["interface"]) in
  (s, (added, skipped)).

(** [repairIntegration(networkName, options)]. *)
Definition repairIntegration (networkName : string) (options : Options)
  : Promise RepairResult :=
  let driver := orDefault (driver options) "bridge" in
  let deviceName := deviceOf options in
  status ← isIntegrationComplete networkName (Some driver);
  if complete status then
    mret (mkRepairResult [] ["complete"] (details status))
  else
    all2 (uci_load "network") (uci_load "dhcp") ;;
    lists ← callback (repairEdits networkName options (details status));
    uci_save ;;
    uci_apply 90 ;;
    flushCache ;;
    lists ←
      (let '(added, skipped) := lists in
       if negb (hasDnsmasqExclusion (details status)) && needsBridge driver
       then _configureDnsmasq deviceName true ;; mret (added ++ ["dnsmasq"], skipped)
       else mret (added, skipped ++ ["dnsmasq"]));
    mret (mkRepairResult lists.1 lists.2 (details status)).

End Integration.

(** ** The IPv6 ULA utility *)

Definition digitOf (c : ascii) : option Z :=
  let n := nat_of_ascii c in
  if bool_decide (48 <= n <= 57)%nat then Some (Z.of_nat n - 48)%Z else None.

Fixpoint digitsValue (acc : Z) (s : string) : option Z :=
  match s with
  | EmptyString => Some acc
  | String c r =>
      match digitOf c with
      | Some d => digitsValue (acc * 10 + d) r
      | None => None
      end
  end.

(** [Number(s)] on the strings an IPv4 address is made of: a run of decimal
    digits is its value and the empty string is 0; every other string is
    taken as NaN ([None]). *)
Definition Number (s : string) : option Z := digitsValue 0 s.

(** ToInt32: NaN and [undefined] become 0, numbers wrap to 32 bits signed. *)
Definition wrap32 (z : Z) : Z := ((z + 2 ^ 31) mod 2 ^ 32 - 2 ^ 31)%Z.

Definition toInt32 (x : option Z) : Z :=
  match x with
  | Some z => wrap32 z
  | None => 0%Z
  end.

(** [a << n] and [a | b] on 32-bit operands. *)
Definition shl32 (a : Z) (n : Z) : Z := wrap32 (Z.shiftl a (n mod 32)).
Definition or32 (a b : Z) : Z := wrap32 (Z.lor a b).

Definition hexDigit (n : Z) : ascii :=
  ascii_of_nat (Z.to_nat (if (n <? 10)%Z then 48 + n else 87 + n)%Z).

Fixpoint hexGo (fuel : nat) (n : Z) (acc : string) : string :=
  match fuel with
  | O => acc
  | S f =>
      let acc := String (hexDigit (n mod 16)) acc in
      if (n <? 16)%Z then acc else hexGo f (n / 16) acc
  end.

(** [n.toString(16)] on an integer; eight digits cover the 32-bit range the
    operand comes from. *)
Definition toString16 (n : Z) : string :=
  if (n <? 0)%Z then "-" +:+ hexGo 8 (- n) "" else hexGo 8 n "".

(** [s.padStart(n, c)] with a one-character pad. *)
Definition padStart (n : nat) (c : ascii) (s : string) : string :=
  string_of_list_ascii (repeat c (n - String.length s)) +:+ s.

Record Ula := mkUla {
  ipv6subnetOf : string;            (* ipv6subnet *)
  ipv6gatewayOf : string            (* ipv6gateway *)
}.

(** The [hextets] array of [deriveUlaFromIpv4] as it stands before the
    [slice]: the part of the prefix before '::', an empty part giving no
    hextet, padded with '0' to three entries. *)
Definition ulaHextets (ula_prefix : string) : list string :=
  let ulaAddress := default "" (head (split "/" ula_prefix)) in
  let ulaParts := split "::" ulaAddress in
  let hextets := split ":" (default "" (head ulaParts)) in
  let hextets := if bool_decide (hextets = [""]) then [] else hextets in
  hextets ++ repeat "0" (3 - length hextets).

(** The subnet id: [((octets[2] << 8) | octets[3]).toString(16).padStart(4, '0')]. *)
Definition subnetIdHex (ipv4 : string) : string :=
  let ipv4Address := default "" (head (split "/" ipv4)) in
  let octets := map Number (split "." ipv4Address) in
  padStart 4 "0" (toString16 (or32 (shl32 (toInt32 (mjoin (octets !! 2%nat))) 8)
                                   (toInt32 (mjoin (octets !! 3%nat))))).

(** [deriveUlaFromIpv4(ipv4, ula_prefix)]. *)
Definition deriveUlaFromIpv4 (ipv4 ula_prefix : string) : Ula :=
  let ipv6SubnetAddress :=
    join ":" (take 3 (ulaHextets ula_prefix)) +:+ ":" +:+ subnetIdHex ipv4 +:+ "::" in
  mkUla (ipv6SubnetAddress +:+ "/64") (ipv6SubnetAddress +:+ "1").

(** ** openwrt-network.js: the remaining entry points *)

(** The fields of a Podman network object the module reads. *)
Record NetOptions := mkNetOptions {
  optParent : option string         (* options.parent *)
}.

Record Network := mkNetwork {
  netDriver : option string;        (* driver *)
  netDriverCap : option string;     (* Driver *)
  network_interface : option string;
  netOptions : option NetOptions    (* options *)
}.

(** [getDriver(network)]: [network.driver || network.Driver || 'bridge']. *)
Definition getDriver (network : Network) : string :=
  orDefault (netDriver network) (orDefault (netDriverCap network) "bridge").

(** [getDevice(network, name)]. *)
Definition getDevice (network : Network) (name : string) : string :=
  let driver := getDriver network in
  if bool_decide (driver = "bridge") then
    orDefault (network_interface network) (name +:+ "0")
  else
    match netOptions network with
    | Some options =>
        if truthy (optParent options)
        then default "" (optParent options)
        else orDefault (network_interface network) (name +:+ "0")
    | None => orDefault (network_interface network) (name +:+ "0")
    end.

(** The [forEach] of [listPodmanZones] over the zone sections: the names
    that start with 'podman', in order. [None] when it throws
    ([startsWith] on a zone name that is an array). *)
Fixpoint podmanZonesOf (s : Store) (zones : list Sect) : option (list string) :=
  match zones with
  | [] => Some []
  | zone :: rest =>
      match uci_get s "firewall" (sname zone) "name" with
      | Some (VList _) => None
      | Some (VStr zoneName) =>
          podmanZones ← podmanZonesOf s rest;
          Some (if negb (bool_decide (zoneName = "")) && String.prefix "podman" zoneName
                then zoneName :: podmanZones
                else podmanZones)
      | None => podmanZonesOf s rest
      end
  end.

(** [listPodmanZones()]. *)
Definition listPodmanZones : Promise (list string) :=
  catch (uci_load "firewall" ;;
         callbackThrowing (fun s =>
           (s, podmanZonesOf s (uci_sections s "firewall" "zone"))))
        (mret []).

(** *** The patterns of [validateIntegration] *)

Definition isDigit (c : ascii) : bool := bool_decide (is_Some (digitOf c)).

(** The rest of [s] after its leading decimal digits. *)
Fixpoint skipDigits (s : string) : string :=
  match s with
  | EmptyString => EmptyString
  | String c r => if isDigit c then skipDigits r else s
  end.

(** [\d+] at the head of [s]: the rest after the digits, [None] when [s]
    does not start with a digit. The pattern is followed by a character
    that is no digit or by the end of the input, so the longest run is the
    only one that can match. *)
Definition digitRun (s : string) : option string :=
  match s with
  | EmptyString => None
  | String c r => if isDigit c then Some (skipDigits r) else None
  end.

(** One literal character at the head of [s]. *)
Definition literal (c : ascii) (s : string) : option string :=
  match s with
  | EmptyString => None
  | String x r => if bool_decide (x = c) then Some r else None
  end.

(** [$]: the end of the input. *)
Definition atEnd (r : option string) : bool :=
  match r with
  | Some EmptyString => true
  | _ => false
  end.

(** [\d+\.\d+\.\d+\.\d+] at the head of [s]. *)
Definition dottedQuad (s : string) : option string :=
  r ← digitRun s; r ← literal "." r;
  r ← digitRun r; r ← literal "." r;
  r ← digitRun r; r ← literal "." r;
  digitRun r.

(** [s.match(/^\d+\.\d+\.\d+\.\d+\/\d+$/)] is not null. *)
Definition matchesCidr (s : string) : bool :=
  atEnd (r ← dottedQuad s; r ← literal "/" r; digitRun r).

(** [s.match(/^\d+\.\d+\.\d+\.\d+$/)] is not null. *)
Definition matchesIp (s : string) : bool :=
  atEnd (dottedQuad s).

(** *** [validateIntegration] *)

(** The messages [validateIntegration] reports. Each stands for the
    translated text the source pushes, with the values it formats in. *)
Inductive Message :=
| NameRequired                      (* 'Network name is required' *)
| BridgeRequired                    (* 'Bridge name is required' *)
| ParentRequired                    (* 'Parent interface is required for macvlan/ipvlan networks' *)
| SubnetRequired                    (* 'Subnet is required' *)
| GatewayRequired                   (* 'Gateway is required' *)
| SubnetNotCidr                     (* 'Subnet must be in CIDR notation (e.g., 10.129.0.0/24)' *)
| GatewayNotIp                      (* 'Gateway must be a valid IP address' *)
| InterfaceExists (name : string) (existingProto : option Value)
                                    (* 'Network interface %s already exists with proto %s' *)
| BridgeInUse (bridge : string) (iface : Sid)
                                    (* 'Bridge %s is already used by interface %s' *)
| ValidateFailed.                   (* 'Failed to validate: %s', with the error's message *)

#[global] Instance Message_eq_dec : EqDecision Message.
Proof. solve_decision. Defined.

Record Validation := mkValidation {
  valid : bool;
  errors : list Message
}.

Section Validation.

(** [String.prototype.trim] of the JavaScript runtime. *)
Variable trim : string -> string.

(** [!x || !x.trim()]. *)
Definition blank (x : string) : bool :=
  bool_decide (x = "") || bool_decide (trim x = "").

(** The checks made before anything is loaded, in the order of the source. *)
Definition fieldErrors (networkName : string) (options : Options) : list Message :=
  let driver := orDefault (driver options) "bridge" in
  (if blank networkName then [NameRequired] else []) ++
  (if needsBridge driver
   then (if blank (bridgeName options) then [BridgeRequired] else [])
   else (if blank (parent options) then [ParentRequired] else [])) ++
  (if blank (subnet options) then [SubnetRequired] else []) ++
  (if blank (gateway options) then [GatewayRequired] else []) ++
  (if negb (bool_decide (subnet options = "")) && negb (matchesCidr (subnet options))
   then [SubnetNotCidr] else []) ++
  (if negb (bool_decide (gateway options = "")) && negb (matchesIp (gateway options))
   then [GatewayNotIp] else []).

(** The checks against the loaded configuration. *)
Definition conflictErrors (networkName : string) (options : Options) (s : Store)
  : list Message :=
  let driver := orDefault (driver options) "bridge" in
  (match uci_get_section s "network" (Named networkName) with
   | Some _ =>
       let existingProto := uci_get s "network" (Named networkName) "proto" in
       if negb (bool_decide (existingProto = Some (VStr "static")))
       then [InterfaceExists networkName existingProto]
       else []
   | None => []
   end) ++
  (if needsBridge driver && negb (bool_decide (bridgeName options = "")) then
     let otherInterfaces :=
       List.filter (fun x =>
           bool_decide (uci_get s "network" (sname x) "device"
                        = Some (VStr (bridgeName options)))
           && negb (bool_decide (sname x = Named networkName)))
         (uci_sections s "network" "interface") in
     match otherInterfaces with
     | other :: _ => [BridgeInUse (bridgeName options) (sname other)]
     | [] => []
     end
   else []).

(** [validateIntegration(networkName, options)]. *)
Definition validateIntegration (networkName : string) (options : Options)
  : Promise Validation :=
  let errors := fieldErrors networkName options in
  if bool_decide (0 < length errors)%nat then
    mret (mkValidation false errors)
  else
    catch (all2 (uci_load "network") (uci_load "firewall") ;;
           callback (fun s =>
             let errors := errors ++ conflictErrors networkName options s in
             (s, mkValidation (bool_decide (length errors = 0%nat)) errors)))
          (mret (mkValidation false (errors ++ [ValidateFailed]))).

End Validation.

(** ** view/podman/networks.js *)

Section Setup.

Variable parseInt : string -> option Z.
Variable prefixToMask : option Z -> option string.

(** The [options] object [executeSetupIntegration] builds: the device goes
    into [bridgeName] for the driver 'bridge' and into [parent] otherwise;
    the field left out is absent. *)
Definition setupOptions (driver deviceName subnet gateway : string)
    (zoneName : option string) : Options :=
  mkOptions (Some driver)
    (if bool_decide (driver = "bridge") then deviceName else "")
    (if bool_decide (driver = "bridge") then "" else deviceName)
    subnet gateway None None zoneName.

(** The promise [executeSetupIntegration] waits for: repair when the status
    shows a component, full creation in the shared zone 'podman' otherwise. *)
Definition setupOperation (name driver deviceName subnet gateway : string)
  : Promise unit :=
  status ← isIntegrationComplete name (Some driver);
  let hasAnyComponent :=
    hasInterface (details status) || hasDevice (details status) in
  if hasAnyComponent then
    repairIntegration parseInt prefixToMask name
      (setupOptions driver deviceName subnet gateway None) ;; mret tt
  else
    createIntegration parseInt prefixToMask name
      (setupOptions driver deviceName subnet gateway (Some "podman")).

(** [executeSetupIntegration(name, driver, deviceName, subnet, gateway)]:
    both handlers only hide the modal and notify the page, and the
    rejection is caught. *)
Definition executeSetupIntegration (name driver deviceName subnet gateway : string)
  : Promise unit :=
  catch (setupOperation name driver deviceName subnet gateway ;; mret tt)
        (mret tt).

End Setup.

(** ** Reading addresses *)

(** Character [c] occurs in [s]. *)
Fixpoint hasChar (c : ascii) (s : string) : bool :=
  match s with
  | EmptyString => false
  | String x r => bool_decide (x = c) || hasChar c r
  end.

(** [s] is a run of decimal digits. *)
Fixpoint isDigits (s : string) : bool :=
  match s with
  | EmptyString => true
  | String x r => bool_decide (is_Some (digitOf x)) && isDigits r
  end.

(** The design's subnet id: the 16-bit value [v] written as exactly four
    hexadecimal digits. *)
Definition hex4 (v : Z) : string :=
  String (hexDigit (v / 4096 mod 16))
    (String (hexDigit (v / 256 mod 16))
       (String (hexDigit (v / 16 mod 16))
          (String (hexDigit (v mod 16)) EmptyString))).

(** The text 'a.b.c.d/n' of an IPv4 CIDR, from its parts. *)
Definition ipv4Of (a b c d n : string) : string :=
  a +:+ "." +:+ b +:+ "." +:+ c +:+ "." +:+ d +:+ "/" +:+ n.

(** The text 'h1:h2:h3::/len' of a /48-style prefix, from its parts. *)
Definition prefixOf (h1 h2 h3 len : string) : string :=
  h1 +:+ ":" +:+ h2 +:+ ":" +:+ h3 +:+ "::/" +:+ len.

(** A hextet as written in a prefix: not empty, no ':' and no '/'. *)
Definition isHextet (h : string) : bool :=
  negb (bool_decide (h = "")) && negb (hasChar ":" h) && negb (hasChar "/" h).

(** ** Reading the store *)

(** Some interface section other than [networkName] has [deviceName] as its
    device. *)
Definition referencedByOthers (s : Store) (networkName deviceName : string) : bool :=
  existsb (fun x =>
      bool_decide (uci_get s "network" (sname x) "device" = Some (VStr deviceName))
      && negb (bool_decide (sname x = Named networkName)))
    (uci_sections s "network" "interface").

(** ** Reading a trace *)

Definition isSave (e : Event) : bool :=
  match e with EvSave => true | _ => false end.

Definition isApply (e : Event) : bool :=
  match e with EvApply _ => true | _ => false end.

(** Some [apply] is issued before a later [save]. *)
Fixpoint applyPrecedesSave (t : list Event) : bool :=
  match t with
  | [] => false
  | e :: r => (isApply e && existsb isSave r) || applyPrecedesSave r
  end.

(** At most one save and one apply, and no apply ahead of the save. *)
Definition singleCommit (t : list Event) : Prop :=
  (length (List.filter isSave t) <= 1)%nat /\
  (length (List.filter isApply t) <= 1)%nat /\
  applyPrecedesSave t = false.

(** The calls issued between world [w] and the later world [w']. *)
Definition newEvents (w w' : World) : list Event :=
  drop (length (trace w)) (trace w').

(** Every firewall zone lists each network at most once. *)
Definition zonesOk (s : Store) : Prop :=
  Forall (fun z => NoDup (asList (sopts z !! "network")))
         (uci_sections s "firewall" "zone").

Definition isExec (e : Event) : bool :=
  match e with EvExec _ _ => true | _ => false end.

(** The section called [d] was there in [w] and is gone in [w']. *)
Definition deviceDeleted (w w' : World) (d : string) : Prop :=
  is_Some (uci_get_section (staged w) "network" (Named d)) /\
  uci_get_section (staged w') "network" (Named d) = None.

(** ** Sample configurations

    A host with a dnsmasq section and one bridge network [net1] on device
    [br-pod], used to run the operations on concrete inputs. *)

Definition sect (sid : Sid) (type : string) (opts : list (string * Value)) : Sect :=
  mkSect sid type (list_to_map opts).

Definition sampleDnsmasq : Sect :=
  sect (Generated 0) "dnsmasq" [("notinterface", VList ["br-pod"])].

Definition sampleIface (name device : string) : Sect :=
  sect (Named name) "interface"
       [("proto", VStr "static"); ("device", VStr device);
        ("ipaddr", VStr "10.89.0.1"); ("netmask", VStr "255.255.255.0")].

Definition sampleBridge (name type : string) : Sect :=
  sect (Named name) "device" [("type", VStr type); ("name", VStr name)].

Definition sampleStore : Store :=
  {[ "network" := [sampleBridge "br-pod" "bridge"; sampleIface "net1" "br-pod"];
     "firewall" := [];
     "dhcp" := [sampleDnsmasq] ]}.

(** The bridge section is there, but declared as a VLAN device. *)
Definition wrongTypeStore : Store :=
  {[ "network" := [sampleBridge "br-pod" "8021q"; sampleIface "net1" "br-pod"];
     "firewall" := [];
     "dhcp" := [sampleDnsmasq] ]}.

(** A host without dnsmasq (odhcpd only). *)
Definition noDnsmasqStore : Store :=
  {[ "network" := [sampleBridge "br-pod" "bridge"; sampleIface "net1" "br-pod"];
     "firewall" := [];
     "dhcp" := [] ]}.

(** Two bridge networks on one bridge device. *)
Definition sharedStore : Store :=
  {[ "network" := [sampleBridge "br-pod" "bridge"; sampleIface "net1" "br-pod";
                   sampleIface "net2" "br-pod"];
     "firewall" := [];
     "dhcp" := [sampleDnsmasq] ]}.

(** The interface and the exclusion are there, the bridge section is not. *)
Definition orphanStore : Store :=
  {[ "network" := [sampleIface "net1" "br-pod"];
     "firewall" := [];
     "dhcp" := [sampleDnsmasq] ]}.

(** [net1] is a member of the shared zone 'podman'. *)
Definition zoneStore : Store :=
  {[ "network" := [sampleBridge "br-pod" "bridge"; sampleIface "net1" "br-pod"];
     "firewall" := [sect (Generated 0) "zone"
                      [("name", VStr "podman"); ("network", VList ["net1"])];
                    sect (Generated 1) "rule"
                      [("name", VStr "Allow-podman-DNS"); ("src", VStr "podman");
                       ("dest_port", VStr "53"); ("target", VStr "ACCEPT")]];
     "dhcp" := [sampleDnsmasq] ]}.

Definition worldOf (s : Store) (failing : list Call) : World :=
  mkWorld s s [] failing.

Definition sampleOptions : Options :=
  mkOptions (Some "bridge") "br-pod" "" "10.89.0.0/24" "10.89.0.1" None None
            (Some "_create_new_").

(** Stand-ins for the two collaborators of the runtime, for the samples. *)
Definition sampleParseInt (s : string) : option Z := digitsValue 0 s.
Definition sampleMask (p : option Z) : option string :=
  match p with
  | Some 24%Z => Some "255.255.255.0"
  | Some 16%Z => Some "255.255.0.0"
  | _ => None
  end.

(** * Properties *)

(** ** Facts about the store *)

Section StoreFacts.

Implicit Types (s : Store) (l : list Sect) (x : Sect) (sid : Sid).

Definition names (l : list Sect) : list Sid := map sname l.

Lemma sections_insert s c c' l :
  sections (<[c := l]> s) c' = if decide (c = c') then l else sections s c'.
Proof.
  unfold sections. rewrite lookup_insert. by case_decide.
Qed.

Lemma sections_alter (f : list Sect -> list Sect) s c c' :
  f [] = [] ->
  sections (alter f c s) c' = if decide (c = c') then f (sections s c) else sections s c'.
Proof.
  intros Hf. unfold sections. rewrite lookup_alter.
  case_decide; [subst|done]. by destruct (s !! c').
Qed.

Lemma sections_set s c sid o v c' :
  sections (uci_set s c sid o v) c' =
  if decide (c = c') then updSect sid (setOpt o v) (sections s c) else sections s c'.
Proof. unfold uci_set. by apply sections_alter. Qed.

Lemma sections_remove s c sid c' :
  sections (uci_remove s c sid) c' =
  if decide (c = c')
  then List.filter (fun x => negb (hasName sid x)) (sections s c)
  else sections s c'.
Proof. unfold uci_remove. by apply sections_alter. Qed.

Lemma sections_add s c ty sid c' :
  sections (uci_add s c ty sid) c' =
  if decide (c = c') then sections s c ++ [mkSect sid ty ∅] else sections s c'.
Proof. unfold uci_add. apply sections_insert. Qed.

Lemma sections_set_ne s c sid o v c' :
  c ≠ c' -> sections (uci_set s c sid o v) c' = sections s c'.
Proof. intros. rewrite sections_set. by case_decide. Qed.

Lemma sections_remove_ne s c sid c' :
  c ≠ c' -> sections (uci_remove s c sid) c' = sections s c'.
Proof. intros. rewrite sections_remove. by case_decide. Qed.

Lemma sections_add_ne s c ty sid c' :
  c ≠ c' -> sections (uci_add s c ty sid) c' = sections s c'.
Proof. intros. rewrite sections_add. by case_decide. Qed.

(** Every read goes through [sections]. *)
Definition lookupSect (l : list Sect) (sid : Sid) : option Sect :=
  List.find (hasName sid) l.

Definition lookupOpt (l : list Sect) (sid : Sid) (o : string) : option Value :=
  match lookupSect l sid with
  | Some x => sopts x !! o
  | None => None
  end.

Lemma uci_get_section_sections s c sid :
  uci_get_section s c sid = lookupSect (sections s c) sid.
Proof. reflexivity. Qed.

Lemma uci_get_sections s c sid o :
  uci_get s c sid o = lookupOpt (sections s c) sid o.
Proof. reflexivity. Qed.

Lemma hasName_true sid x : hasName sid x = true <-> sname x = sid.
Proof. unfold hasName. by rewrite bool_decide_eq_true. Qed.

Lemma hasName_false sid x : hasName sid x = false <-> sname x ≠ sid.
Proof. unfold hasName. by rewrite bool_decide_eq_false. Qed.

Lemma lookupSect_Some l sid x :
  lookupSect l sid = Some x -> In x l /\ sname x = sid.
Proof.
  intros H. apply find_some in H as [? ?]. split; [done|]. by apply hasName_true.
Qed.

Lemma lookupSect_None l sid : lookupSect l sid = None <-> sid ∉ names l.
Proof.
  unfold lookupSect, names. induction l as [|x l IH]; simpl.
  - split; [intros _; apply not_elem_of_nil | done].
  - destruct (hasName sid x) eqn:E.
    + apply hasName_true in E. split; [done|]. intros []. rewrite <- E. apply elem_of_cons. by left.
    + apply hasName_false in E. rewrite IH, not_elem_of_cons.
      split; [intros ?; split; [congruence|done] | by intros [_ ?]].
Qed.

Lemma lookupSect_is_Some l sid : is_Some (lookupSect l sid) <-> sid ∈ names l.
Proof.
  rewrite <- not_eq_None_Some, lookupSect_None.
  split; [apply dec_stable | auto].
Qed.

Lemma lookupSect_app l l' sid :
  lookupSect (l ++ l') sid =
  match lookupSect l sid with Some x => Some x | None => lookupSect l' sid end.
Proof.
  unfold lookupSect. induction l as [|x l IH]; simpl; [done|].
  by destruct (hasName sid x).
Qed.

Lemma names_updSect sid f l :
  (forall x, sname (f x) = sname x) -> names (updSect sid f l) = names l.
Proof.
  intros Hf. unfold names. induction l as [|x l IH]; simpl; [done|].
  destruct (hasName sid x); simpl; [by rewrite Hf | by rewrite IH].
Qed.

Lemma sname_setOpt o v x : sname (setOpt o v x) = sname x.
Proof. unfold setOpt. by repeat case_match. Qed.

Lemma stype_setOpt o v x : stype (setOpt o v x) = stype x.
Proof. unfold setOpt. by repeat case_match. Qed.

Lemma updSect_fresh sid f l : sid ∉ names l -> updSect sid f l = l.
Proof.
  unfold names. induction l as [|x l IH]; simpl; [done|].
  rewrite not_elem_of_cons. intros [Hx Hl].
  destruct (hasName sid x) eqn:E; [apply hasName_true in E; congruence|].
  by rewrite IH.
Qed.

Lemma updSect_app_fresh sid f l x :
  sid ∉ names l -> sname x = sid -> updSect sid f (l ++ [x]) = l ++ [f x].
Proof.
  unfold names. intros Hl Hx. induction l as [|y l IH]; simpl.
  - by rewrite (proj2 (hasName_true sid x) Hx).
  - simpl in Hl. rewrite not_elem_of_cons in Hl. destruct Hl as [Hy Hl].
    destruct (hasName sid y) eqn:E; [apply hasName_true in E; congruence|].
    by rewrite IH.
Qed.

Lemma updSect_app_old sid f l l' :
  sid ∈ names l -> updSect sid f (l ++ l') = updSect sid f l ++ l'.
Proof.
  unfold names. induction l as [|y l IH]; simpl.
  - intros H. by apply elem_of_nil in H.
  - intros H. destruct (hasName sid y) eqn:E; [done|].
    apply hasName_false in E. apply elem_of_cons in H as [H|H]; [congruence|].
    by rewrite IH.
Qed.

(** Generated ids are fresh. *)
Lemma genBound_above l k : Generated k ∈ names l -> (k < genBound l)%nat.
Proof.
  unfold names. induction l as [|x l IH]; simpl.
  - intros H. by apply elem_of_nil in H.
  - intros H. apply elem_of_cons in H as [H|H].
    + rewrite <- H. lia.
    + specialize (IH H). destruct (sname x); lia.
Qed.

Lemma genBound_fresh l : Generated (genBound l) ∉ names l.
Proof. intros H. apply genBound_above in H. lia. Qed.

(** Reads after an option was set. *)
Definition storedValue (v : option Value) : option Value :=
  match v with
  | Some (VStr "") | None => None
  | Some w => Some w
  end.

Lemma sopts_setOpt o v x o' :
  sopts (setOpt o v x) !! o' = if decide (o = o') then storedValue v else sopts x !! o'.
Proof.
  unfold setOpt, storedValue.
  repeat case_match; subst; cbn; rewrite ?lookup_delete, ?lookup_insert;
    by case_decide.
Qed.

Lemma lookupSect_updSect sid f l sid' :
  (forall x, sname (f x) = sname x) ->
  lookupSect (updSect sid f l) sid' =
  if decide (sid = sid') then f <$> lookupSect l sid else lookupSect l sid'.
Proof.
  intros Hf. unfold lookupSect. induction l as [|x l IH]; simpl.
  - by case_decide.
  - destruct (hasName sid x) eqn:E; simpl.
    + unfold hasName at 1. rewrite Hf. fold (hasName sid' x).
      case_decide as Hs; [subst; by rewrite E|].
      apply hasName_true in E.
      rewrite (proj2 (hasName_false sid' x)) by congruence. done.
    + rewrite IH. case_decide as Hs; [subst; by rewrite E|].
      by destruct (hasName sid' x).
Qed.

Lemma lookupOpt_updSect sid o v l sid' o' :
  lookupOpt (updSect sid (setOpt o v) l) sid' o' =
  if decide (sid = sid' /\ o = o')
  then (match lookupSect l sid with Some _ => storedValue v | None => None end)
  else lookupOpt l sid' o'.
Proof.
  unfold lookupOpt. rewrite lookupSect_updSect by apply sname_setOpt.
  case_decide as Hs.
  - subst. destruct (lookupSect l sid') as [x|]; simpl.
    + rewrite sopts_setOpt. case_decide as Ho.
      * by rewrite decide_True.
      * rewrite decide_False; [done | by intros [_ ?]].
    + by case_decide.
  - rewrite decide_False; [done | by intros [? _]].
Qed.

Lemma lookupSect_remove sid l sid' :
  lookupSect (List.filter (fun x => negb (hasName sid x)) l) sid' =
  if decide (sid = sid') then None else lookupSect l sid'.
Proof.
  unfold lookupSect. induction l as [|x l IH]; simpl.
  - by case_decide.
  - destruct (hasName sid x) eqn:E; simpl.
    + rewrite IH. case_decide as Hs; [done|].
      apply hasName_true in E.
      by rewrite (proj2 (hasName_false sid' x)) by congruence.
    + rewrite IH. case_decide as Hs; [|done].
      subst. by rewrite E.
Qed.

(** Sections of one type. *)
Definition ofType (ty : string) (x : Sect) : bool := bool_decide (stype x = ty).

Lemma uci_sections_sections s c ty :
  uci_sections s c ty = List.filter (ofType ty) (sections s c).
Proof. reflexivity. Qed.

(** Two section lists with the same names and types, position by position. *)
Definition sameShape (l l' : list Sect) : Prop :=
  Forall2 (fun x y => sname x = sname y /\ stype x = stype y) l l'.

Lemma sameShape_refl l : sameShape l l.
Proof. unfold sameShape. by induction l; constructor. Qed.

Lemma sameShape_updSect sid f l :
  (forall x, sname (f x) = sname x) ->
  (forall x, stype (f x) = stype x) ->
  sameShape l (updSect sid f l).
Proof.
  intros Hn Ht. unfold sameShape. induction l as [|x l IH]; simpl; [constructor|].
  destruct (hasName sid x); constructor; auto using sameShape_refl.
  apply sameShape_refl.
Qed.

Lemma sameShape_filter ty l l' :
  sameShape l l' -> sameShape (List.filter (ofType ty) l) (List.filter (ofType ty) l').
Proof.
  unfold sameShape. induction 1 as [|x y l l' [Hn Ht] _ IH]; simpl; [constructor|].
  unfold ofType in *. rewrite Ht. destruct (bool_decide (stype y = ty)); [|done].
  by constructor.
Qed.

Lemma sameShape_names l l' : sameShape l l' -> names l = names l'.
Proof.
  unfold sameShape, names. induction 1 as [|x y l l' [Hn _] _ IH]; simpl; [done|].
  by rewrite Hn, IH.
Qed.

(** A search that looks at names only finds sections of the same name in
    lists of the same shape. *)
Lemma sameShape_find (P Q : Sect -> bool) l l' :
  sameShape l l' ->
  (forall x y, sname x = sname y -> P x = Q y) ->
  option_Forall2 (fun x y => sname x = sname y) (List.find P l) (List.find Q l').
Proof.
  intros Hs HPQ. induction Hs as [|x y l l' [Hn _] _ IH]; simpl; [constructor|].
  rewrite (HPQ x y Hn). destruct (Q y); [by constructor | done].
Qed.

Lemma find_ext_in (P Q : Sect -> bool) l :
  (forall x, In x l -> P x = Q x) -> List.find P l = List.find Q l.
Proof.
  induction l as [|x l IH]; simpl; [done|]. intros H.
  rewrite (H x) by auto. destruct (Q x); [done|]. apply IH. auto.
Qed.

End StoreFacts.

(** ** Running promises *)

Lemma fails_true w c : c ∈ failing w -> fails w c = true.
Proof. intros. unfold fails. by apply bool_decide_eq_true. Qed.

Lemma fails_false w c : c ∉ failing w -> fails w c = false.
Proof. intros. unfold fails. by apply bool_decide_eq_false. Qed.

Lemma withStaged_id w : withStaged w (staged w) = w.
Proof. by destruct w. Qed.

(** A read-only callback leaves the world alone. *)
Lemma callback_read {A} (f : Store -> A) w :
  callback (fun s => (s, f s)) w = (w, Resolved (f (staged w))).
Proof. unfold callback. by rewrite withStaged_id. Qed.

Lemma all2_load c1 c2 w :
  all2 (uci_load c1) (uci_load c2) w =
  (w, if fails w (CallLoad c1) || fails w (CallLoad c2) then Rejected else Resolved tt).
Proof.
  unfold all2, uci_load, settle.
  by destruct (fails w (CallLoad c1)), (fails w (CallLoad c2)).
Qed.

(** ** Status inspection *)

Lemma isIntegrationComplete_run n drv w :
  isIntegrationComplete n drv w =
  (w, Resolved
        (if fails w (CallLoad "network") || fails w (CallLoad "dhcp")
         then mkStatus false ["unknown"]
                (mkDetails false false false (orDefault drv "bridge"))
         else inspect n (orDefault drv "bridge") (staged w))).
Proof.
  unfold isIntegrationComplete, catch, mbind, Promise_bind.
  rewrite all2_load.
  destruct (fails w (CallLoad "network") || fails w (CallLoad "dhcp")); [done|].
  by rewrite callback_read.
Qed.

(** C8: [isIntegrationComplete] always resolves, and when loading the
    network or the dhcp configuration fails it resolves to
    [{complete: false, missing: ['unknown'], details}] with the details
    object as initialised, leaving the store as it was. *)
Theorem isIntegrationComplete_never_rejects (n : string) (drv : option string)
    (w : World) :
  (exists st, isIntegrationComplete n drv w = (w, Resolved st)) /\
  (CallLoad "network" ∈ failing w \/ CallLoad "dhcp" ∈ failing w ->
   isIntegrationComplete n drv w =
   (w, Resolved (mkStatus false ["unknown"]
                   (mkDetails false false false (orDefault drv "bridge"))))).
Proof.
  rewrite isIntegrationComplete_run. split; [eauto|].
  intros [H|H]; rewrite (fails_true _ _ H); [done|].
  by rewrite orb_true_r.
Qed.

Lemma isIntegrationComplete_never_rejects_witness :
  isIntegrationComplete "net1" (Some "bridge")
    (worldOf sampleStore [CallLoad "dhcp"]) =
  (worldOf sampleStore [CallLoad "dhcp"],
   Resolved (mkStatus false ["unknown"] (mkDetails false false false "bridge"))).
Proof.
  apply (proj2 (isIntegrationComplete_never_rejects "net1" (Some "bridge")
                  (worldOf sampleStore [CallLoad "dhcp"]))).
  right. simpl. apply elem_of_cons. by left.
Defined.

(** C10: [hasIntegration] and [getIntegration] always resolve, and when
    loading the network configuration fails they resolve to [false] and
    [null]. *)
Theorem hasIntegration_getIntegration_never_reject (n : string) (w : World) :
  (exists b, hasIntegration n w = (w, Resolved b)) /\
  (exists r, getIntegration n w = (w, Resolved r)) /\
  (CallLoad "network" ∈ failing w ->
   hasIntegration n w = (w, Resolved false) /\
   getIntegration n w = (w, Resolved None)).
Proof.
  unfold hasIntegration, getIntegration, catch, mbind, Promise_bind, uci_load, settle.
  destruct (fails w (CallLoad "network")) eqn:E.
  - split; [eauto | split; [eauto | done]].
  - rewrite !callback_read. split; [eauto | split; [eauto |]].
    intros H. apply fails_true in H. congruence.
Qed.

Lemma hasIntegration_getIntegration_never_reject_witness :
  hasIntegration "net1" (worldOf sampleStore [CallLoad "network"]) =
    (worldOf sampleStore [CallLoad "network"], Resolved false) /\
  getIntegration "net1" (worldOf sampleStore [CallLoad "network"]) =
    (worldOf sampleStore [CallLoad "network"], Resolved None).
Proof.
  apply (proj2 (proj2 (hasIntegration_getIntegration_never_reject "net1"
                         (worldOf sampleStore [CallLoad "network"])))).
  simpl. apply elem_of_cons. by left.
Defined.

Lemma uci_get_Some_section s c sid o v :
  uci_get s c sid o = Some v -> is_Some (uci_get_section s c sid).
Proof. unfold uci_get. destruct (uci_get_section s c sid); [eauto | done]. Qed.

(** C6: for a bridge-driver network whose interface names device [d], a
    section called [d] whose type is not exactly 'bridge' is reported as a
    missing device; and on a host whose dhcp configuration has no dnsmasq
    section, 'dnsmasq' is never reported missing and the exclusion counts as
    present once the bridge device checks out. *)
Theorem wrong_type_device_is_missing (n : string) (drv : option string) (w : World) :
  needsBridge (orDefault drv "bridge") = true ->
  CallLoad "network" ∉ failing w ->
  CallLoad "dhcp" ∉ failing w ->
  exists st,
    isIntegrationComplete n drv w = (w, Resolved st) /\
    (forall d,
        uci_get (staged w) "network" (Named n) "device" = Some (VStr d) ->
        d <> "" ->
        is_Some (uci_get_section (staged w) "network" (Named d)) ->
        uci_get (staged w) "network" (Named d) "type" <> Some (VStr "bridge") ->
        ("device" ∈ missing st) /\ hasDevice (details st) = false /\
        complete st = false) /\
    (uci_sections (staged w) "dhcp" "dnsmasq" = [] ->
     ("dnsmasq" ∉ missing st) /\
     forall d,
       uci_get (staged w) "network" (Named n) "device" = Some (VStr d) ->
       d <> "" ->
       uci_get (staged w) "network" (Named d) "type" = Some (VStr "bridge") ->
       hasDevice (details st) = true /\
       hasDnsmasqExclusion (details st) = true /\
       complete st = true).
Proof.
  intros Hb Hn Hd. rewrite isIntegrationComplete_run.
  rewrite (fails_false _ _ Hn), (fails_false _ _ Hd). simpl.
  eexists. split; [reflexivity|]. split.
  - intros d Hdev Hne [x Hx] Hty. unfold inspect.
    rewrite Hdev. simpl. rewrite (bool_decide_eq_false_2 _ Hne). simpl.
    rewrite Hb, Hx. rewrite (bool_decide_eq_false_2 _ Hty). simpl.
    split; [|split; [done|]].
    + apply elem_of_app. right. apply elem_of_cons. by left.
    + apply bool_decide_eq_false. rewrite length_app. simpl. lia.
  - intros Hno. split.
    + unfold inspect. rewrite Hno.
      destruct (uci_get_section (staged w) "network" (Named n));
        repeat (case_match; simpl);
        intros Hin; apply list_elem_of_In in Hin; simpl in Hin; intuition discriminate.
    + intros d Hdev Hne Hty. unfold inspect.
      destruct (uci_get_Some_section _ _ _ _ _ Hdev) as [x Hx].
      destruct (uci_get_Some_section _ _ _ _ _ Hty) as [y Hy].
      rewrite Hdev. simpl. rewrite (bool_decide_eq_false_2 _ Hne). simpl.
      rewrite Hb, Hy, Hty, Hno, Hx. simpl. done.
Qed.

Lemma wrong_type_device_is_missing_witness :
  ("device" ∈ missing (inspect "net1" "bridge" wrongTypeStore)) /\
  ("dnsmasq" ∉ missing (inspect "net1" "bridge" noDnsmasqStore)) /\
  complete (inspect "net1" "bridge" noDnsmasqStore) = true.
Proof.
  destruct (wrong_type_device_is_missing "net1" (Some "bridge")
              (worldOf wrongTypeStore []) eq_refl) as (st & Hrun & Hwrong & _);
    [apply not_elem_of_nil | apply not_elem_of_nil |].
  destruct (wrong_type_device_is_missing "net1" (Some "bridge")
              (worldOf noDnsmasqStore []) eq_refl) as (st' & Hrun' & _ & Hnone);
    [apply not_elem_of_nil | apply not_elem_of_nil |].
  rewrite isIntegrationComplete_run in Hrun, Hrun'.
  injection Hrun as <-. injection Hrun' as <-.
  destruct (Hwrong "br-pod") as (Hmiss & _); [reflexivity | done | by eexists | done |].
  destruct (Hnone eq_refl) as (Hdns & Hok).
  destruct (Hok "br-pod") as (_ & _ & Hcomplete); [reflexivity | done | reflexivity |].
  exact (conj Hmiss (conj Hdns Hcomplete)).
Defined.

(** ** The commit sequence *)

(** What [save], [apply(90)], [flushCache] leave behind when the edited
    store is [s]: the single commit every operation performs. *)
Definition commit (s : Store) (w : World) : World * Outcome unit :=
  if fails w CallSave then
    (mkWorld s (saved w) (trace w ++ [EvSave]) (failing w), Rejected)
  else if fails w CallApply then
    (mkWorld s s (trace w ++ [EvSave; EvApply 90]) (failing w), Rejected)
  else
    (mkWorld s s (trace w ++ [EvSave; EvApply 90; EvFlushCache]) (failing w),
     if fails w CallFlushCache then Rejected else Resolved tt).

Ltac run_promise :=
  unfold mbind, mret, Promise_bind, Promise_ret, catch, callback, callbackThrowing,
    uci_load, uci_save, uci_apply, flushCache, fs_exec, delay, settle, fails,
    logEvent, withStaged;
  cbn [staged saved trace failing fst snd].

(** Case analysis on the collaborators that reject. *)
Ltac split_calls :=
  repeat (cbn;
          match goal with
          | |- context [bool_decide (?c ∈ failing ?w)] =>
              destruct (bool_decide (c ∈ failing w))
          end);
  cbn; rewrite <- ?app_assoc; cbn; try done.

Lemma commit_run {A} (f : Store -> Store * A) w :
  (a ← callback f; uci_save ;; uci_apply 90 ;; flushCache ;; mret a) w =
  match commit (f (staged w)).1 w with
  | (w', Resolved _) => (w', Resolved (f (staged w)).2)
  | (w', Rejected) => (w', Rejected)
  end.
Proof.
  unfold commit. run_promise. destruct (f (staged w)) as [s a]. cbn.
  split_calls.
Qed.

Lemma commit_failing s w : failing (commit s w).1 = failing w.
Proof. unfold commit. by repeat case_match. Qed.

Lemma commit_staged s w : staged (commit s w).1 = s.
Proof. unfold commit. by repeat case_match. Qed.

(** A commit that resolves has persisted exactly the staged store, with one
    save followed by one apply and the cache flush. *)
Lemma commit_resolved s w w' :
  commit s w = (w', Resolved tt) ->
  w' = mkWorld s s (trace w ++ [EvSave; EvApply 90; EvFlushCache]) (failing w).
Proof. unfold commit. repeat case_match; congruence. Qed.

(** What [_configureDnsmasq] leaves behind. *)
Lemma _configureDnsmasq_run b e w :
  _configureDnsmasq b e w =
  if fails w (CallLoad "dhcp") then (w, Rejected)
  else
    let '(s, skip) := dnsmasqEdits b e (staged w) in
    if skip then (withStaged w s, Resolved tt)
    else if fails w CallApply then
      (mkWorld s (saved w) (trace w ++ [EvApply 90]) (failing w), Rejected)
    else if fails w CallSave then
      (mkWorld s (saved w) (trace w ++ [EvApply 90; EvSave]) (failing w), Rejected)
    else
      (mkWorld s s
         (trace w ++ [EvApply 90; EvSave; EvExec "/etc/init.d/dnsmasq" ["restart"]]
                  ++ (if fails w CallExec then [] else [EvDelay 1000]))
         (failing w),
       Resolved tt).
Proof.
  unfold _configureDnsmasq, _restartDnsmasq. run_promise.
  destruct (bool_decide (CallLoad "dhcp" ∈ failing w)); [done|].
  destruct (dnsmasqEdits b e (staged w)) as [s [|]]; [done|]. cbn.
  split_calls.
Qed.

Lemma commit_then {A B} (f : Store -> Store * A) (k : A -> Promise B) w :
  (a ← callback f; uci_save ;; uci_apply 90 ;; flushCache ;; k a) w =
  match commit (f (staged w)).1 w with
  | (w', Resolved _) => k (f (staged w)).2 w'
  | (w', Rejected) => (w', Rejected)
  end.
Proof.
  unfold commit. run_promise. destruct (f (staged w)) as [s a].
  cbn [fst snd]. generalize (k a). intros p. split_calls.
Qed.

Lemma commit_then_throwing {A B} (f : Store -> Store * option A)
    (k : A -> Promise B) w :
  (a ← callbackThrowing f; uci_save ;; uci_apply 90 ;; flushCache ;; k a) w =
  match (f (staged w)).2 with
  | Some a =>
      match commit (f (staged w)).1 w with
      | (w', Resolved _) => k a w'
      | (w', Rejected) => (w', Rejected)
      end
  | None => (withStaged w (f (staged w)).1, Rejected)
  end.
Proof.
  unfold commit. run_promise. destruct (f (staged w)) as [s [a|]]; [|done].
  cbn [fst snd]. generalize (k a). intros p. split_calls.
Qed.


(** ** Which configuration an edit touches *)

(** [s'] differs from [s] in configuration [c] at most. *)
Definition touches (c : string) (s s' : Store) : Prop :=
  forall c', c' <> c -> s' !! c' = s !! c'.

Lemma touches_refl c s : touches c s s.
Proof. by intros c' _. Qed.

Lemma touches_trans c s1 s2 s3 : touches c s1 s2 -> touches c s2 s3 -> touches c s1 s3.
Proof. intros H12 H23 c' Hc. by rewrite H23, H12. Qed.

Lemma touches_set s c sid o v : touches c s (uci_set s c sid o v).
Proof. intros c' Hc. unfold uci_set. by rewrite lookup_alter_ne. Qed.

Lemma touches_remove s c sid : touches c s (uci_remove s c sid).
Proof. intros c' Hc. unfold uci_remove. by rewrite lookup_alter_ne. Qed.

Lemma touches_add s c ty sid : touches c s (uci_add s c ty sid).
Proof. intros c' Hc. unfold uci_add. by rewrite lookup_insert_ne. Qed.

Lemma touches_sections c s s' c' :
  touches c s s' -> c' <> c -> sections s' c' = sections s c'.
Proof. intros H Hc. unfold sections. by rewrite H. Qed.

Ltac frame_steps :=
  repeat first
    [ apply touches_refl
    | apply touches_set
    | apply touches_remove
    | apply touches_add
    | (eapply touches_trans; [| first [apply touches_set | apply touches_remove
                                       | apply touches_add]]) ].

Lemma touches_dnsmasqEdits b e s : touches "dhcp" s (dnsmasqEdits b e s).1.
Proof.
  unfold dnsmasqEdits, uci_unset. repeat case_match; cbn [fst]; frame_steps.
Qed.

Lemma touches_removeEdits_dhcp n d drv s :
  (removeEdits n d drv s).1 !! "dhcp" = s !! "dhcp".
Proof.
  assert (Hset : forall s c sid o v, c <> "dhcp" ->
            uci_set s c sid o v !! "dhcp" = s !! "dhcp").
  { intros. by apply touches_set. }
  assert (Hrm : forall s c sid, c <> "dhcp" ->
            uci_remove s c sid !! "dhcp" = s !! "dhcp").
  { intros. by apply touches_remove. }
  unfold removeEdits, removeZoneEdits, removeNetworkEdits.
  repeat (case_match; cbn [fst]); simplify_eq; rewrite ?Hrm, ?Hset by done; try done.
Qed.

Lemma commit_saved s w : saved (commit s w).1 = saved w \/ saved (commit s w).1 = s.
Proof. unfold commit. repeat case_match; cbn; auto. Qed.

Lemma _configureDnsmasq_frame b e w c :
  c <> "dhcp" ->
  staged (_configureDnsmasq b e w).1 !! c = staged w !! c /\
  (saved (_configureDnsmasq b e w).1 !! c = saved w !! c \/
   saved (_configureDnsmasq b e w).1 !! c = staged w !! c).
Proof.
  intros Hc. rewrite _configureDnsmasq_run.
  pose proof (touches_dnsmasqEdits b e (staged w) c Hc) as Hs.
  destruct (dnsmasqEdits b e (staged w)) as [s skip]. cbn [fst] in Hs.
  repeat case_match; cbn; auto.
Qed.

(** The shape every operation's commit takes: the buffered edits go out in
    at most one commit ([w1] is the world after it), and what may follow is
    only the dnsmasq step of a bridge network, run after a commit that
    resolved and touching the dhcp configuration alone. *)
Definition CommitsOnce (bridgeStep : bool) (w w' : World) : Prop :=
  exists w1,
    (w1 = w \/ exists s, w1 = (commit s w).1) /\
    singleCommit (newEvents w w1) /\
    (w' = w1 \/
     (bridgeStep = true /\
      exists s b e, commit s w = (w1, Resolved tt) /\
                    w' = (_configureDnsmasq b e w1).1)) /\
    (forall c, c <> "dhcp" -> staged w' !! c = staged w1 !! c).

Lemma newEvents_refl w : newEvents w w = [].
Proof. unfold newEvents. by rewrite drop_all. Qed.

Lemma newEvents_app w w' t : trace w' = trace w ++ t -> newEvents w w' = t.
Proof. unfold newEvents. intros ->. by rewrite drop_app_length. Qed.

Lemma singleCommit_nil : singleCommit [].
Proof. unfold singleCommit. cbn. auto with lia. Qed.

Lemma singleCommit_commit s w : singleCommit (newEvents w (commit s w).1).
Proof.
  unfold commit.
  repeat case_match; cbn [fst]; erewrite newEvents_app by reflexivity;
    unfold singleCommit; cbn; auto with lia.
Qed.

Lemma CommitsOnce_without_bridge w w' :
  CommitsOnce false w w' -> singleCommit (newEvents w w').
Proof.
  intros (w1 & _ & Hsingle & [->|[? _]] & _); [done | discriminate].
Qed.

Lemma CommitsOnce_stay b w : CommitsOnce b w w.
Proof.
  exists w. rewrite newEvents_refl.
  split; [by left|]. split; [apply singleCommit_nil|]. split; [by left|done].
Qed.

Lemma CommitsOnce_commit b s w : CommitsOnce b w (commit s w).1.
Proof.
  exists (commit s w).1.
  split; [right; by exists s|]. split; [apply singleCommit_commit|].
  split; [by left|done].
Qed.

Lemma CommitsOnce_dnsmasq s w w1 b e :
  commit s w = (w1, Resolved tt) ->
  CommitsOnce true w (_configureDnsmasq b e w1).1.
Proof.
  intros Hc. exists w1.
  split; [right; exists s; by rewrite Hc|].
  split; [replace w1 with (commit s w).1 by (by rewrite Hc); apply singleCommit_commit|].
  split; [right; split; [done|]; by exists s, b, e|].
  intros c Hne. by apply _configureDnsmasq_frame.
Qed.

(** When the callback of [removeIntegration] throws, no edit was made. *)
Lemma removeEdits_throw n d drv s s' :
  removeEdits n d drv s = (s', None) -> s' = s.
Proof.
  unfold removeEdits. intros H.
  repeat (case_match; simplify_eq); done.
Qed.

Section Operations.

Variable parseInt : string -> option Z.
Variable prefixToMask : option Z -> option string.

Let createEdits' := createEdits parseInt prefixToMask.
Let createIntegration' := createIntegration parseInt prefixToMask.
Let repairEdits' := repairEdits parseInt prefixToMask.
Let repairIntegration' := repairIntegration parseInt prefixToMask.

Definition driverOf (o : Options) : string := orDefault (driver o) "bridge".

Lemma createIntegration_run n o w :
  createIntegration' n o w =
  if fails w (CallLoad "network") || fails w (CallLoad "firewall")
  then (w, Rejected)
  else
    match commit (createEdits' n o (staged w)) w with
    | (w1, Resolved _) =>
        if needsBridge (driverOf o)
        then _configureDnsmasq (deviceOf o) true w1
        else (w1, Resolved tt)
    | (w1, Rejected) => (w1, Rejected)
    end.
Proof.
  unfold createIntegration', createIntegration.
  unfold mbind at 1. unfold Promise_bind at 1. rewrite all2_load.
  destruct (fails w (CallLoad "network") || fails w (CallLoad "firewall")); [done|].
  etrans.
  { apply (commit_then (fun s => (createEdits' n o s, tt))
             (fun _ => if needsBridge (driverOf o)
                       then _configureDnsmasq (deviceOf o) true else mret tt)). }
  cbn [fst snd]. destruct (commit _ w) as [w1 [[]|]]; [|done].
  by destruct (needsBridge _).
Qed.

Lemma removeIntegration_run n d drv w :
  removeIntegration n d drv w =
  if fails w (CallLoad "network") || fails w (CallLoad "firewall")
  then (w, Rejected)
  else
    let r := removeEdits n d (orDefault drv "bridge") (staged w) in
    match r.2 with
    | Some shouldRemoveBridge =>
        match commit r.1 w with
        | (w1, Resolved _) =>
            if needsBridge (orDefault drv "bridge") && shouldRemoveBridge
            then _configureDnsmasq d false w1
            else (w1, Resolved tt)
        | (w1, Rejected) => (w1, Rejected)
        end
    | None => (withStaged w r.1, Rejected)
    end.
Proof.
  unfold removeIntegration.
  unfold mbind at 1. unfold Promise_bind at 1. rewrite all2_load.
  destruct (fails w (CallLoad "network") || fails w (CallLoad "firewall")); [done|].
  etrans.
  { apply (commit_then_throwing (removeEdits n d (orDefault drv "bridge"))
             (fun b : bool => if needsBridge (orDefault drv "bridge") && b
                              then _configureDnsmasq d false else mret tt)). }
  cbn zeta. destruct (removeEdits _ _ _ _).2 as [b|]; [|done].
  destruct (commit _ w) as [w1 [[]|]]; [|done].
  by destruct (needsBridge _ && b).
Qed.

Lemma touches_addBridgeDevice d v s : touches "network" s (addBridgeDevice d v s).
Proof. unfold addBridgeDevice. case_match; frame_steps. Qed.

Lemma touches_addInterface n d o s :
  touches "network" s (addInterface parseInt prefixToMask n d o s).
Proof. unfold addInterface. frame_steps. Qed.

Lemma touches_repairEdits n o st s : touches "network" s (repairEdits' n o st s).1.
Proof.
  unfold repairEdits', repairEdits.
  pose proof (touches_addBridgeDevice (deviceOf o) None s) as Hd.
  repeat (case_match; simplify_eq; cbn [fst]);
    first [ done
          | apply touches_refl
          | apply touches_addInterface
          | (eapply touches_trans; [exact Hd | apply touches_addInterface]) ].
Qed.

(** The status [repairIntegration] starts from. *)
Definition statusOf (n : string) (o : Options) (w : World) : Status :=
  if fails w (CallLoad "network") || fails w (CallLoad "dhcp")
  then mkStatus false ["unknown"] (mkDetails false false false (driverOf o))
  else inspect n (driverOf o) (staged w).

Lemma driverOf_nonempty o : driverOf o <> "".
Proof.
  unfold driverOf, orDefault. destruct (driver o) as [d|]; [|done].
  case_bool_decide; done.
Qed.

Lemma orDefault_driverOf o : orDefault (Some (driverOf o)) "bridge" = driverOf o.
Proof.
  unfold orDefault at 1. rewrite bool_decide_eq_false_2; [done|].
  apply driverOf_nonempty.
Qed.

Lemma statusOf_run n o w :
  isIntegrationComplete n (Some (driverOf o)) w = (w, Resolved (statusOf n o w)).
Proof.
  rewrite isIntegrationComplete_run, orDefault_driverOf. reflexivity.
Qed.

Lemma repairIntegration_run n o w :
  repairIntegration' n o w =
  let st := statusOf n o w in
  if complete st then (w, Resolved (mkRepairResult [] ["complete"] (details st)))
  else if fails w (CallLoad "network") || fails w (CallLoad "dhcp")
  then (w, Rejected)
  else
    let r := repairEdits' n o (details st) (staged w) in
    match commit r.1 w with
    | (w1, Resolved _) =>
        if negb (hasDnsmasqExclusion (details st)) && needsBridge (driverOf o)
        then
          match _configureDnsmasq (deviceOf o) true w1 with
          | (w2, Resolved _) =>
              (w2, Resolved (mkRepairResult (r.2.1 ++ ["dnsmasq"]) r.2.2 (details st)))
          | (w2, Rejected) => (w2, Rejected)
          end
        else
          (w1, Resolved (mkRepairResult r.2.1 (r.2.2 ++ ["dnsmasq"]) (details st)))
    | (w1, Rejected) => (w1, Rejected)
    end.
Proof.
  unfold repairIntegration', repairIntegration.
  unfold mbind at 1. unfold Promise_bind at 1.
  fold (driverOf o). rewrite statusOf_run. cbn zeta.
  destruct (complete (statusOf n o w)); [done|].
  unfold mbind at 1. unfold Promise_bind at 1. rewrite all2_load.
  destruct (fails w (CallLoad "network") || fails w (CallLoad "dhcp")); [done|].
  etrans.
  { apply (commit_then (repairEdits' n o (details (statusOf n o w)))
             (fun lists =>
                lists ←
                  (let '(added, skipped) := lists in
                   if negb (hasDnsmasqExclusion (details (statusOf n o w)))
                      && needsBridge (driverOf o)
                   then _configureDnsmasq (deviceOf o) true ;;
                        mret (added ++ ["dnsmasq"], skipped)
                   else mret (added, skipped ++ ["dnsmasq"]));
                mret (mkRepairResult lists.1 lists.2 (details (statusOf n o w))))). }
  destruct (repairEdits' n o _ (staged w)) as [s [a k]]. cbn [fst snd].
  destruct (commit s w) as [w1 [[]|]]; [|done].
  destruct (negb _ && _); [|done].
  unfold mbind, Promise_bind. by destruct (_configureDnsmasq _ _ w1) as [w2 [[]|]].
Qed.

(** C5: [repairIntegration] leaves the firewall configuration as it was,
    in the staged store and in what it persists (the saved firewall
    configuration stays, or becomes the unchanged staged one); and when the
    status check reports the integration complete it changes nothing at
    all and resolves to [{added: [], skipped: ['complete'], details}]. *)
Theorem repairIntegration_leaves_firewall (n : string) (o : Options) (w : World) :
  staged (repairIntegration' n o w).1 !! "firewall" = staged w !! "firewall" /\
  (saved (repairIntegration' n o w).1 !! "firewall" = saved w !! "firewall" \/
   saved (repairIntegration' n o w).1 !! "firewall" = staged w !! "firewall") /\
  (forall st,
      isIntegrationComplete n (Some (driverOf o)) w = (w, Resolved st) ->
      complete st = true ->
      repairIntegration' n o w =
      (w, Resolved (mkRepairResult [] ["complete"] (details st)))).
Proof.
  rewrite repairIntegration_run. cbn zeta. split; [|split].
  3: { intros st Hst Hc. rewrite statusOf_run in Hst. injection Hst as <-.
       by rewrite Hc. }
  all: destruct (complete (statusOf n o w)); [auto|].
  all: destruct (fails w (CallLoad "network") || fails w (CallLoad "dhcp")); [auto|].
  all: pose proof (touches_repairEdits n o (details (statusOf n o w)) (staged w)
                     "firewall" ltac:(done)) as Hr.
  all: destruct (repairEdits' n o _ (staged w)) as [s r]; cbn [fst snd] in *.
  all: pose proof (commit_staged s w) as Hcs; pose proof (commit_saved s w) as Hcv.
  all: destruct (commit s w) as [w1 [[]|]]; cbn [fst] in *.
  all: try (destruct (negb _ && _)).
  all: try (destruct (_configureDnsmasq_frame (deviceOf o) true w1 "firewall")
              as [Hd1 Hd2]; [done|];
            destruct (_configureDnsmasq (deviceOf o) true w1) as [w2 [[]|]];
            cbn [fst] in * ).
  all: rewrite ?Hd1, ?Hcs, ?Hr; try done.
  all: destruct Hcv as [Hcv|Hcv]; try destruct Hd2 as [Hd2|Hd2];
    rewrite ?Hd2, ?Hcs, ?Hcv, ?Hr; auto.
Qed.

(** C4, as the code has it: each of [createIntegration],
    [repairIntegration] and [removeIntegration] sends its buffered network
    and firewall edits out in at most one commit, one save followed by one
    apply(90) and the cache flush, never an apply ahead of the save; the
    only calls that may follow are those of the dnsmasq step of a bridge
    network, which runs after that commit resolved and edits the dhcp
    configuration alone. For macvlan/ipvlan the whole operation is that
    single commit. *)
Theorem operations_commit_once (n d : string) (o : Options) (drv : option string)
    (w : World) :
  CommitsOnce (needsBridge (driverOf o)) w (createIntegration' n o w).1 /\
  CommitsOnce (needsBridge (driverOf o)) w (repairIntegration' n o w).1 /\
  CommitsOnce (needsBridge (orDefault drv "bridge")) w (removeIntegration n d drv w).1 /\
  (forall w', CommitsOnce false w w' -> singleCommit (newEvents w w')).
Proof.
  split; [|split; [|split]].
  - rewrite createIntegration_run.
    destruct (fails w (CallLoad "network") || fails w (CallLoad "firewall"));
      [apply CommitsOnce_stay|].
    pose proof (CommitsOnce_commit (needsBridge (driverOf o))
                  (createEdits' n o (staged w)) w) as Hc.
    destruct (commit (createEdits' n o (staged w)) w) as [w1 [[]|]] eqn:E; [|done].
    destruct (needsBridge (driverOf o)); [|done].
    by eapply CommitsOnce_dnsmasq.
  - rewrite repairIntegration_run. cbn zeta.
    destruct (complete (statusOf n o w)); [apply CommitsOnce_stay|].
    destruct (fails w (CallLoad "network") || fails w (CallLoad "dhcp"));
      [apply CommitsOnce_stay|].
    destruct (repairEdits' n o _ (staged w)) as [s r]. cbn [fst snd].
    pose proof (CommitsOnce_commit (needsBridge (driverOf o)) s w) as Hc.
    destruct (commit s w) as [w1 [[]|]] eqn:E; [|done].
    destruct (hasDnsmasqExclusion _); cbn [negb andb]; [done|].
    destruct (needsBridge (driverOf o)); [|done].
    pose proof (CommitsOnce_dnsmasq s w w1 (deviceOf o) true E) as Hd.
    by destruct (_configureDnsmasq (deviceOf o) true w1) as [w2 [[]|]].
  - rewrite removeIntegration_run. cbn zeta.
    destruct (fails w (CallLoad "network") || fails w (CallLoad "firewall"));
      [apply CommitsOnce_stay|].
    destruct (removeEdits n d _ (staged w)) as [s [b|]] eqn:E; cbn [fst snd].
    + pose proof (CommitsOnce_commit (needsBridge (orDefault drv "bridge")) s w) as Hc.
      clear E. destruct (commit s w) as [w1 [[]|]] eqn:E; [|done].
      destruct (needsBridge (orDefault drv "bridge")); cbn [andb]; [|done].
      destruct b; [|done]. by eapply CommitsOnce_dnsmasq.
    + (* the callback threw before any edit: nothing was issued *)
      apply removeEdits_throw in E as ->. rewrite withStaged_id.
      apply CommitsOnce_stay.
  - apply CommitsOnce_without_bridge.
Qed.

End Operations.

Lemma repairIntegration_leaves_firewall_witness :
  repairIntegration sampleParseInt sampleMask "net1" sampleOptions
    (worldOf sampleStore []) =
  (worldOf sampleStore [],
   Resolved (mkRepairResult [] ["complete"] (mkDetails true true true "bridge"))).
Proof.
  apply (proj2 (proj2 (repairIntegration_leaves_firewall sampleParseInt sampleMask
                         "net1" sampleOptions (worldOf sampleStore [])))
           (mkStatus true [] (mkDetails true true true "bridge")));
    reflexivity.
Defined.

(** C4 as stated does not hold: creating the integration of a bridge
    network on a host with dnsmasq issues two saves and two applies, the
    second apply ahead of the second save. *)
Lemma createIntegration_commits_twice :
  newEvents (worldOf sampleStore [])
    (createIntegration sampleParseInt sampleMask "net2" sampleOptions
       (worldOf sampleStore [])).1 =
  [EvSave; EvApply 90; EvFlushCache;
   EvApply 90; EvSave; EvExec "/etc/init.d/dnsmasq" ["restart"]; EvDelay 1000] /\
  ~ singleCommit
      (newEvents (worldOf sampleStore [])
         (createIntegration sampleParseInt sampleMask "net2" sampleOptions
            (worldOf sampleStore [])).1).
Proof.
  assert (E : newEvents (worldOf sampleStore [])
                (createIntegration sampleParseInt sampleMask "net2" sampleOptions
                   (worldOf sampleStore [])).1 =
              [EvSave; EvApply 90; EvFlushCache;
               EvApply 90; EvSave; EvExec "/etc/init.d/dnsmasq" ["restart"];
               EvDelay 1000]) by (vm_compute; reflexivity).
  split; [exact E|]. rewrite E. intros (Hs & _ & _). cbn in Hs. lia.
Qed.

(** ** Removal *)

Definition without (sid : Sid) (l : list Sect) : list Sect :=
  List.filter (fun x => negb (hasName sid x)) l.

Lemma without_absent sid l : sid ∉ names l -> without sid l = l.
Proof.
  unfold without, names. induction l as [|x l IH]; simpl; [done|].
  rewrite not_elem_of_cons. intros [Hx Hl].
  rewrite (proj2 (hasName_false sid x)) by done. simpl. by rewrite IH.
Qed.

Lemma touches_removeZoneEdits n s s1 :
  removeZoneEdits n s = Some s1 -> touches "firewall" s s1.
Proof.
  unfold removeZoneEdits. intros H.
  repeat (case_match; simplify_eq); frame_steps.
Qed.

Lemma others_count (P P' T N : Sect -> bool) l :
  (forall x, N x = true -> P x = P' x) ->
  (forall x, N x = false -> P' x = false) ->
  bool_decide (length (List.filter P (List.filter T (List.filter N l))) = 0%nat) =
  negb (existsb P' (List.filter T l)).
Proof.
  intros Hin Hout. induction l as [|x l IH]; simpl; [done|].
  destruct (N x) eqn:EN; simpl.
  - destruct (T x); simpl; [|done].
    rewrite (Hin x EN). destruct (P' x); simpl; [done|]. apply IH.
  - destruct (T x); simpl; [|done].
    rewrite (Hout x EN). simpl. apply IH.
Qed.

Lemma removeNetworkEdits_spec n d drv s :
  let b := needsBridge drv && negb (referencedByOthers s n d) in
  (removeNetworkEdits n d drv s).2 = b /\
  sections (removeNetworkEdits n d drv s).1 "network" =
    (if b then without (Named d) else id) (without (Named n) (sections s "network")) /\
  touches "network" s (removeNetworkEdits n d drv s).1.
Proof.
  cbn zeta. unfold removeNetworkEdits.
  set (s2 := match uci_get_section s "network" (Named n) with
             | Some _ => uci_remove s "network" (Named n)
             | None => s
             end).
  assert (Hs2 : sections s2 "network" = without (Named n) (sections s "network")).
  { subst s2. destruct (uci_get_section s "network" (Named n)) eqn:E.
    - rewrite sections_remove. by rewrite decide_True.
    - symmetry. apply without_absent. by apply lookupSect_None. }
  assert (Ht2 : touches "network" s s2).
  { subst s2. destruct (uci_get_section s "network" (Named n)); frame_steps. }
  clearbody s2.
  destruct (needsBridge drv); cbn [andb]; [|by rewrite ?Hs2].
  assert (Hb : bool_decide
                 (length
                    (List.filter
                       (fun x =>
                          bool_decide (uci_get s2 "network" (sname x) "device"
                                       = Some (VStr d))
                          && negb (bool_decide (sname x = Named n)))
                       (uci_sections s2 "network" "interface")) = 0%nat)
               = negb (referencedByOthers s n d)).
  { rewrite uci_sections_sections, Hs2. unfold without, referencedByOthers.
    apply others_count.
    - intros x Hx. apply negb_true_iff, hasName_false in Hx.
      rewrite !uci_get_sections, Hs2. unfold lookupOpt, without.
      rewrite lookupSect_remove. rewrite decide_False by congruence. done.
    - intros x Hx. apply negb_false_iff, hasName_true in Hx.
      rewrite (bool_decide_eq_true_2 _ Hx). apply andb_false_r. }
  rewrite Hb.
  destruct (referencedByOthers s n d); cbn [negb]; [by rewrite ?Hs2|].
  destruct (uci_get_section s2 "network" (Named d)) eqn:E; cbn [fst snd].
  - split; [done|]. split; [|eapply touches_trans; [exact Ht2 | apply touches_remove]].
    rewrite sections_remove, decide_True by done. by rewrite Hs2.
  - split; [done|]. split; [|done].
    rewrite <- Hs2. symmetry. apply without_absent. by apply lookupSect_None.
Qed.

Lemma In_names x l : In x l -> sname x ∈ names l.
Proof.
  intros H. unfold names. apply list_elem_of_fmap. exists x.
  split; [done | by apply list_elem_of_In].
Qed.

Lemma filter_head_In (P : Sect -> bool) l x r :
  List.filter P l = x :: r -> In x l.
Proof.
  intros H. assert (Hx : In x (List.filter P l)) by (rewrite H; by left).
  by apply filter_In in Hx as [? _].
Qed.

Lemma includes_filter_out l d :
  includes (List.filter (fun i => negb (bool_decide (i = d))) l) d = false.
Proof.
  unfold includes. apply bool_decide_eq_false. rewrite list_elem_of_In, filter_In.
  intros [_ H]. rewrite bool_decide_eq_true_2 in H; done.
Qed.

(** After the exclusion of [d] was switched off, [d] is not excluded. *)
Lemma dnsmasqEdits_disable d s : isExcluded (dnsmasqEdits d false s).1 d = false.
Proof.
  unfold dnsmasqEdits.
  destruct (uci_sections s "dhcp" "dnsmasq") as [|main rest] eqn:E.
  { cbn [fst]. unfold isExcluded. by rewrite E. }
  set (v := if bool_decide (0 < length _)%nat then _ else _).
  assert (Hv : exists val, v.1 = uci_set s "dhcp" (sname main) "notinterface" val /\
                 match storedValue val with
                 | Some (VList l) => includes l d = false
                 | Some (VStr _) => False
                 | None => True
                 end).
  { subst v. case_bool_decide as Hlen; cbn [fst].
    - eexists. split; [reflexivity|]. cbn. apply includes_filter_out.
    - exists None. by split. }
  destruct Hv as (val & -> & Hval).
  unfold isExcluded.
  rewrite uci_sections_sections, sections_set, decide_True by done.
  rewrite uci_sections_sections in E.
  pose proof (sameShape_filter "dnsmasq" _ _
                (sameShape_updSect (sname main) (setOpt "notinterface" val)
                   (sections s "dhcp") (sname_setOpt _ _) (stype_setOpt _ _))) as Hshape.
  rewrite E in Hshape.
  inversion Hshape as [|? main' ? rest' [Hname _] _ Heq1 Heq2]; subst.
  rewrite uci_get_sections, sections_set, decide_True by done.
  rewrite <- Hname, lookupOpt_updSect, decide_True by done.
  assert (Hin : is_Some (lookupSect (sections s "dhcp") (sname main))).
  { apply lookupSect_is_Some, In_names. by eapply filter_head_In. }
  destruct Hin as [x ->].
  destruct (storedValue val) as [[?|?]|]; done.
Qed.

(** What [removeIntegration] does, in one statement: it rejects on the
    spot, or commits a store [s] whose network configuration lost the
    interface (and the device, when the bridge is needed and unreferenced)
    and whose dhcp configuration is untouched, and then runs the dnsmasq
    step exactly when the device was to go. *)
Lemma removeIntegration_spec n d drv w :
  let b := needsBridge (orDefault drv "bridge")
           && negb (referencedByOthers (staged w) n d) in
  removeIntegration n d drv w = (w, Rejected) \/
  exists s,
    sections s "network" =
      (if b then without (Named d) else id)
        (without (Named n) (sections (staged w) "network")) /\
    s !! "dhcp" = staged w !! "dhcp" /\
    removeIntegration n d drv w =
    match commit s w with
    | (w1, Resolved _) =>
        if b then _configureDnsmasq d false w1 else (w1, Resolved tt)
    | (w1, Rejected) => (w1, Rejected)
    end.
Proof.
  cbn zeta. rewrite removeIntegration_run. cbn zeta.
  destruct (fails w (CallLoad "network") || fails w (CallLoad "firewall")); [by left|].
  pose proof (touches_removeEdits_dhcp n d (orDefault drv "bridge") (staged w)) as Hdhcp.
  unfold removeEdits in *.
  destruct (removeZoneEdits n (staged w)) as [s1|] eqn:Ez; cbn [fst snd] in *.
  2: { left. by rewrite withStaged_id. }
  pose proof (touches_removeZoneEdits _ _ _ Ez) as Hz.
  destruct (removeNetworkEdits_spec n d (orDefault drv "bridge") s1) as (Hb & Hnet & _).
  destruct (removeNetworkEdits n d (orDefault drv "bridge") s1) as [s b].
  cbn [fst snd] in *.
  assert (Hl : sections s1 "network" = sections (staged w) "network").
  { by apply (touches_sections "firewall"). }
  assert (Href : referencedByOthers s1 n d = referencedByOthers (staged w) n d).
  { unfold referencedByOthers, uci_sections, uci_get, uci_get_section.
    by rewrite Hl. }
  rewrite Hl, Href in *.
  right. exists s. split; [done|]. split; [done|].
  destruct (commit s w) as [w1 [[]|]]; [|done].
  subst b. by destruct (needsBridge _); cbn [andb].
Qed.

Lemma commit_no_exec s w : existsb isExec (newEvents w (commit s w).1) = false.
Proof.
  unfold commit.
  repeat case_match; cbn [fst]; by erewrite newEvents_app by reflexivity.
Qed.

Lemma sections_lookup_eq (s s' : Store) c :
  s' !! c = s !! c -> sections s' c = sections s c.
Proof. unfold sections. by intros ->. Qed.

Lemma lookupSect_without sid l : lookupSect (without sid l) sid = None.
Proof. unfold without. rewrite lookupSect_remove. by rewrite decide_True. Qed.

Lemma lookupSect_without_ne sid l sid' :
  sid <> sid' -> lookupSect (without sid l) sid' = lookupSect l sid'.
Proof. intros. unfold without. rewrite lookupSect_remove. by rewrite decide_False. Qed.

(** Unless the bridge is needed and unreferenced, [removeIntegration]
    leaves the dhcp configuration alone and restarts nothing. *)
Lemma exclusion_kept n d drv w :
  needsBridge (orDefault drv "bridge") = false \/
  referencedByOthers (staged w) n d = true ->
  staged (removeIntegration n d drv w).1 !! "dhcp" = staged w !! "dhcp" /\
  existsb isExec (newEvents w (removeIntegration n d drv w).1) = false.
Proof.
  intros Hb.
  assert (Hb' : needsBridge (orDefault drv "bridge")
                && negb (referencedByOthers (staged w) n d) = false).
  { destruct Hb as [-> | ->]; [done | apply andb_false_r]. }
  destruct (removeIntegration_spec n d drv w) as [-> | (s & _ & Hdhcp & ->)].
  - cbn [fst]. by rewrite newEvents_refl.
  - rewrite Hb'. pose proof (commit_staged s w) as Hs.
    pose proof (commit_no_exec s w) as He.
    destruct (commit s w) as [w1 [[]|]]; cbn [fst] in *; by rewrite Hs.
Qed.

(** C3, as the code has it: [removeIntegration] takes the device out of
    the dnsmasq exclusion list (and restarts the resolver) only for a
    bridge-driver network whose device no other interface section
    references, which is the condition under which the cleanup step deletes
    the device section; then no section of that name is left. When another
    interface references the device, or the driver needs no bridge, the
    dhcp configuration is left as it was and no restart is issued. *)
Theorem exclusion_removed_only_when_unreferenced (n d : string)
    (drv : option string) (w : World) :
  (needsBridge (orDefault drv "bridge") = false \/
   referencedByOthers (staged w) n d = true ->
   staged (removeIntegration n d drv w).1 !! "dhcp" = staged w !! "dhcp" /\
   existsb isExec (newEvents w (removeIntegration n d drv w).1) = false) /\
  (staged (removeIntegration n d drv w).1 !! "dhcp" <> staged w !! "dhcp" ->
   needsBridge (orDefault drv "bridge") = true /\
   referencedByOthers (staged w) n d = false /\
   uci_get_section (staged (removeIntegration n d drv w).1) "network" (Named d)
   = None).
Proof.
  split; [apply exclusion_kept|].
  intros Hchanged.
  - destruct (needsBridge (orDefault drv "bridge")) eqn:Hbridge.
    2: { by destruct (exclusion_kept n d drv w (or_introl Hbridge)). }
    destruct (referencedByOthers (staged w) n d) eqn:Href.
    1: { by destruct (exclusion_kept n d drv w (or_intror Href)). }
    split; [done|]. split; [done|].
    destruct (removeIntegration_spec n d drv w) as [E | (s & Hnet & Hdhcp & E)];
      rewrite E in *; [done|].
    rewrite Hbridge, Href in *. cbn [negb andb] in *.
    pose proof (commit_staged s w) as Hs.
    destruct (commit s w) as [w1 [[]|]]; cbn [fst] in *.
    2: { subst. done. }
    destruct (_configureDnsmasq_frame d false w1 "network" ltac:(done)) as [Hn _].
    rewrite uci_get_section_sections.
    rewrite (sections_lookup_eq _ _ _ Hn), Hs, Hnet.
    apply lookupSect_without.
Qed.

Lemma exclusion_removed_only_when_unreferenced_witness :
  staged (removeIntegration "net1" "br-pod" (Some "bridge")
            (worldOf sharedStore [])).1 !! "dhcp" = sharedStore !! "dhcp" /\
  uci_get_section
    (staged (removeIntegration "net1" "br-pod" (Some "bridge")
               (worldOf sampleStore [])).1) "network" (Named "br-pod") = None.
Proof.
  split.
  - apply (proj1 (exclusion_removed_only_when_unreferenced "net1" "br-pod"
                    (Some "bridge") (worldOf sharedStore []))).
    right. reflexivity.
  - apply (proj2 (exclusion_removed_only_when_unreferenced "net1" "br-pod"
                    (Some "bridge") (worldOf sampleStore []))).
    vm_compute. discriminate.
Defined.

(** C3 as stated does not hold: with the interface and the exclusion
    entry in place but no bridge device section, the cleanup step has
    nothing to delete, and the exclusion is removed and the resolver
    restarted all the same. *)
Lemma exclusion_removed_without_device_deletion :
  let w := worldOf orphanStore [] in
  let w' := (removeIntegration "net1" "br-pod" (Some "bridge") w).1 in
  isExcluded (staged w) "br-pod" = true /\
  isExcluded (staged w') "br-pod" = false /\
  existsb isExec (newEvents w w') = true /\
  ~ deviceDeleted w w' "br-pod".
Proof.
  cbn zeta. split; [reflexivity|]. split; [by vm_compute|]. split; [by vm_compute|].
  intros [[x Hx] _]. vm_compute in Hx. discriminate.
Qed.

Lemma _configureDnsmasq_resolved b e w w' :
  _configureDnsmasq b e w = (w', Resolved tt) ->
  staged w' = (dnsmasqEdits b e (staged w)).1.
Proof.
  rewrite _configureDnsmasq_run.
  destruct (dnsmasqEdits b e (staged w)) as [s skip]. cbn [fst].
  repeat case_match; intros; by simplify_eq.
Qed.

(** What is left once the device is referenced by another interface. *)
Lemma removeIntegration_shared n d drv w :
  d <> n ->
  referencedByOthers (staged w) n d = true ->
  uci_get_section (staged (removeIntegration n d drv w).1) "network" (Named d)
  = uci_get_section (staged w) "network" (Named d) /\
  (sections (staged (removeIntegration n d drv w).1) "network"
   = sections (staged w) "network" \/
   sections (staged (removeIntegration n d drv w).1) "network"
   = without (Named n) (sections (staged w) "network")).
Proof.
  intros Hdn Href.
  destruct (removeIntegration_spec n d drv w) as [-> | (s & Hnet & _ & ->)];
    [by split; [|left]|].
  rewrite Href, andb_false_r in *. cbn [id] in *.
  pose proof (commit_staged s w) as Hs.
  assert (E : staged (let (w1, o) := commit s w in
                      match o with
                      | Resolved _ => (w1, Resolved tt)
                      | Rejected => (w1, Rejected)
                      end).1 = s) by (by destruct (commit s w) as [w1 [[]|]]).
  rewrite E, uci_get_section_sections, Hnet.
  split; [|by right]. apply lookupSect_without_ne. congruence.
Qed.

(** X22: the reference count of [removeIntegration], for a device whose
    name differs from the network's. For a bridge-driver network the
    device section is deleted only if no other interface section has the
    device as its [device] option; while another interface references it,
    the device section and the dhcp configuration, and so the exclusion
    entry, stay as they are. With two networks sharing the device (whose
    name differs from the second network's too), removing the first leaves
    both untouched, and removing the second as well deletes the device
    section and leaves the device out of the exclusion list. *)
Theorem bridge_device_reference_counted (n d : string) (drv : option string)
    (w : World) :
  needsBridge (orDefault drv "bridge") = true ->
  d <> n ->
  (deviceDeleted w (removeIntegration n d drv w).1 d ->
   referencedByOthers (staged w) n d = false) /\
  (referencedByOthers (staged w) n d = true ->
   uci_get_section (staged (removeIntegration n d drv w).1) "network" (Named d)
   = uci_get_section (staged w) "network" (Named d) /\
   staged (removeIntegration n d drv w).1 !! "dhcp" = staged w !! "dhcp") /\
  (forall n2 w1 w2,
      d <> n2 ->
      referencedByOthers (staged w) n d = true ->
      (forall x, In x (uci_sections (staged w) "network" "interface") ->
                 uci_get (staged w) "network" (sname x) "device" = Some (VStr d) ->
                 sname x = Named n \/ sname x = Named n2) ->
      removeIntegration n d drv w = (w1, Resolved tt) ->
      removeIntegration n2 d drv w1 = (w2, Resolved tt) ->
      uci_get_section (staged w1) "network" (Named d)
      = uci_get_section (staged w) "network" (Named d) /\
      staged w1 !! "dhcp" = staged w !! "dhcp" /\
      uci_get_section (staged w2) "network" (Named d) = None /\
      isExcluded (staged w2) d = false).
Proof.
  intros Hbridge Hdn.
  assert (Hkept : referencedByOthers (staged w) n d = true ->
    uci_get_section (staged (removeIntegration n d drv w).1) "network" (Named d)
    = uci_get_section (staged w) "network" (Named d) /\
    staged (removeIntegration n d drv w).1 !! "dhcp" = staged w !! "dhcp").
  { intros Href. split; [by apply removeIntegration_shared|].
    apply (exclusion_kept n d drv w). by right. }
  split; [|split; [exact Hkept|]].
  - intros [Hbefore Hafter].
    destruct (referencedByOthers (staged w) n d) eqn:Href; [|done].
    destruct (Hkept eq_refl) as [Hsame _]. rewrite Hsame in Hafter.
    rewrite Hafter in Hbefore. by destruct Hbefore.
  - intros n2 w1 w2 Hdn2 Href Honly H1 H2.
    destruct (Hkept Href) as [Hdev Hdhcp]. rewrite H1 in Hdev, Hdhcp.
    cbn [fst] in *. split; [done|]. split; [done|].
    (* the second removal finds the device unreferenced *)
    assert (Hnet1 : sections (staged w1) "network"
                    = without (Named n) (sections (staged w) "network")).
    { destruct (removeIntegration_spec n d drv w) as [E | (s & Hnet & _ & E)];
        rewrite E in H1; [done|].
      rewrite Href, andb_false_r in *. cbn [id] in *.
      pose proof (commit_staged s w) as Hs.
      destruct (commit s w) as [w1' [[]|]]; simplify_eq. by cbn [fst] in *. }
    assert (Href2 : referencedByOthers (staged w1) n2 d = false).
    { apply not_true_iff_false. intros Hex.
      unfold referencedByOthers in Hex. apply existsb_exists in Hex as (x & Hx & HP).
      apply andb_true_iff in HP as [Hd Hn2].
      apply bool_decide_eq_true in Hd. apply negb_true_iff, bool_decide_eq_false in Hn2.
      rewrite uci_sections_sections, Hnet1 in Hx.
      apply filter_In in Hx as [Hx Hty]. apply filter_In in Hx as [Hx Hn].
      apply negb_true_iff, hasName_false in Hn.
      rewrite uci_get_sections, Hnet1 in Hd. unfold lookupOpt in Hd.
      rewrite lookupSect_without_ne in Hd by congruence.
      destruct (Honly x); [|done|congruence|congruence].
      rewrite uci_sections_sections. apply filter_In. by split. }
    destruct (removeIntegration_spec n2 d drv w1) as [E | (s & Hnet & _ & E)];
      rewrite E in H2; [done|].
    rewrite Hbridge, Href2 in *. cbn [negb andb] in *.
    pose proof (commit_staged s w1) as Hs.
    destruct (commit s w1) as [w1' [[]|]]; [|done]. cbn [fst] in *.
    destruct (_configureDnsmasq_frame d false w1' "network" ltac:(done)) as [Hn _].
    rewrite H2 in Hn. cbn [fst] in Hn.
    apply _configureDnsmasq_resolved in H2. split.
    + rewrite uci_get_section_sections, (sections_lookup_eq _ _ _ Hn), Hs, Hnet.
      apply lookupSect_without.
    + rewrite H2. apply dnsmasqEdits_disable.
Qed.

Lemma bridge_device_reference_counted_witness :
  let w := worldOf sharedStore [] in
  let w1 := (removeIntegration "net1" "br-pod" (Some "bridge") w).1 in
  let w2 := (removeIntegration "net2" "br-pod" (Some "bridge") w1).1 in
  uci_get_section (staged w1) "network" (Named "br-pod")
  = uci_get_section (staged w) "network" (Named "br-pod") /\
  staged w1 !! "dhcp" = staged w !! "dhcp" /\
  uci_get_section (staged w2) "network" (Named "br-pod") = None /\
  isExcluded (staged w2) "br-pod" = false.
Proof.
  cbn zeta.
  apply (proj2 (proj2 (bridge_device_reference_counted "net1" "br-pod"
                         (Some "bridge") (worldOf sharedStore [])
                         eq_refl ltac:(discriminate))) "net2").
  - discriminate.
  - reflexivity.
  - intros x Hx _. cbn in Hx. destruct Hx as [<-|[<-|[]]]; [by left | by right].
  - by vm_compute.
  - by vm_compute.
Defined.

(** C2: the reference count misses the bridge that is named like its
    network. Creating network 'pod' on bridge 'pod' makes the device
    section 'pod' (and, finding a section of that name, no interface);
    creating 'net2' on the same bridge adds an interface that uses it. The
    removal of 'pod' then resolves, counts 'net2' as another user of the
    device, and has all the same deleted the device section, by name, in
    its interface step; 'net2' is left pointing at a device that is gone. *)
Theorem shared_device_deleted_at_equal_names :
  let options subnet gateway :=
    mkOptions (Some "bridge") "pod" "" subnet gateway None None
              (Some "_create_new_") in
  let w1 := (createIntegration sampleParseInt sampleMask "pod"
               (options "10.92.0.0/24" "10.92.0.1") (worldOf sampleStore [])).1 in
  let w2 := (createIntegration sampleParseInt sampleMask "net2"
               (options "10.93.0.0/24" "10.93.0.1") w1).1 in
  let r := removeIntegration "pod" "pod" (Some "bridge") w2 in
  (exists x, uci_get_section (staged w2) "network" (Named "pod") = Some x /\
             stype x = "device") /\
  uci_get (staged w2) "network" (Named "net2") "device" = Some (VStr "pod") /\
  referencedByOthers (staged w2) "pod" "pod" = true /\
  r.2 = Resolved tt /\
  deviceDeleted w2 r.1 "pod" /\
  uci_get (staged r.1) "network" (Named "net2") "device" = Some (VStr "pod") /\
  uci_get_section (saved r.1) "network" (Named "pod") = None.
Proof.
  cbn zeta. split; [|split; [|split; [|split; [|split; [|split]]]]].
  - eexists. split; [by vm_compute | reflexivity].
  - by vm_compute.
  - by vm_compute.
  - by vm_compute.
  - split; [by eexists; vm_compute | by vm_compute].
  - by vm_compute.
  - by vm_compute.
Qed.

(** ** Zone membership *)

Section ZoneMembership.

(** The invariant on one section: a zone lists no network twice. *)
Definition memberOk (z : Sect) : Prop :=
  stype z = "zone" -> NoDup (asList (sopts z !! "network")).

Lemma zonesOk_sections s : zonesOk s <-> Forall memberOk (sections s "firewall").
Proof.
  unfold zonesOk, uci_sections, memberOk. rewrite !Forall_forall.
  split.
  - intros H x Hx Hty. apply H. apply list_elem_of_In, filter_In.
    split; [by apply list_elem_of_In | by apply bool_decide_eq_true].
  - intros H x Hx. apply list_elem_of_In, filter_In in Hx as [Hx Hty].
    apply H; [by apply list_elem_of_In | by apply bool_decide_eq_true in Hty].
Qed.

Lemma Forall_updSect (P : Sect -> Prop) sid f l :
  Forall P l ->
  (forall x, lookupSect l sid = Some x -> P x -> P (f x)) ->
  Forall P (updSect sid f l).
Proof.
  unfold lookupSect. induction 1 as [|x l Hx Hl IH]; simpl; [constructor|].
  intros Hf. destruct (hasName sid x); constructor; auto.
Qed.

Lemma Forall_without (P : Sect -> Prop) sid l : Forall P l -> Forall P (without sid l).
Proof.
  rewrite !Forall_forall. intros H x Hx. apply H.
  apply list_elem_of_In, filter_In in Hx as [Hx _]. by apply list_elem_of_In.
Qed.

Lemma memberOk_setOpt_other o v z :
  o <> "network" -> memberOk z -> memberOk (setOpt o v z).
Proof.
  unfold memberOk. rewrite stype_setOpt, sopts_setOpt. intros Ho H Hty.
  rewrite decide_False by done. auto.
Qed.

Lemma memberOk_setOpt_network l z :
  NoDup l -> memberOk (setOpt "network" (Some (VList l)) z).
Proof.
  unfold memberOk. rewrite sopts_setOpt, decide_True by done. by intros H _.
Qed.

(** A set of an option other than [network] keeps the invariant. *)
Lemma zonesOk_set_other s sid o v :
  o <> "network" -> zonesOk s -> zonesOk (uci_set s "firewall" sid o v).
Proof.
  rewrite !zonesOk_sections, sections_set, decide_True by done.
  intros Ho H. apply Forall_updSect; [done|]. intros x _. by apply memberOk_setOpt_other.
Qed.

Lemma zonesOk_remove s sid : zonesOk s -> zonesOk (uci_remove s "firewall" sid).
Proof.
  rewrite !zonesOk_sections, sections_remove, decide_True by done.
  apply Forall_without.
Qed.

Lemma zonesOk_add s ty sid : zonesOk s -> zonesOk (uci_add s "firewall" ty sid).
Proof.
  rewrite !zonesOk_sections, sections_add, decide_True by done.
  intros H. apply Forall_app. split; [done|]. constructor; [|constructor].
  intros _. cbn. rewrite lookup_empty. constructor.
Qed.

(** Setting the member list of section [sid] to a list without repeats. *)
Lemma zonesOk_set_network s sid l :
  NoDup l -> zonesOk s -> zonesOk (uci_set s "firewall" sid "network" (Some (VList l))).
Proof.
  rewrite !zonesOk_sections, sections_set, decide_True by done.
  intros Hl H. apply Forall_updSect; [done|]. intros x _ _.
  by apply memberOk_setOpt_network.
Qed.

(** What [uci.get] reads from a zone is the list the invariant speaks of. *)
Lemma zonesOk_get s sid :
  zonesOk s ->
  (exists z, uci_get_section s "firewall" sid = Some z /\ stype z = "zone") ->
  NoDup (asList (uci_get s "firewall" sid "network")).
Proof.
  rewrite zonesOk_sections, Forall_forall. intros H (z & Hz & Hty).
  unfold uci_get. rewrite Hz. apply lookupSect_Some in Hz as [Hin _].
  apply H; [by apply list_elem_of_In | done].
Qed.

Lemma zonesOk_touches c s s' :
  c <> "firewall" -> touches c s s' -> zonesOk s -> zonesOk s'.
Proof.
  intros Hc Ht. rewrite !zonesOk_sections.
  by rewrite (touches_sections c s s' "firewall") by done.
Qed.

Lemma zonesOk_lookup (s s' : Store) :
  s' !! "firewall" = s !! "firewall" -> zonesOk s -> zonesOk s'.
Proof. intros H. rewrite !zonesOk_sections. by rewrite (sections_lookup_eq _ _ _ H). Qed.

(** Rewriting the member list of section [sid] from what [uci.get] reads
    there. *)
Lemma zonesOk_set_network_from s sid l' :
  (NoDup (asList (uci_get s "firewall" sid "network")) -> NoDup l') ->
  zonesOk s ->
  zonesOk (uci_set s "firewall" sid "network" (Some (VList l'))).
Proof.
  rewrite !zonesOk_sections, sections_set, decide_True by done.
  intros Hl H. apply Forall_updSect; [done|]. intros x Hx Hok.
  unfold memberOk in *. rewrite stype_setOpt, sopts_setOpt, decide_True by done.
  intros Hty. apply Hl. unfold uci_get, uci_get_section. fold (lookupSect (sections s "firewall") sid).
  rewrite Hx. auto.
Qed.

Lemma includes_false l x : includes l x = false <-> x ∉ l.
Proof. unfold includes. apply bool_decide_eq_false. Qed.

Lemma NoDup_snoc (l : list string) x : x ∉ l -> NoDup l -> NoDup (l ++ [x]).
Proof.
  intros Hx Hl. apply NoDup_app. split; [done|]. split.
  - intros y Hy Hin. apply list_elem_of_singleton in Hin. by subst.
  - apply NoDup_singleton.
Qed.

Lemma NoDup_filter_out (f : string -> bool) (l : list string) :
  NoDup l -> NoDup (List.filter f l).
Proof.
  rewrite !NoDup_ListNoDup. apply List.NoDup_filter.
Qed.

Lemma zonesOk_ensureZone n zone s : zonesOk s -> zonesOk (ensureZone n zone s).
Proof.
  intros H. unfold ensureZone, uci_add_anon, str.
  destruct (findByName s "firewall" "zone" zone) as [z|].
  - destruct (includes _ n) eqn:E; cbn [negb]; [done|].
    apply zonesOk_set_network_from; [|done].
    apply NoDup_snoc. by apply includes_false.
  - apply zonesOk_set_network; [apply NoDup_singleton|].
    repeat (apply zonesOk_set_other; [done|]).
    by apply zonesOk_add.
Qed.

Lemma zonesOk_ensureDnsRule zone s : zonesOk s -> zonesOk (ensureDnsRule zone s).
Proof.
  intros H. unfold ensureDnsRule, uci_add_anon, str.
  destruct (findByName s "firewall" "rule" _) as [z|]; [done|].
  repeat (apply zonesOk_set_other; [done|]).
  by apply zonesOk_add.
Qed.

Lemma zonesOk_removeZoneEdits n s s1 :
  removeZoneEdits n s = Some s1 -> zonesOk s -> zonesOk s1.
Proof.
  unfold removeZoneEdits. intros E H.
  repeat (case_match; simplify_eq);
    try done;
    try (apply zonesOk_set_network_from; [apply NoDup_filter_out | done]);
    repeat apply zonesOk_remove; done.
Qed.

Lemma zonesOk_removeEdits n d drv s :
  zonesOk s -> zonesOk (removeEdits n d drv s).1.
Proof.
  intros H. unfold removeEdits.
  destruct (removeZoneEdits n s) as [s1|] eqn:E; [|done].
  pose proof (proj2 (proj2 (removeNetworkEdits_spec n d drv s1))) as Ht.
  destruct (removeNetworkEdits n d drv s1) as [s2 b]. cbn [fst] in *.
  eapply (zonesOk_touches "network"); [done | exact Ht |].
  by eapply zonesOk_removeZoneEdits.
Qed.

End ZoneMembership.

(** What the stores hold, outside the dhcp configuration, once the commit
    of [s] was attempted and the dnsmasq step possibly run. *)
Lemma stores_after_commit s w c w' :
  c <> "dhcp" ->
  w' = (commit s w).1 \/ (exists b e, w' = (_configureDnsmasq b e (commit s w).1).1) ->
  staged w' !! c = s !! c /\
  (saved w' !! c = saved w !! c \/ saved w' !! c = s !! c).
Proof.
  intros Hc. pose proof (commit_staged s w) as Hs.
  pose proof (commit_saved s w) as Hv.
  intros [-> | (b & e & ->)].
  - rewrite Hs. split; [done|]. destruct Hv as [-> | ->]; auto.
  - destruct (_configureDnsmasq_frame b e (commit s w).1 c Hc) as [H1 H2].
    rewrite H1, Hs. split; [done|].
    destruct H2 as [-> | ->]; [|rewrite Hs; auto].
    destruct Hv as [-> | ->]; auto.
Qed.

Section Invariants.

Variable parseInt : string -> option Z.
Variable prefixToMask : option Z -> option string.

Let createEdits' := createEdits parseInt prefixToMask.
Let createIntegration' := createIntegration parseInt prefixToMask.
Let ensureInterface' := ensureInterface parseInt prefixToMask.

Lemma touches_ensureDevice o s : touches "network" s (ensureDevice o s).
Proof.
  unfold ensureDevice. repeat case_match;
    first [apply touches_refl | apply touches_addBridgeDevice].
Qed.

Lemma touches_ensureInterface n o s : touches "network" s (ensureInterface' n o s).
Proof.
  unfold ensureInterface', ensureInterface.
  repeat case_match; try apply touches_refl; try apply touches_addInterface.
  eapply touches_trans; [apply touches_addInterface | apply touches_set].
Qed.

Lemma touches_ensureZone n zone s : touches "firewall" s (ensureZone n zone s).
Proof.
  unfold ensureZone, uci_add_anon. repeat case_match; frame_steps.
Qed.

Lemma touches_ensureDnsRule zone s : touches "firewall" s (ensureDnsRule zone s).
Proof.
  unfold ensureDnsRule, uci_add_anon. repeat case_match; frame_steps.
Qed.

Lemma zonesOk_createEdits n o s : zonesOk s -> zonesOk (createEdits' n o s).
Proof.
  intros H. unfold createEdits', createEdits.
  apply zonesOk_ensureDnsRule, zonesOk_ensureZone.
  eapply (zonesOk_touches "network"); [done | apply touches_ensureInterface |].
  eapply (zonesOk_touches "network"); [done | apply touches_ensureDevice | done].
Qed.

(** The stores [createIntegration] can leave: the old ones, or the edited
    store, outside the dhcp configuration. *)
Lemma createIntegration_stores n o w c :
  c <> "dhcp" ->
  (staged (createIntegration' n o w).1 !! c = staged w !! c \/
   staged (createIntegration' n o w).1 !! c = createEdits' n o (staged w) !! c) /\
  (saved (createIntegration' n o w).1 !! c = saved w !! c \/
   saved (createIntegration' n o w).1 !! c = createEdits' n o (staged w) !! c).
Proof.
  intros Hc. unfold createIntegration', createEdits'. rewrite createIntegration_run.
  destruct (fails w (CallLoad "network") || fails w (CallLoad "firewall")); [auto|].
  fold createEdits'.
  destruct (stores_after_commit (createEdits' n o (staged w)) w c
              (let (w1, r) := commit (createEdits' n o (staged w)) w in
               match r with
               | Resolved _ =>
                   if needsBridge (driverOf o)
                   then _configureDnsmasq (deviceOf o) true w1
                   else (w1, Resolved tt)
               | Rejected => (w1, Rejected)
               end).1 Hc) as [H1 H2]; [|auto].
  destruct (commit _ w) as [w1 [[]|]]; cbn [fst]; [|auto].
  destruct (needsBridge _); [right; eauto | auto].
Qed.

Lemma removeIntegration_stores n d drv w c :
  c <> "dhcp" ->
  (staged (removeIntegration n d drv w).1 !! c = staged w !! c \/
   staged (removeIntegration n d drv w).1 !! c
   = (removeEdits n d (orDefault drv "bridge") (staged w)).1 !! c) /\
  (saved (removeIntegration n d drv w).1 !! c = saved w !! c \/
   saved (removeIntegration n d drv w).1 !! c
   = (removeEdits n d (orDefault drv "bridge") (staged w)).1 !! c).
Proof.
  intros Hc. rewrite removeIntegration_run. cbn zeta.
  destruct (fails w (CallLoad "network") || fails w (CallLoad "firewall")); [auto|].
  destruct (removeEdits n d _ (staged w)) as [s [b|]] eqn:E; cbn [fst snd].
  2: { apply removeEdits_throw in E as ->. rewrite withStaged_id. auto. }
  destruct (stores_after_commit s w c
              (let (w1, r) := commit s w in
               match r with
               | Resolved _ =>
                   if needsBridge (orDefault drv "bridge") && b
                   then _configureDnsmasq d false w1
                   else (w1, Resolved tt)
               | Rejected => (w1, Rejected)
               end).1 Hc) as [H1 H2]; [|auto].
  destruct (commit _ w) as [w1 [[]|]]; cbn [fst]; [|auto].
  destruct (needsBridge _ && b); [right; eauto | auto].
Qed.

(** Both operations keep the zone lists free of duplicates, in the staged
    and in the saved store. *)
Lemma zonesOk_operations (n d : string) (o : Options)
    (drv : option string) (w : World) :
  zonesOk (staged w) ->
  zonesOk (saved w) ->
  zonesOk (staged (createIntegration' n o w).1) /\
  zonesOk (saved (createIntegration' n o w).1) /\
  zonesOk (staged (removeIntegration n d drv w).1) /\
  zonesOk (saved (removeIntegration n d drv w).1).
Proof.
  intros Hs Hv.
  pose proof (zonesOk_createEdits n o _ Hs) as Hc.
  pose proof (zonesOk_removeEdits n d (orDefault drv "bridge") _ Hs) as Hr.
  destruct (createIntegration_stores n o w "firewall" ltac:(done)) as [[C1|C1] [C2|C2]];
  destruct (removeIntegration_stores n d drv w "firewall" ltac:(done)) as [[R1|R1] [R2|R2]].
  all: repeat split; eapply zonesOk_lookup; eauto.
Qed.

End Invariants.

(** ** Searching by name, on the section list *)

Definition findByNameL (l : list Sect) (type name : string) : option Sect :=
  List.find (fun x => bool_decide (lookupOpt l (sname x) "name" = Some (VStr name)))
            (List.filter (ofType type) l).

Lemma findByName_sections s c type name :
  findByName s c type name = findByNameL (sections s c) type name.
Proof. reflexivity. Qed.

Lemma findByNameL_In l type name z :
  findByNameL l type name = Some z -> In z l /\ stype z = type.
Proof.
  unfold findByNameL. intros H. apply find_some in H as [H _].
  apply filter_In in H as [? Hty]. split; [done|]. by apply bool_decide_eq_true in Hty.
Qed.

Lemma lookupOpt_app_old l x sid o :
  sid ∈ names l -> lookupOpt (l ++ [x]) sid o = lookupOpt l sid o.
Proof.
  intros H. unfold lookupOpt. rewrite lookupSect_app.
  apply lookupSect_is_Some in H as [y ->]. done.
Qed.

Lemma lookupOpt_app_new l x o :
  sname x ∉ names l -> lookupOpt (l ++ [x]) (sname x) o = sopts x !! o.
Proof.
  intros H. unfold lookupOpt. rewrite lookupSect_app.
  apply lookupSect_None in H as ->. unfold lookupSect. simpl.
  by rewrite (proj2 (hasName_true (sname x) x)).
Qed.

Lemma find_app_last (P : Sect -> bool) l x :
  List.find P (l ++ [x]) =
  match List.find P l with
  | Some z => Some z
  | None => if P x then Some x else None
  end.
Proof.
  induction l as [|y l IH]; simpl; [done|]. by destruct (P y).
Qed.

(** Searching after a fresh section was appended. *)
Lemma findByNameL_app_fresh l x type name :
  sname x ∉ names l ->
  findByNameL (l ++ [x]) type name =
  match findByNameL l type name with
  | Some z => Some z
  | None =>
      if ofType type x && bool_decide (sopts x !! "name" = Some (VStr name))
      then Some x else None
  end.
Proof.
  intros Hfresh. unfold findByNameL. rewrite List.filter_app. simpl.
  assert (Hold : List.find
            (fun y => bool_decide (lookupOpt (l ++ [x]) (sname y) "name"
                                   = Some (VStr name)))
            (List.filter (ofType type) l)
          = List.find
              (fun y => bool_decide (lookupOpt l (sname y) "name" = Some (VStr name)))
              (List.filter (ofType type) l)).
  { apply find_ext_in. intros y Hy. apply filter_In in Hy as [Hy _].
    by rewrite lookupOpt_app_old by by apply In_names. }
  destruct (ofType type x); simpl.
  - rewrite find_app_last, Hold. rewrite lookupOpt_app_new by done. reflexivity.
  - rewrite app_nil_r, Hold. match goal with |- ?a = _ => by destruct a end.
Qed.

Lemma storedValue_str z : z <> "" -> storedValue (Some (VStr z)) = Some (VStr z).
Proof. by destruct z. Qed.

Lemma append_nonempty a b : a <> "" -> a +:+ b <> "".
Proof. by destruct a. Qed.

(** ** Idempotence of creation *)

(** Section [sid] exists in configuration [c]. *)
Definition has (s : Store) (c : string) (sid : Sid) : Prop :=
  sid ∈ names (sections s c).

Lemma has_get s c sid : is_Some (uci_get_section s c sid) <-> has s c sid.
Proof. apply lookupSect_is_Some. Qed.

Lemma has_set s c' sid' o v c sid :
  has (uci_set s c' sid' o v) c sid <-> has s c sid.
Proof.
  unfold has. rewrite sections_set. case_decide; [subst|done].
  by rewrite names_updSect by apply sname_setOpt.
Qed.

Lemma has_add_new s c ty sid : has (uci_add s c ty sid) c sid.
Proof.
  unfold has, names. rewrite sections_add, decide_True by done.
  rewrite map_app. apply elem_of_app. right. apply elem_of_cons. by left.
Qed.

Lemma has_add_old s c' ty sid' c sid :
  has s c sid -> has (uci_add s c' ty sid') c sid.
Proof.
  unfold has, names. rewrite sections_add. case_decide; [subst|done].
  rewrite map_app. intros H. apply elem_of_app. by left.
Qed.

Lemma has_touches c' s s' c sid :
  touches c' s s' -> c <> c' -> has s c sid -> has s' c sid.
Proof. intros Ht Hc. unfold has. by rewrite (touches_sections c' s s' c). Qed.

(** The section appended last keeps receiving the sets made under its
    fresh id. *)
Lemma sections_set_last s c sid o v l x :
  sections s c = l ++ [x] ->
  sname x = sid ->
  sid ∉ names l ->
  sections (uci_set s c sid o v) c = l ++ [setOpt o v x].
Proof.
  intros Hs Hx Hl. rewrite sections_set, decide_True by done.
  rewrite Hs. by apply updSect_app_fresh.
Qed.

Lemma has_addBridgeDevice d v s : has (addBridgeDevice d v s) "network" (Named d).
Proof.
  unfold addBridgeDevice. destruct (truthy v); repeat apply has_set; apply has_add_new.
Qed.

Lemma has_addBridgeDevice_old d v s sid :
  has s "network" sid -> has (addBridgeDevice d v s) "network" sid.
Proof.
  intros H. unfold addBridgeDevice.
  destruct (truthy v); repeat apply has_set; by apply has_add_old.
Qed.

(** Network [n] is a member of the zone called [zone]. *)
Definition joined (n zone : string) (s : Store) : Prop :=
  exists z, findByName s "firewall" "zone" zone = Some z /\
            includes (asList (uci_get s "firewall" (sname z) "network")) n = true.

Lemma includes_snoc l x : includes (l ++ [x]) x = true.
Proof.
  unfold includes. apply bool_decide_eq_true, elem_of_app. right.
  apply elem_of_cons. by left.
Qed.

Lemma ensureZone_joined n zone s : zone <> "" -> joined n zone (ensureZone n zone s).
Proof.
  intros Hz. unfold ensureZone, joined.
  destruct (findByName s "firewall" "zone" zone) as [z|] eqn:E.
  - destruct (includes _ n) eqn:Ei; cbn [negb]; [by exists z|].
    rewrite findByName_sections in E.
    set (v := Some (VList _)).
    set (l := sections s "firewall") in *.
    set (l' := updSect (sname z) (setOpt "network" v) l).
    assert (Hl' : sections (uci_set s "firewall" (sname z) "network" v) "firewall" = l').
    { by rewrite sections_set, decide_True. }
    assert (Hfind : option_Forall2 (fun x y => sname x = sname y)
                      (findByNameL l "zone" zone) (findByNameL l' "zone" zone)).
    { apply sameShape_find.
      - apply sameShape_filter, sameShape_updSect;
          [apply sname_setOpt | apply stype_setOpt].
      - intros x y Hxy. subst l'. rewrite Hxy, lookupOpt_updSect.
        rewrite decide_False; [done | by intros [_ ?]]. }
    rewrite E in Hfind. inversion Hfind as [? z' Hname Hz1 Hz2|]; subst.
    rewrite findByName_sections, Hl'.
    exists z'. split; [done|].
    rewrite uci_get_sections, Hl'. unfold l'.
    rewrite <- Hname, lookupOpt_updSect, decide_True by done.
    assert (Hin : is_Some (lookupSect l (sname z))).
    { apply lookupSect_is_Some, In_names.
      by apply (findByNameL_In _ "zone" zone). }
    destruct Hin as [x ->]. subst v. cbn. apply includes_snoc.
  - rewrite findByName_sections in E.
    unfold uci_add_anon, str.
    set (id := Generated (genBound (sections s "firewall"))).
    assert (Hfresh : id ∉ names (sections s "firewall")) by apply genBound_fresh.
    set (s' := uci_set _ _ _ _ _).
    assert (Hs' : exists x, sections s' "firewall" = sections s "firewall" ++ [x] /\
                    sname x = id /\ stype x = "zone" /\
                    sopts x !! "name" = Some (VStr zone) /\
                    sopts x !! "network" = Some (VList [n])).
    { assert (H0 : sections (uci_add s "firewall" "zone" id) "firewall"
                   = sections s "firewall" ++ [mkSect id "zone" ∅])
        by (by rewrite sections_add, decide_True).
      apply (sections_set_last _ _ id "name" (Some (VStr zone))) in H0; [|done|done].
      apply (sections_set_last _ _ id "input" (Some (VStr "DROP"))) in H0;
        [|by rewrite ?sname_setOpt|done].
      apply (sections_set_last _ _ id "output" (Some (VStr "ACCEPT"))) in H0;
        [|by rewrite ?sname_setOpt|done].
      apply (sections_set_last _ _ id "forward" (Some (VStr "REJECT"))) in H0;
        [|by rewrite ?sname_setOpt|done].
      apply (sections_set_last _ _ id "network" (Some (VList [n]))) in H0;
        [|by rewrite ?sname_setOpt|done].
      eexists. split; [exact H0|].
      rewrite ?sname_setOpt, ?stype_setOpt. cbn [sname stype].
      split; [done|]. split; [done|].
      rewrite !sopts_setOpt, (storedValue_str zone) by done. by cbn. }
    destruct Hs' as (x & Hsec & Hname & Hty & Hzn & Hnet).
    exists x. rewrite findByName_sections, uci_get_sections, Hsec.
    rewrite <- Hname in Hfresh.
    rewrite findByNameL_app_fresh, E by done.
    rewrite lookupOpt_app_new by done. rewrite Hnet.
    unfold ofType. rewrite Hty, Hzn, !bool_decide_eq_true_2 by done.
    split; [done|].
    cbn. unfold includes. apply bool_decide_eq_true, elem_of_cons. by left.
Qed.

(** What [ensureDnsRule] appends when the rule is not there yet. *)
Lemma ensureDnsRule_sections zone s :
  findByName s "firewall" "rule" (dnsRuleNameOf zone) = None ->
  exists x,
    sections (ensureDnsRule zone s) "firewall" = sections s "firewall" ++ [x] /\
    (sname x ∉ names (sections s "firewall")) /\
    stype x = "rule" /\
    sopts x !! "name" = Some (VStr (dnsRuleNameOf zone)).
Proof.
  intros E. unfold ensureDnsRule. rewrite E. unfold uci_add_anon, str.
  set (id := Generated (genBound (sections s "firewall"))).
  assert (Hfresh : id ∉ names (sections s "firewall")) by apply genBound_fresh.
  assert (H0 : sections (uci_add s "firewall" "rule" id) "firewall"
               = sections s "firewall" ++ [mkSect id "rule" ∅])
    by (by rewrite sections_add, decide_True).
  apply (sections_set_last _ _ id "name" (Some (VStr (dnsRuleNameOf zone)))) in H0;
    [|done|done].
  apply (sections_set_last _ _ id "src" (Some (VStr zone))) in H0;
    [|by rewrite ?sname_setOpt|done].
  apply (sections_set_last _ _ id "dest_port" (Some (VStr "53"))) in H0;
    [|by rewrite ?sname_setOpt|done].
  apply (sections_set_last _ _ id "target" (Some (VStr "ACCEPT"))) in H0;
    [|by rewrite ?sname_setOpt|done].
  eexists. split; [exact H0|].
  rewrite ?sname_setOpt, ?stype_setOpt. cbn [sname stype].
  split; [done|]. split; [done|].
  rewrite !sopts_setOpt, (storedValue_str (dnsRuleNameOf zone)) by done. by cbn.
Qed.

Lemma ensureDnsRule_found zone s :
  is_Some (findByName (ensureDnsRule zone s) "firewall" "rule" (dnsRuleNameOf zone)).
Proof.
  destruct (findByName s "firewall" "rule" (dnsRuleNameOf zone)) as [r|] eqn:E.
  - unfold ensureDnsRule. by rewrite E.
  - destruct (ensureDnsRule_sections zone s E) as (x & Hsec & Hfresh & Hty & Hname).
    rewrite findByName_sections in *. rewrite Hsec.
    rewrite findByNameL_app_fresh, E by done.
    unfold ofType. rewrite Hty, Hname. cbn. rewrite !bool_decide_eq_true_2; done.
Qed.

Lemma ensureDnsRule_joined n zone zone' s :
  joined n zone s -> joined n zone (ensureDnsRule zone' s).
Proof.
  intros (z & Hz & Hin).
  destruct (findByName s "firewall" "rule" (dnsRuleNameOf zone')) as [r|] eqn:E.
  - unfold ensureDnsRule. rewrite E. by exists z.
  - destruct (ensureDnsRule_sections zone' s E) as (x & Hsec & Hfresh & _ & _).
    exists z. rewrite findByName_sections, uci_get_sections in *. rewrite Hsec.
    rewrite findByNameL_app_fresh, Hz by done. split; [done|].
    rewrite lookupOpt_app_old; [done|].
    apply In_names. by apply (findByNameL_In _ "zone" zone).
Qed.

(** When the dnsmasq step is skipped the store is left as it was. *)
Lemma dnsmasqEdits_skip b e s : (dnsmasqEdits b e s).2 = true -> (dnsmasqEdits b e s).1 = s.
Proof. unfold dnsmasqEdits. by repeat case_match. Qed.

(** Switching the exclusion on a second time changes nothing. *)
Lemma dnsmasqEdits_enable_idempotent d s :
  dnsmasqEdits d true (dnsmasqEdits d true s).1 = dnsmasqEdits d true s.
Proof.
  unfold dnsmasqEdits at 2 3.
  destruct (uci_sections s "dhcp" "dnsmasq") as [|main rest] eqn:E.
  { cbn [fst]. unfold dnsmasqEdits. by rewrite E. }
  destruct (includes _ d) eqn:Ei; cbn [negb fst].
  { unfold dnsmasqEdits. by rewrite E, Ei. }
  set (v := Some (VList _)).
  unfold dnsmasqEdits.
  rewrite uci_sections_sections in *. rewrite sections_set, decide_True by done.
  pose proof (sameShape_filter "dnsmasq" _ _
                (sameShape_updSect (sname main) (setOpt "notinterface" v)
                   (sections s "dhcp") (sname_setOpt _ _) (stype_setOpt _ _))) as Hshape.
  rewrite E in Hshape.
  inversion Hshape as [|? main' ? rest' [Hname _] _ Heq1 Heq2]; subst.
  rewrite uci_get_sections, sections_set, decide_True by done.
  rewrite <- Hname, lookupOpt_updSect, decide_True by done.
  assert (Hin : is_Some (lookupSect (sections s "dhcp") (sname main))).
  { apply lookupSect_is_Some, In_names. by eapply filter_head_In. }
  destruct Hin as [x ->]. subst v. cbn [storedValue asList].
  by rewrite includes_snoc.
Qed.

Section Idempotence.

Variable parseInt : string -> option Z.
Variable prefixToMask : option Z -> option string.

Let createEdits' := createEdits parseInt prefixToMask.
Let createIntegration' := createIntegration parseInt prefixToMask.
Let ensureInterface' := ensureInterface parseInt prefixToMask.
Let addInterface' := addInterface parseInt prefixToMask.

Lemma has_addInterface n d o s : has (addInterface' n d o s) "network" (Named n).
Proof.
  unfold addInterface', addInterface. repeat apply has_set. apply has_add_new.
Qed.

Lemma has_addInterface_old n d o s sid :
  has s "network" sid -> has (addInterface' n d o s) "network" sid.
Proof.
  intros H. unfold addInterface', addInterface.
  repeat apply has_set. by apply has_add_old.
Qed.

Lemma ensureDevice_has o s :
  needsBridge (driverOf o) = true ->
  has (ensureDevice o s) "network" (Named (deviceOf o)).
Proof.
  intros Hb. unfold ensureDevice. fold (driverOf o). rewrite Hb.
  destruct (uci_get_section s "network" (Named (deviceOf o))) eqn:E.
  - apply has_get. by rewrite E.
  - apply has_addBridgeDevice.
Qed.

Lemma ensureInterface_has n o s : has (ensureInterface' n o s) "network" (Named n).
Proof.
  unfold ensureInterface', ensureInterface.
  destruct (uci_get_section s "network" (Named n)) eqn:E.
  - apply has_get. by rewrite E.
  - destruct (_ && _); [apply has_set|]; apply has_addInterface.
Qed.

Lemma ensureInterface_has_old n o s sid :
  has s "network" sid -> has (ensureInterface' n o s) "network" sid.
Proof.
  intros H. unfold ensureInterface', ensureInterface.
  destruct (uci_get_section s "network" (Named n)); [done|].
  destruct (_ && _); [apply has_set|]; by apply has_addInterface_old.
Qed.

Lemma orDefault_nonempty x d : d <> "" -> orDefault x d <> "".
Proof. intros Hd. unfold orDefault. destruct x; [case_bool_decide|]; done. Qed.

Lemma resolveZone_nonempty n o : resolveZone n o <> "".
Proof.
  unfold resolveZone. case_bool_decide; [done|]. by apply orDefault_nonempty.
Qed.

(** Every piece [createIntegration] would add is in place. *)
Definition settled (n : string) (o : Options) (s : Store) : Prop :=
  (needsBridge (driverOf o) = true -> has s "network" (Named (deviceOf o))) /\
  has s "network" (Named n) /\
  joined n (resolveZone n o) s /\
  is_Some (findByName s "firewall" "rule" (dnsRuleNameOf (resolveZone n o))).

(** On a settled store every step is skipped. *)
Lemma settled_noop n o s : settled n o s -> createEdits' n o s = s.
Proof.
  intros (Hd & Hi & (z & Hz & Hin) & [r Hr]).
  unfold createEdits', createEdits.
  assert (E1 : ensureDevice o s = s).
  { unfold ensureDevice. fold (driverOf o).
    destruct (needsBridge (driverOf o)); [|done].
    apply has_get in Hd as [x ->]; done. }
  rewrite E1.
  assert (E2 : ensureInterface parseInt prefixToMask n o s = s).
  { unfold ensureInterface. apply has_get in Hi as [x ->]. done. }
  rewrite E2.
  assert (E3 : ensureZone n (resolveZone n o) s = s).
  { unfold ensureZone. by rewrite Hz, Hin. }
  rewrite E3. unfold ensureDnsRule. by rewrite Hr.
Qed.

(** After the first call everything is in place. *)
Lemma createEdits_settled n o s : settled n o (createEdits' n o s).
Proof.
  unfold createEdits', createEdits.
  fold ensureInterface'.
  set (s1 := ensureDevice o s).
  set (s2 := ensureInterface' n o s1).
  set (s3 := ensureZone n (resolveZone n o) s2).
  assert (H23 : touches "firewall" s2 s3) by apply touches_ensureZone.
  assert (H34 : touches "firewall" s3 (ensureDnsRule (resolveZone n o) s3))
    by apply touches_ensureDnsRule.
  split; [|split; [|split]].
  - intros Hb.
    eapply (has_touches "firewall"); [exact H34 | done |].
    eapply (has_touches "firewall"); [exact H23 | done |].
    apply ensureInterface_has_old. by apply ensureDevice_has.
  - eapply (has_touches "firewall"); [exact H34 | done |].
    eapply (has_touches "firewall"); [exact H23 | done |].
    apply ensureInterface_has.
  - apply ensureDnsRule_joined, ensureZone_joined, resolveZone_nonempty.
  - apply ensureDnsRule_found.
Qed.

(** Being settled is a matter of the network and firewall configurations. *)
Lemma settled_frame n o (s s' : Store) :
  s' !! "network" = s !! "network" ->
  s' !! "firewall" = s !! "firewall" ->
  settled n o s -> settled n o s'.
Proof.
  intros Hn Hf.
  unfold settled, joined, has, findByName, uci_sections, uci_get, uci_get_section,
    sections.
  by rewrite Hn, Hf.
Qed.

Lemma createEdits_idempotent n o s :
  createEdits' n o (createEdits' n o s) = createEdits' n o s.
Proof. apply settled_noop, createEdits_settled. Qed.

(** The staged and the saved store [createIntegration] leaves, by the
    collaborators that reject. *)
Definition createStores (n : string) (o : Options) (w : World) : Store * Store :=
  if fails w (CallLoad "network") || fails w (CallLoad "firewall")
  then (staged w, saved w)
  else
    let s1 := createEdits' n o (staged w) in
    if fails w CallSave then (s1, saved w)
    else if fails w CallApply || fails w CallFlushCache
            || negb (needsBridge (driverOf o)) || fails w (CallLoad "dhcp")
    then (s1, s1)
    else
      let r := dnsmasqEdits (deviceOf o) true s1 in
      if r.2 then (r.1, s1) else (r.1, r.1).

Lemma fails_same w w' c : failing w' = failing w -> fails w' c = fails w c.
Proof. unfold fails. by intros ->. Qed.

Lemma createIntegration_leaves n o w :
  (staged (createIntegration' n o w).1, saved (createIntegration' n o w).1)
  = createStores n o w /\
  failing (createIntegration' n o w).1 = failing w.
Proof.
  unfold createIntegration', createStores. rewrite createIntegration_run.
  fold createEdits'.
  destruct (fails w (CallLoad "network") || fails w (CallLoad "firewall")); [done|].
  cbn zeta. unfold commit.
  destruct (fails w CallSave) eqn:ES; [done|].
  destruct (fails w CallApply) eqn:EA; [done|].
  destruct (fails w CallFlushCache) eqn:EF; [done|].
  cbn [orb]. destruct (needsBridge (driverOf o)); [|done]. cbn [negb orb].
  rewrite _configureDnsmasq_run.
  set (w1 := mkWorld _ _ _ _).
  rewrite !(fails_same w w1) by done. rewrite EA, ES.
  destruct (fails w (CallLoad "dhcp")); [done|]. cbn [staged w1].
  subst w1. cbn [staged].
  by destruct (dnsmasqEdits _ _ _) as [s2 [|]].
Qed.

(** C1: calling [createIntegration] a second time with the same network
    name and options leaves the store, staged and saved, as the first call
    left it: every step finds its target and is skipped. *)
Theorem createIntegration_idempotent (n : string) (o : Options) (w : World) :
  staged (createIntegration' n o (createIntegration' n o w).1).1
  = staged (createIntegration' n o w).1 /\
  saved (createIntegration' n o (createIntegration' n o w).1).1
  = saved (createIntegration' n o w).1.
Proof.
  destruct (createIntegration_leaves n o w) as [H1 Hf].
  destruct (createIntegration_leaves n o (createIntegration' n o w).1) as [H2 _].
  set (w1 := (createIntegration' n o w).1) in *.
  assert (E : createStores n o w1 = createStores n o w).
  2: { rewrite E, <- H1 in H2. by injection H2. }
  clear H2. unfold createStores in *.
  rewrite !(fails_same w w1) by done.
  destruct (fails w (CallLoad "network") || fails w (CallLoad "firewall")).
  { injection H1 as Hst Hsv. by rewrite Hst, Hsv. }
  cbn zeta in *.
  pose proof (createEdits_settled n o (staged w)) as Hset.
  set (s1 := createEdits' n o (staged w)) in *.
  destruct (fails w CallSave).
  { injection H1 as Hst Hsv. by rewrite Hst, Hsv, (settled_noop n o s1). }
  destruct (fails w CallApply || fails w CallFlushCache
            || negb (needsBridge (driverOf o)) || fails w (CallLoad "dhcp")).
  { injection H1 as Hst Hsv. by rewrite Hst, (settled_noop n o s1). }
  pose proof (dnsmasqEdits_enable_idempotent (deviceOf o) s1) as Hd.
  pose proof (touches_dnsmasqEdits (deviceOf o) true s1) as Ht.
  pose proof (dnsmasqEdits_skip (deviceOf o) true s1) as Hskip.
  destruct (dnsmasqEdits (deviceOf o) true s1) as [s2 skip]. cbn [fst snd] in *.
  assert (Hset2 : settled n o s2).
  { eapply settled_frame; [| |exact Hset]; by apply Ht. }
  assert (Hst : staged w1 = s2) by (destruct skip; by injection H1).
  rewrite Hst, (settled_noop n o s2 Hset2), Hd. cbn [fst snd].
  destruct skip; [|done].
  (* skipped: the dnsmasq step left the store as it was *)
  by rewrite (Hskip eq_refl).
Qed.

End Idempotence.

Lemma zonesOk_zoneStore : zonesOk zoneStore.
Proof.
  unfold zonesOk. cbn. constructor; [|constructor]. cbn. apply NoDup_singleton.
Qed.


(** ** The ULA deriver *)

Lemma append_nil_l s : "" +:+ s = s.
Proof. reflexivity. Qed.

Lemma append_cons x u v : String x u +:+ v = String x (u +:+ v).
Proof. reflexivity. Qed.

Lemma prefix_char c x r :
  String.prefix (String c EmptyString) (String x r) = bool_decide (c = x).
Proof.
  cbn. destruct (ascii_dec c x) as [->|Hne].
  - rewrite bool_decide_eq_true_2 by done. by destruct r.
  - by rewrite bool_decide_eq_false_2.
Qed.

(** Splitting at a character that is not in the first piece. *)
Lemma split_char_app c u v :
  hasChar c u = false ->
  split (String c EmptyString) (u +:+ String c v) = u :: split (String c EmptyString) v.
Proof.
  unfold split. induction u as [|x u IH]; cbn [hasChar]; intros H.
  - rewrite append_nil_l. cbn [splitGo].
    rewrite prefix_char, bool_decide_eq_true_2 by done. done.
  - apply orb_false_iff in H as [Hx Hu]. apply bool_decide_eq_false in Hx.
    rewrite append_cons. cbn [splitGo].
    rewrite prefix_char, bool_decide_eq_false_2 by congruence.
    by rewrite (IH Hu).
Qed.

Lemma split_char_none c u :
  hasChar c u = false -> split (String c EmptyString) u = [u].
Proof.
  unfold split. induction u as [|x u IH]; cbn [hasChar]; intros H; [done|].
  apply orb_false_iff in H as [Hx Hu]. apply bool_decide_eq_false in Hx.
  cbn [splitGo]. rewrite prefix_char, bool_decide_eq_false_2 by congruence.
  by rewrite (IH Hu).
Qed.

Lemma hasChar_app c u v : hasChar c (u +:+ v) = hasChar c u || hasChar c v.
Proof.
  induction u as [|x u IH]; [done|].
  rewrite append_cons. cbn [hasChar]. by rewrite IH, orb_assoc.
Qed.

Lemma isDigits_hasChar c s :
  digitOf c = None -> isDigits s = true -> hasChar c s = false.
Proof.
  intros Hc. induction s as [|x s IH]; cbn [isDigits hasChar]; [done|].
  intros H. apply andb_true_iff in H as [Hx Hs]. apply bool_decide_eq_true in Hx.
  rewrite (IH Hs), orb_false_r. apply bool_decide_eq_false. intros ->.
  rewrite Hc in Hx. by destruct Hx.
Qed.

Lemma wrap32_small z : (- 2 ^ 31 <= z < 2 ^ 31)%Z -> wrap32 z = z.
Proof. intros H. unfold wrap32. rewrite Z.mod_small by lia. lia. Qed.

(** The bits of an octet and of an octet shifted by eight do not overlap. *)
Lemma lor_octets (c d : Z) :
  (0 <= c)%Z -> (0 <= d < 256)%Z -> Z.lor (Z.shiftl c 8) d = (c * 256 + d)%Z.
Proof.
  intros Hc Hd. rewrite <- Z.add_nocarry_lor.
  - rewrite Z.shiftl_mul_pow2 by lia. reflexivity.
  - apply Z.bits_inj'. intros k Hk. rewrite Z.land_spec, Z.bits_0.
    destruct (Z.lt_ge_cases k 8) as [Hlt|Hge].
    + by rewrite Z.shiftl_spec_low.
    + apply andb_false_iff. right.
      destruct (Z.eq_dec d 0%Z) as [->|Hd0]; [apply Z.bits_0|].
      apply Z.bits_above_log2; [lia|].
      apply Z.log2_lt_pow2; [lia|].
      assert (2 ^ 8 <= 2 ^ k)%Z by (apply Z.pow_le_mono_r; lia). lia.
Qed.

(** The packed value of two octets. *)
Lemma packed_octets (c d : Z) :
  (0 <= c < 256)%Z -> (0 <= d < 256)%Z ->
  or32 (shl32 (toInt32 (Some c)) 8) (toInt32 (Some d)) = (c * 256 + d)%Z.
Proof.
  intros Hc Hd. unfold or32, shl32, toInt32.
  rewrite (wrap32_small c), (wrap32_small d) by lia.
  change (8 mod 32)%Z with 8%Z.
  assert (Hs : Z.shiftl c 8 = (c * 256)%Z) by (by rewrite Z.shiftl_mul_pow2 by lia).
  rewrite (wrap32_small (Z.shiftl c 8)) by (rewrite Hs; lia).
  rewrite lor_octets by lia. apply wrap32_small. lia.
Qed.

(** A value below 2^16 prints as its hexadecimal digits, and the padding
    supplies the leading zeros. *)
Lemma toString16_hex4 (v : Z) :
  (0 <= v < 65536)%Z -> padStart 4 "0" (toString16 v) = hex4 v.
Proof.
  intros Hv. unfold toString16, hex4.
  rewrite (proj2 (Z.ltb_ge v 0)) by lia.
  assert (D1 : (v / 16 / 16 = v / 256)%Z) by (rewrite Z.div_div by lia; done).
  assert (D2 : (v / 16 / 16 / 16 = v / 4096)%Z) by (rewrite !Z.div_div by lia; done).
  cbn [hexGo].
  destruct (Z.ltb_spec v 16) as [H1|H1].
  { rewrite (Z.div_small v 4096), (Z.div_small v 256), (Z.div_small v 16) by lia.
    reflexivity. }
  destruct (Z.ltb_spec (v / 16) 16) as [H2|H2].
  { assert (v < 256)%Z by (Z.div_mod_to_equations; lia).
    rewrite (Z.div_small v 4096), (Z.div_small v 256) by lia. reflexivity. }
  destruct (Z.ltb_spec (v / 16 / 16) 16) as [H3|H3].
  { assert (v < 4096)%Z by (Z.div_mod_to_equations; lia).
    rewrite (Z.div_small v 4096), D1 by lia. reflexivity. }
  destruct (Z.ltb_spec (v / 16 / 16 / 16) 16) as [H4|H4].
  { rewrite D2, D1. reflexivity. }
  exfalso. Z.div_mod_to_equations. lia.
Qed.

(** Octets [c] and [d] pack into the four hexadecimal digits of
    [c * 256 + d]. *)
Lemma subnetId_hex4 (c d : Z) :
  (0 <= c < 256)%Z -> (0 <= d < 256)%Z ->
  padStart 4 "0" (toString16 (or32 (shl32 (toInt32 (Some c)) 8) (toInt32 (Some d))))
  = hex4 (c * 256 + d).
Proof.
  intros Hc Hd. rewrite packed_octets by done. apply toString16_hex4. lia.
Qed.

(** Put [p] in front of the first piece. *)
Definition consHead (p : string) (l : list string) : list string :=
  match l with
  | x :: r => (p +:+ x) :: r
  | [] => [p]
  end.

Lemma splitGo_nonempty sep k s : splitGo sep k s <> [].
Proof.
  revert k. induction s as [|x s IH]; intros k; cbn [splitGo]; [done|].
  destruct k; [|apply IH].
  destruct (String.prefix sep (String x s)); [done|].
  specialize (IH 0%nat). by destruct (splitGo sep 0 s).
Qed.

Lemma consHead_nil l : l <> [] -> consHead "" l = l.
Proof. by destruct l. Qed.

Lemma consHead_cons x p l : l <> [] -> consHead (String x p) l = consHead (String x "") (consHead p l).
Proof. by destruct l. Qed.

Lemma head_consHead p l :
  l <> [] -> default "" (head (consHead p l)) = p +:+ default "" (head l).
Proof. by destruct l. Qed.

(** One step of the scan. *)
Lemma splitGo_step sep c r :
  splitGo sep 0 (String c r) =
  if String.prefix sep (String c r)
  then "" :: splitGo sep (String.length sep - 1) r
  else consHead (String c "") (splitGo sep 0 r).
Proof.
  cbn [splitGo]. destruct (String.prefix sep (String c r)); [done|].
  pose proof (splitGo_nonempty sep 0 r). by destruct (splitGo sep 0 r).
Qed.

(** A character other than ':' is never the start of the separator '::'. *)
Lemma splitGo2_other x r :
  x <> ":"%char ->
  splitGo "::" 0 (String x r) = consHead (String x "") (splitGo "::" 0 r).
Proof.
  intros Hx. rewrite splitGo_step. cbn [String.prefix].
  destruct (ascii_dec ":" x) as [E|_]; [by subst|done].
Qed.

(** Neither is a ':' that another character follows. *)
Lemma splitGo2_single x r :
  x <> ":"%char ->
  splitGo "::" 0 (String ":" (String x r))
  = consHead ":" (splitGo "::" 0 (String x r)).
Proof.
  intros Hx. rewrite splitGo_step. cbn [String.prefix].
  destruct (ascii_dec ":" ":") as [_|E]; [|done].
  destruct (ascii_dec ":" x) as [E|_]; [by subst|done].
Qed.

Lemma splitGo2_sep r : splitGo "::" 0 ("::" +:+ r) = "" :: splitGo "::" 0 r.
Proof.
  change ("::" +:+ r) with (String ":" (String ":" r)).
  rewrite splitGo_step. cbn [String.prefix].
  destruct (ascii_dec ":" ":") as [_|E]; [|done]. by destruct r.
Qed.

Lemma splitGo2_run h t :
  hasChar ":" h = false ->
  splitGo "::" 0 (h +:+ t) = consHead h (splitGo "::" 0 t).
Proof.
  induction h as [|x h IH]; cbn [hasChar]; intros H.
  - rewrite append_nil_l. symmetry. apply consHead_nil, splitGo_nonempty.
  - apply orb_false_iff in H as [Hx Hh]. apply bool_decide_eq_false in Hx.
    rewrite append_cons, splitGo2_other, (IH Hh) by done.
    symmetry. apply consHead_cons, splitGo_nonempty.
Qed.

Lemma append_assoc (a b c : string) : (a +:+ b) +:+ c = a +:+ (b +:+ c).
Proof. induction a as [|x a IH]; [done|]. by rewrite !append_cons, IH. Qed.

Lemma append_nil_r (a : string) : a +:+ "" = a.
Proof. induction a as [|x a IH]; [done|]. by rewrite append_cons, IH. Qed.

Lemma nocolon_first h :
  hasChar ":" h = false -> h <> "" -> exists x r, h = String x r /\ x <> ":"%char.
Proof.
  destruct h as [|x r]; [done|]. cbn [hasChar]. intros H _.
  apply orb_false_iff in H as [Hx _]. apply bool_decide_eq_false in Hx. eauto.
Qed.

Lemma head_split2_run h t :
  hasChar ":" h = false ->
  default "" (head (splitGo "::" 0 (h +:+ t)))
  = h +:+ default "" (head (splitGo "::" 0 t)).
Proof.
  intros H. rewrite splitGo2_run by done. apply head_consHead, splitGo_nonempty.
Qed.

Lemma head_split2_colon h t :
  hasChar ":" h = false -> h <> "" ->
  default "" (head (splitGo "::" 0 (":" +:+ h +:+ t)))
  = ":" +:+ h +:+ default "" (head (splitGo "::" 0 t)).
Proof.
  intros H N. destruct (nocolon_first h H N) as (x & r & E & X).
  subst h.
  change (":" +:+ String x r +:+ t) with (String ":" (String x (r +:+ t))) at 1.
  rewrite splitGo2_single by done.
  rewrite head_consHead by apply splitGo_nonempty.
  rewrite <- append_cons. by rewrite head_split2_run.
Qed.

(** The part of a /48-style prefix before the '::'. *)
Lemma split2_prefix h1 h2 h3 rest :
  hasChar ":" h1 = false -> hasChar ":" h2 = false -> hasChar ":" h3 = false ->
  h2 <> "" -> h3 <> "" ->
  default "" (head (split "::" (h1 +:+ ":" +:+ h2 +:+ ":" +:+ h3 +:+ "::" +:+ rest)))
  = h1 +:+ ":" +:+ h2 +:+ ":" +:+ h3.
Proof.
  intros H1 H2 H3 N2 N3. unfold split.
  rewrite head_split2_run by done.
  rewrite head_split2_colon by done.
  rewrite head_split2_colon by done.
  rewrite splitGo2_sep. cbn [head default]. by rewrite append_nil_r.
Qed.

Lemma digitsValue_nonneg s acc v :
  (0 <= acc)%Z -> digitsValue acc s = Some v -> (0 <= v)%Z.
Proof.
  revert acc. induction s as [|x s IH]; cbn [digitsValue]; intros acc Hacc H.
  - by simplify_eq.
  - unfold digitOf in H. case_bool_decide; [|done]. eapply IH; [|exact H]. lia.
Qed.

Lemma Number_nonneg s v : Number s = Some v -> (0 <= v)%Z.
Proof. apply digitsValue_nonneg. lia. Qed.

(** The octets of 'a.b.c.d/n'. *)
Lemma ipv4_octets a b c d n :
  isDigits a = true -> isDigits b = true -> isDigits c = true -> isDigits d = true ->
  map Number (split "." (default "" (head (split "/" (ipv4Of a b c d n)))))
  = [Number a; Number b; Number c; Number d].
Proof.
  intros Ha Hb Hc Hd.
  assert (Hdot : forall s, isDigits s = true -> hasChar "." s = false)
    by (intros s; by apply isDigits_hasChar).
  assert (Hsl : forall s, isDigits s = true -> hasChar "/" s = false)
    by (intros s; by apply isDigits_hasChar).
  assert (E : ipv4Of a b c d n
              = (a +:+ "." +:+ b +:+ "." +:+ c +:+ "." +:+ d) +:+ String "/" n).
  { unfold ipv4Of. by rewrite !append_assoc. }
  rewrite E, split_char_app.
  2: { rewrite !hasChar_app, (Hsl a), (Hsl b), (Hsl c), (Hsl d) by done. done. }
  cbn [head default from_option id].
  change (a +:+ "." +:+ b +:+ "." +:+ c +:+ "." +:+ d)
    with (a +:+ String "." (b +:+ String "." (c +:+ String "." d))).
  rewrite !split_char_app, split_char_none by auto. done.
Qed.

Lemma subnetIdHex_octets a b c d n (vc vd : Z) :
  isDigits a = true -> isDigits b = true -> isDigits c = true -> isDigits d = true ->
  Number c = Some vc -> Number d = Some vd ->
  (vc < 256)%Z -> (vd < 256)%Z ->
  subnetIdHex (ipv4Of a b c d n) = hex4 (vc * 256 + vd).
Proof.
  intros Ha Hb Hc Hd Nc Nd Lc Ld. unfold subnetIdHex.
  rewrite ipv4_octets by done. cbn [lookup list_lookup mjoin option_join].
  rewrite Nc, Nd.
  apply subnetId_hex4; split; eauto using Number_nonneg.
Qed.

(** The hextets of 'h1:h2:h3::/len'. *)
Lemma ulaHextets_prefixOf h1 h2 h3 len :
  isHextet h1 = true -> isHextet h2 = true -> isHextet h3 = true ->
  ulaHextets (prefixOf h1 h2 h3 len) = [h1; h2; h3].
Proof.
  unfold isHextet. intros H1 H2 H3.
  repeat match goal with
         | H : _ && _ = true |- _ => apply andb_true_iff in H as [? ?]
         | H : negb _ = true |- _ => apply negb_true_iff in H
         | H : bool_decide _ = false |- _ => apply bool_decide_eq_false in H
         end.
  unfold ulaHextets.
  assert (E : prefixOf h1 h2 h3 len
              = (h1 +:+ ":" +:+ h2 +:+ ":" +:+ h3 +:+ "::" +:+ "") +:+ String "/" len).
  { unfold prefixOf. rewrite !append_assoc. by rewrite append_nil_l. }
  rewrite E, split_char_app.
  2: { rewrite !hasChar_app. cbn [hasChar].
       repeat match goal with H : hasChar "/" _ = false |- _ => rewrite H; clear H end.
       done. }
  cbn [head default from_option id]. rewrite split2_prefix by done.
  change (h1 +:+ ":" +:+ h2 +:+ ":" +:+ h3)
    with (h1 +:+ String ":" (h2 +:+ String ":" h3)).
  rewrite !split_char_app, split_char_none by done.
  rewrite bool_decide_eq_false_2 by done. done.
Qed.

Lemma hexDigit_inj (a b : Z) :
  (0 <= a < 16)%Z -> (0 <= b < 16)%Z -> hexDigit a = hexDigit b -> a = b.
Proof.
  intros Ha Hb H. unfold hexDigit in H.
  apply (f_equal nat_of_ascii) in H.
  rewrite !nat_ascii_embedding in H
    by (destruct (a <? 10)%Z, (b <? 10)%Z; lia).
  destruct (Z.ltb_spec a 10), (Z.ltb_spec b 10); lia.
Qed.

Lemma hex4_inj (v v' : Z) :
  (0 <= v < 65536)%Z -> (0 <= v' < 65536)%Z -> hex4 v = hex4 v' -> v = v'.
Proof.
  intros Hv Hv' H. unfold hex4 in H. injection H as H3 H2 H1 H0.
  apply hexDigit_inj in H0, H1, H2, H3;
    try (apply Z.mod_pos_bound; lia).
  Z.div_mod_to_equations. lia.
Qed.

Lemma append_inj_l (a x y : string) : a +:+ x = a +:+ y -> x = y.
Proof.
  induction a as [|c a IH]; [done|]. rewrite !append_cons. intros H.
  injection H as H. auto.
Qed.

(** C7: for an IPv4 CIDR 'a.b.c.d/n' with octets [c] and [d] below 256,
    [deriveUlaFromIpv4] returns the /64 subnet made of the first three
    hextets of the prefix, the four hexadecimal digits of [c * 256 + d] as
    fourth hextet and '::', and the gateway is that address followed by
    '1'; for a prefix written 'h1:h2:h3::/len' the three hextets are
    [h1], [h2], [h3]; and two CIDRs that differ in octet 3 or 4 only get
    different subnets. The function is pure, so equal inputs give equal
    results. *)
Theorem deriveUla_packs_octets (a b c d n ula : string) (vc vd : Z) :
  isDigits a = true -> isDigits b = true ->
  isDigits c = true -> isDigits d = true ->
  Number c = Some vc -> Number d = Some vd ->
  (vc < 256)%Z -> (vd < 256)%Z ->
  (let address :=
     join ":" (take 3 (ulaHextets ula)) +:+ ":" +:+ hex4 (vc * 256 + vd) +:+ "::" in
   deriveUlaFromIpv4 (ipv4Of a b c d n) ula
   = mkUla (address +:+ "/64") (address +:+ "1")) /\
  (forall h1 h2 h3 len,
      isHextet h1 = true -> isHextet h2 = true -> isHextet h3 = true ->
      ula = prefixOf h1 h2 h3 len ->
      ipv6subnetOf (deriveUlaFromIpv4 (ipv4Of a b c d n) ula)
      = h1 +:+ ":" +:+ h2 +:+ ":" +:+ h3 +:+ ":" +:+ hex4 (vc * 256 + vd) +:+ "::/64") /\
  (forall c' d' vc' vd',
      isDigits c' = true -> isDigits d' = true ->
      Number c' = Some vc' -> Number d' = Some vd' ->
      (vc' < 256)%Z -> (vd' < 256)%Z ->
      (vc, vd) <> (vc', vd') ->
      ipv6subnetOf (deriveUlaFromIpv4 (ipv4Of a b c' d' n) ula)
      <> ipv6subnetOf (deriveUlaFromIpv4 (ipv4Of a b c d n) ula)).
Proof.
  intros Ha Hb Hc Hd Nc Nd Lc Ld.
  pose proof (Number_nonneg _ _ Nc) as Pc. pose proof (Number_nonneg _ _ Nd) as Pd.
  assert (E : subnetIdHex (ipv4Of a b c d n) = hex4 (vc * 256 + vd))
    by (by apply subnetIdHex_octets).
  split; [|split].
  - cbn zeta. unfold deriveUlaFromIpv4. by rewrite E.
  - intros h1 h2 h3 len H1 H2 H3 ->. unfold deriveUlaFromIpv4. cbn [ipv6subnetOf].
    rewrite E, ulaHextets_prefixOf by done.
    cbn [take join String.concat]. by rewrite !append_assoc.
  - intros c' d' vc' vd' Hc' Hd' Nc' Nd' Lc' Ld' Hne Heq.
    pose proof (Number_nonneg _ _ Nc') as Pc'.
    pose proof (Number_nonneg _ _ Nd') as Pd'.
    unfold deriveUlaFromIpv4 in Heq. cbn [ipv6subnetOf] in Heq.
    rewrite E, (subnetIdHex_octets a b c' d' n vc' vd') in Heq by done.
    rewrite !append_assoc in Heq. apply append_inj_l in Heq.
    change (":" +:+ ?x) with (String ":" x) in Heq. unfold hex4 in Heq.
    injection Heq as H3 H2 H1 H0.
    assert (Hv : (vc' * 256 + vd' = vc * 256 + vd)%Z).
    { apply hex4_inj; [lia | lia |]. unfold hex4. by rewrite H3, H2, H1, H0. }
    apply Hne. f_equal; lia.
Qed.

Lemma deriveUla_packs_octets_witness :
  deriveUlaFromIpv4 "10.20.3.0/24" "fd00:abcd:ef01::/48"
  = mkUla "fd00:abcd:ef01:0300::/64" "fd00:abcd:ef01:0300::1" /\
  ipv6subnetOf (deriveUlaFromIpv4 "10.20.4.0/24" "fd00:abcd:ef01::/48")
  <> ipv6subnetOf (deriveUlaFromIpv4 "10.20.3.0/24" "fd00:abcd:ef01::/48").
Proof.
  destruct (deriveUla_packs_octets "10" "20" "3" "0" "24" "fd00:abcd:ef01::/48" 3 0
              eq_refl eq_refl eq_refl eq_refl eq_refl eq_refl
              ltac:(reflexivity) ltac:(reflexivity)) as (Hval & _ & Hdiff).
  split; [exact Hval|].
  apply (Hdiff "4" "0" 4%Z 0%Z); try reflexivity. discriminate.
Defined.

(** * Further properties of the code *)

(** ** Reading a CIDR *)

(** X1: a CIDR text with exactly one '/' splits into its address and the
    prefix length [parseInt] reads from the part after the slash; a text
    without a slash is its own address and gets the prefix length 24, and so
    does a text with two slashes, whose address is still the first part. *)
Theorem cidr_parts (parseInt : string -> option Z) (ip p q : string) :
  hasChar "/" ip = false ->
  hasChar "/" p = false ->
  hasChar "/" q = false ->
  cidrToIP (ip +:+ "/" +:+ p) = ip /\
  cidrToPrefix parseInt (ip +:+ "/" +:+ p) = parseInt p /\
  cidrToIP ip = ip /\
  cidrToPrefix parseInt ip = Some 24%Z /\
  cidrToIP (ip +:+ "/" +:+ p +:+ "/" +:+ q) = ip /\
  cidrToPrefix parseInt (ip +:+ "/" +:+ p +:+ "/" +:+ q) = Some 24%Z.
Proof.
  intros Hip Hp Hq. unfold cidrToIP, cidrToPrefix.
  change (ip +:+ "/" +:+ p +:+ "/" +:+ q) with (ip +:+ String "/" (p +:+ String "/" q)).
  change (ip +:+ "/" +:+ p) with (ip +:+ String "/" p).
  rewrite !(split_char_app "/" ip) by done.
  rewrite (split_char_app "/" p) by done.
  rewrite !split_char_none by done. done.
Qed.

Lemma cidr_parts_witness :
  cidrToIP "10.89.0.0/16" = "10.89.0.0" /\
  cidrToPrefix sampleParseInt "10.89.0.0/16" = Some 16%Z.
Proof.
  destruct (cidr_parts sampleParseInt "10.89.0.0" "16" "" eq_refl eq_refl eq_refl)
    as (H1 & H2 & _).
  exact (conj H1 H2).
Defined.

(** ** The driver and the device of a Podman network *)

Lemma append_ne_r (a : string) (c : ascii) (b : string) : a +:+ String c b <> "".
Proof. by destruct a. Qed.

(** X2: [getDriver] never returns the empty string, so the driver it
    gives needs a bridge exactly when it is 'bridge'; and [getDevice]
    never returns an empty device name: it falls back to the network name
    followed by '0'. *)
Theorem getDevice_nonempty (network : Network) (name : string) :
  getDriver network <> "" /\
  (needsBridge (getDriver network) = true <-> getDriver network = "bridge") /\
  getDevice network name <> "".
Proof.
  assert (Hd : getDriver network <> "").
  { unfold getDriver. apply orDefault_nonempty. by apply orDefault_nonempty. }
  split; [done|]. split.
  - unfold needsBridge. rewrite (bool_decide_eq_false_2 _ Hd). cbn [orb].
    apply bool_decide_eq_true.
  - assert (Hf : orDefault (network_interface network) (name +:+ "0") <> "").
    { apply orDefault_nonempty. apply append_ne_r. }
    unfold getDevice. case_bool_decide; [done|].
    destruct (netOptions network) as [o|]; [|done].
    destruct (optParent o) as [p|] eqn:Ep; cbn [truthy default from_option id]; [|done].
    case_bool_decide; cbn [negb]; done.
Qed.

(** ** What a status says *)

(** The store holds a working integration of network [n]: the interface
    section has a device and, for a driver that needs a bridge, the device
    is a section of type 'bridge' that the first dnsmasq section, if there
    is one, excludes. *)
Definition integrated (n driver : string) (s : Store) : Prop :=
  exists d,
    uci_get s "network" (Named n) "device" = Some d /\
    truthyValue (Some d) = true /\
    (needsBridge driver = true ->
     uci_get s "network" (Named (jsKey d)) "type" = Some (VStr "bridge") /\
     match uci_sections s "dhcp" "dnsmasq" with
     | [] => True
     | main :: _ =>
         deviceExcluded (uci_get s "dhcp" (sname main) "notinterface") d = true
     end).

Lemma uci_get_is_Some s c sid o :
  is_Some (uci_get s c sid o) -> is_Some (uci_get_section s c sid).
Proof. unfold uci_get. destruct (uci_get_section s c sid); [eauto | by intros []]. Qed.

Lemma inspect_flags n drv s :
  let st := inspect n drv s in
  (complete st = true <-> missing st = []) /\
  (hasDevice (details st) = true -> hasInterface (details st) = true) /\
  (hasDnsmasqExclusion (details st) = true -> hasDevice (details st) = true) /\
  ("interface" ∈ missing st <-> hasInterface (details st) = false) /\
  ("device" ∈ missing st <-> hasDevice (details st) = false) /\
  ("dnsmasq" ∈ missing st <->
   hasDevice (details st) = true /\ hasDnsmasqExclusion (details st) = false) /\
  (forall m, m ∈ missing st -> m ∈ ["interface"; "device"; "dnsmasq"]).
Proof.
  cbn zeta. unfold inspect.
  pose proof (uci_get_is_Some s "network" (Named n) "device") as Hdev.
  destruct (uci_get_section s "network" (Named n)) as [x|];
    destruct (uci_get s "network" (Named n) "device") as [d|];
    try (exfalso; by destruct Hdev as [? ?]; [eexists|]); clear Hdev.
  all: repeat case_match; cbn.
  all: rewrite ?bool_decide_eq_true, ?bool_decide_eq_false.
  all: setoid_rewrite list_elem_of_In; cbn [In app]; intuition congruence.
Qed.

Lemma inspect_integrated n drv s :
  complete (inspect n drv s) = true <-> integrated n drv s.
Proof.
  unfold inspect, integrated.
  pose proof (uci_get_is_Some s "network" (Named n) "device") as Hdev.
  destruct (uci_get s "network" (Named n) "device") as [d|].
  2: { destruct (uci_get_section s "network" (Named n)); cbn;
       (split; [done | by intros (? & ? & _)]). }
  destruct Hdev as [x ->]; [by eexists|]. cbn [app].
  destruct (truthyValue (Some d)) eqn:Et.
  2: { cbn [complete]. split; [by cbn|]. intros (d' & [= <-] & Ht & _). congruence. }
  destruct (needsBridge drv).
  2: { cbn. split; [|done]. intros _. exists d. by repeat split. }
  pose proof (uci_get_is_Some s "network" (Named (jsKey d)) "type") as Hty.
  destruct (uci_get_section s "network" (Named (jsKey d))) as [y|].
  2: { cbn. split; [done|]. intros (d' & Hd' & _ & Hb). simplify_eq.
       destruct (Hb eq_refl) as [Hb' _]. destruct Hty as [? ?]; [by eexists | done]. }
  clear Hty. case_bool_decide as Hbr; cbn [negb].
  2: { cbn. split; [done|]. intros (d' & Hd' & _ & Hb). simplify_eq.
       by destruct (Hb eq_refl) as [Hb' _]. }
  destruct (uci_sections s "dhcp" "dnsmasq") as [|main rest].
  { cbn. split; [|done]. intros _. exists d. by repeat split. }
  destruct (deviceExcluded _ d) eqn:Ex; cbn.
  - split; [|done]. intros _. exists d. by repeat split.
  - split; [done|]. intros (d' & Hd' & _ & Hb). simplify_eq.
    destruct (Hb eq_refl) as [_ Hb']. congruence.
Qed.

(** X3: the status [isIntegrationComplete] resolves to is consistent:
    it is complete exactly when nothing is listed as missing; a device is
    only reported present together with the interface, and the dnsmasq
    exclusion only together with the device; a component listed as missing
    is reported absent, and 'dnsmasq' is only listed when the device is
    there. *)
Theorem status_flags_consistent (n : string) (drv : option string)
    (w w' : World) (st : Status) :
  isIntegrationComplete n drv w = (w', Resolved st) ->
  (complete st = true <-> missing st = []) /\
  (hasDevice (details st) = true -> hasInterface (details st) = true) /\
  (hasDnsmasqExclusion (details st) = true -> hasDevice (details st) = true) /\
  ("interface" ∈ missing st -> hasInterface (details st) = false) /\
  ("device" ∈ missing st -> hasDevice (details st) = false) /\
  ("dnsmasq" ∈ missing st ->
   hasDevice (details st) = true /\ hasDnsmasqExclusion (details st) = false) /\
  (forall m, m ∈ missing st -> m ∈ ["interface"; "device"; "dnsmasq"; "unknown"]).
Proof.
  rewrite isIntegrationComplete_run. intros H. injection H as _ <-.
  destruct (fails w (CallLoad "network") || fails w (CallLoad "dhcp")).
  - cbn. setoid_rewrite list_elem_of_In. cbn [In]. intuition congruence.
  - destruct (inspect_flags n (orDefault drv "bridge") (staged w))
      as (H1 & H2 & H3 & H4 & H5 & H6 & H7).
    split; [exact H1|]. split; [exact H2|]. split; [exact H3|].
    split; [apply H4|]. split; [apply H5|]. split; [apply H6|].
    intros m Hm. apply H7 in Hm. revert Hm.
      rewrite !list_elem_of_In. cbn [In]. tauto.
Qed.

Lemma status_flags_consistent_witness :
  exists st,
    isIntegrationComplete "net1" (Some "bridge") (worldOf wrongTypeStore [])
    = (worldOf wrongTypeStore [], Resolved st) /\
    missing st = ["device"] /\
    hasDevice (details st) = false.
Proof.
  eexists. split; [reflexivity|]. split; [reflexivity|].
  refine (proj1 (proj2 (proj2 (proj2 (proj2
    (status_flags_consistent "net1" (Some "bridge") (worldOf wrongTypeStore [])
       _ _ eq_refl))))) _).
  apply list_elem_of_In. left. reflexivity.
Defined.

(** X4: [isIntegrationComplete] reports a complete integration exactly
    when both configurations could be loaded and the store holds one: the
    interface section names a device and, for a driver that needs a bridge,
    that device is a section of type 'bridge' which the first dnsmasq
    section excludes, if the host has a dnsmasq section at all. *)
Theorem complete_iff_integrated (n : string) (drv : option string)
    (w w' : World) (st : Status) :
  isIntegrationComplete n drv w = (w', Resolved st) ->
  (complete st = true <->
   fails w (CallLoad "network") = false /\
   fails w (CallLoad "dhcp") = false /\
   integrated n (orDefault drv "bridge") (staged w)).
Proof.
  rewrite isIntegrationComplete_run. intros H. injection H as _ <-.
  destruct (fails w (CallLoad "network")), (fails w (CallLoad "dhcp")); cbn [orb].
  1-3: cbn; split; [done | by intros (? & ? & _)].
  rewrite inspect_integrated. tauto.
Qed.

Lemma complete_iff_integrated_witness :
  integrated "net1" "bridge" sampleStore.
Proof.
  apply (complete_iff_integrated "net1" (Some "bridge") (worldOf sampleStore [])
           _ _ eq_refl).
  vm_compute. reflexivity.
Defined.

(** ** What creation adds to the network configuration *)

(** A run of [uci.set] calls on one section, and what it does to a section. *)
Definition setAll (c : string) (sid : Sid) (ovs : list (string * option Value))
    (s : Store) : Store :=
  foldl (fun s ov => uci_set s c sid ov.1 ov.2) s ovs.

Definition withOpts (ovs : list (string * option Value)) (x : Sect) : Sect :=
  foldl (fun x ov => setOpt ov.1 ov.2 x) x ovs.

Lemma sname_withOpts ovs x : sname (withOpts ovs x) = sname x.
Proof.
  revert x. induction ovs as [|ov ovs IH]; intros x; cbn; [done|].
  unfold withOpts in IH. by rewrite IH, sname_setOpt.
Qed.

Lemma stype_withOpts ovs x : stype (withOpts ovs x) = stype x.
Proof.
  revert x. induction ovs as [|ov ovs IH]; intros x; cbn; [done|].
  unfold withOpts in IH. by rewrite IH, stype_setOpt.
Qed.

(** The sets made under the id of the section appended last all land in
    that section. *)
Lemma sections_setAll_last c sid ovs s l x :
  sections s c = l ++ [x] ->
  sname x = sid ->
  sid ∉ names l ->
  sections (setAll c sid ovs s) c = l ++ [withOpts ovs x].
Proof.
  revert s x. induction ovs as [|[o v] ovs IH]; intros s x Hs Hx Hl; cbn; [done|].
  apply IH; [|by rewrite sname_setOpt|done].
  by apply sections_set_last.
Qed.

(** The options of the bridge device section, in the order they are set. *)
Definition bridgeOpts (d : string) (ipv6 : option string)
  : list (string * option Value) :=
  [("type", str "bridge"); ("name", str d); ("bridge_empty", str "1");
   ("ipv6", str "0")]
  ++ (if truthy ipv6 then [("ipv6", str "1"); ("ip6assign", str "64")] else []).

Definition bridgeSect (d : string) (ipv6 : option string) : Sect :=
  withOpts (bridgeOpts d ipv6) (mkSect (Named d) "device" ∅).

Lemma addBridgeDevice_sections d v s :
  Named d ∉ names (sections s "network") ->
  sections (addBridgeDevice d v s) "network"
  = sections s "network" ++ [bridgeSect d v].
Proof.
  intros Hfresh.
  assert (E : addBridgeDevice d v s
              = setAll "network" (Named d) (bridgeOpts d v)
                  (uci_add s "network" "device" (Named d))).
  { unfold addBridgeDevice, bridgeOpts. by destruct (truthy v). }
  rewrite E. apply sections_setAll_last; [|done|done].
  by rewrite sections_add, decide_True.
Qed.

Lemma bridgeSect_type d v : sopts (bridgeSect d v) !! "type" = Some (VStr "bridge").
Proof.
  unfold bridgeSect, bridgeOpts. destruct (truthy v); cbn [app withOpts foldl fst snd].
  all: by rewrite !sopts_setOpt.
Qed.

Section Creation.

Variable parseInt : string -> option Z.
Variable prefixToMask : option Z -> option string.

Let createEdits' := createEdits parseInt prefixToMask.
Let createIntegration' := createIntegration parseInt prefixToMask.
Let ensureInterface' := ensureInterface parseInt prefixToMask.
Let addInterface' := addInterface parseInt prefixToMask.
Let repairEdits' := repairEdits parseInt prefixToMask.
Let repairIntegration' := repairIntegration parseInt prefixToMask.

(** The netmask [createIntegration] stores for the subnet. *)
Definition netmaskOf (o : Options) : option Value :=
  VStr <$> prefixToMask (cidrToPrefix parseInt (subnet o)).

Definition ifaceOpts (d : string) (o : Options) : list (string * option Value) :=
  [("proto", str "static"); ("device", str d); ("ipaddr", str (gateway o));
   ("netmask", netmaskOf o)].

Definition ifaceSect (n d : string) (o : Options) : Sect :=
  withOpts (ifaceOpts d o) (mkSect (Named n) "interface" ∅).

Lemma addInterface_sections n d o s :
  Named n ∉ names (sections s "network") ->
  sections (addInterface' n d o s) "network"
  = sections s "network" ++ [ifaceSect n d o].
Proof.
  intros Hfresh.
  change (addInterface' n d o s)
    with (setAll "network" (Named n) (ifaceOpts d o)
            (uci_add s "network" "interface" (Named n))).
  apply sections_setAll_last; [|done|done].
  by rewrite sections_add, decide_True.
Qed.

(** The ip6addr option, set when both IPv6 fields are given. *)
Definition ip6Opts (o : Options) : list (string * option Value) :=
  if truthy (ipv6subnet o) && truthy (ipv6gateway o)
  then [("ip6addr", str (default "" (ipv6gateway o) +:+ "/64"))]
  else [].

Lemma ensureInterface_sections n o s :
  sections (ensureInterface' n o s) "network" =
  sections s "network" ++
  match uci_get_section s "network" (Named n) with
  | Some _ => []
  | None => [withOpts (ip6Opts o) (ifaceSect n (deviceOf o) o)]
  end.
Proof.
  unfold ensureInterface', ensureInterface.
  destruct (uci_get_section s "network" (Named n)) eqn:E; [by rewrite app_nil_r|].
  apply lookupSect_None in E.
  pose proof (addInterface_sections n (deviceOf o) o s E) as Ha.
  unfold ip6Opts. destruct (truthy (ipv6subnet o) && truthy (ipv6gateway o)).
  - cbn [withOpts foldl fst snd].
    apply (sections_set_last _ _ (Named n)); [exact Ha | apply sname_withOpts | done].
  - exact Ha.
Qed.

Lemma ensureDevice_sections o s :
  sections (ensureDevice o s) "network" =
  sections s "network" ++
  (if needsBridge (driverOf o) then
     match uci_get_section s "network" (Named (deviceOf o)) with
     | Some _ => []
     | None => [bridgeSect (deviceOf o) (ipv6subnet o)]
     end
   else []).
Proof.
  unfold ensureDevice. fold (driverOf o).
  destruct (needsBridge (driverOf o)); [|by rewrite app_nil_r].
  destruct (uci_get_section s "network" (Named (deviceOf o))) eqn:E;
    [by rewrite app_nil_r|].
  apply lookupSect_None in E. by apply addBridgeDevice_sections.
Qed.

(** The sections [createIntegration] appends to the network configuration. *)
Definition createdNetwork (n : string) (o : Options) (s : Store) : list Sect :=
  let dev :=
    if needsBridge (driverOf o) then
      match uci_get_section s "network" (Named (deviceOf o)) with
      | Some _ => []
      | None => [bridgeSect (deviceOf o) (ipv6subnet o)]
      end
    else [] in
  dev ++
  match lookupSect (sections s "network" ++ dev) (Named n) with
  | Some _ => []
  | None => [withOpts (ip6Opts o) (ifaceSect n (deviceOf o) o)]
  end.

Lemma createEdits_network n o s :
  sections (createEdits' n o s) "network"
  = sections s "network" ++ createdNetwork n o s.
Proof.
  unfold createEdits', createEdits.
  rewrite (touches_sections "firewall" _ _ "network"
             (touches_ensureDnsRule _ _)) by done.
  rewrite (touches_sections "firewall" _ _ "network"
             (touches_ensureZone _ _ _)) by done.
  fold ensureInterface'. rewrite ensureInterface_sections.
  rewrite uci_get_section_sections, ensureDevice_sections.
  unfold createdNetwork. by rewrite app_assoc.
Qed.

End Creation.

(** ** What a resolved operation leaves *)

Lemma _configureDnsmasq_resolved_world b e w w' :
  _configureDnsmasq b e w = (w', Resolved tt) ->
  fails w (CallLoad "dhcp") = false /\
  failing w' = failing w /\
  staged w' = (dnsmasqEdits b e (staged w)).1 /\
  (saved w' = staged w' \/
   (saved w' = saved w /\ staged w' = staged w /\
    uci_sections (staged w) "dhcp" "dnsmasq" = [])).
Proof.
  rewrite _configureDnsmasq_run.
  destruct (fails w (CallLoad "dhcp")); [done|].
  pose proof (dnsmasqEdits_skip b e (staged w)) as Hskip.
  assert (Hnone : (dnsmasqEdits b e (staged w)).2 = true ->
                  uci_sections (staged w) "dhcp" "dnsmasq" = []).
  { unfold dnsmasqEdits. by repeat case_match. }
  destruct (dnsmasqEdits b e (staged w)) as [s [|]]; cbn [fst snd] in *.
  - intros [= <-]. cbn. rewrite (Hskip eq_refl). auto 10.
  - destruct (fails w CallApply); [done|]. destruct (fails w CallSave); [done|].
    intros [= <-]. cbn. auto.
Qed.

(** A run whose outcome is known, as an equation on the run. *)
Lemma run_resolved {A} (p : Promise A) (w : World) (a : A) :
  (p w).2 = Resolved a -> p w = ((p w).1, Resolved a).
Proof. destruct (p w) as [w' r]. cbn. by intros ->. Qed.

Section Resolved.

Variable parseInt : string -> option Z.
Variable prefixToMask : option Z -> option string.

Let createEdits' := createEdits parseInt prefixToMask.
Let createIntegration' := createIntegration parseInt prefixToMask.
Let repairEdits' := repairEdits parseInt prefixToMask.
Let repairIntegration' := repairIntegration parseInt prefixToMask.

(** The store a resolved [createIntegration] leaves, staged and saved. *)
Lemma createIntegration_resolved n o w w' :
  createIntegration' n o w = (w', Resolved tt) ->
  fails w (CallLoad "network") = false /\
  fails w (CallLoad "firewall") = false /\
  failing w' = failing w /\
  staged w' =
    (if needsBridge (driverOf o)
     then (dnsmasqEdits (deviceOf o) true (createEdits' n o (staged w))).1
     else createEdits' n o (staged w)) /\
  saved w' = staged w'.
Proof.
  unfold createIntegration', createEdits'. rewrite createIntegration_run.
  destruct (fails w (CallLoad "network")), (fails w (CallLoad "firewall"));
    cbn [orb]; try done.
  destruct (commit _ w) as [w1 [[]|]] eqn:Ec; [|done].
  apply commit_resolved in Ec. subst w1.
  destruct (needsBridge (driverOf o)).
  - intros H. apply _configureDnsmasq_resolved_world in H as (_ & Hf & Hs & Hv).
    cbn [staged saved failing] in *.
    repeat split; try done. destruct Hv as [?|(-> & -> & _)]; done.
  - intros [= <-]. done.
Qed.

(** The store a resolved [removeIntegration] leaves. *)
Lemma removeIntegration_resolved n d drv w w' :
  removeIntegration n d drv w = (w', Resolved tt) ->
  exists s b,
    removeEdits n d (orDefault drv "bridge") (staged w) = (s, Some b) /\
    fails w (CallLoad "network") = false /\
    fails w (CallLoad "firewall") = false /\
    failing w' = failing w /\
    staged w' =
      (if needsBridge (orDefault drv "bridge") && b
       then (dnsmasqEdits d false s).1 else s) /\
    saved w' = staged w'.
Proof.
  rewrite removeIntegration_run. cbn zeta.
  destruct (fails w (CallLoad "network")), (fails w (CallLoad "firewall"));
    cbn [orb]; try done.
  destruct (removeEdits n d _ (staged w)) as [s [b|]]; cbn [fst snd]; [|done].
  destruct (commit _ w) as [w1 [[]|]] eqn:Ec; [|done].
  apply commit_resolved in Ec. subst w1.
  intros H. exists s, b. split; [done|].
  destruct (needsBridge _ && b).
  - apply _configureDnsmasq_resolved_world in H as (_ & Hf & Hs & Hv).
    cbn [staged saved failing] in *.
    repeat split; try done. destruct Hv as [?|(-> & -> & _)]; done.
  - injection H as <-. done.
Qed.

End Resolved.

(** ** Creating, then reading back *)

Lemma lookupSect_singleton x sid :
  lookupSect [x] sid = if decide (sname x = sid) then Some x else None.
Proof.
  unfold lookupSect. cbn. unfold hasName.
  case_bool_decide; by case_decide.
Qed.

Lemma dnsmasqEdits_network b e s :
  sections (dnsmasqEdits b e s).1 "network" = sections s "network".
Proof. by apply (touches_sections "dhcp" _ _ "network" (touches_dnsmasqEdits b e s)). Qed.

Section ReadBack.

Variable parseInt : string -> option Z.
Variable prefixToMask : option Z -> option string.

Let createEdits' := createEdits parseInt prefixToMask.
Let createIntegration' := createIntegration parseInt prefixToMask.
Let ifaceSect' := ifaceSect parseInt prefixToMask.
Let netmaskOf' := netmaskOf parseInt prefixToMask.

(** The network sections a resolved [createIntegration] leaves. *)
Lemma created_network n o w w' :
  createIntegration' n o w = (w', Resolved tt) ->
  sections (staged w') "network"
  = sections (staged w) "network" ++ createdNetwork parseInt prefixToMask n o (staged w).
Proof.
  intros H. apply createIntegration_resolved in H as (_ & _ & _ & -> & _).
  destruct (needsBridge (driverOf o)); rewrite ?dnsmasqEdits_network;
    apply createEdits_network.
Qed.

(** On a store without a section called [n], the interface section is
    the one [createIntegration] writes. *)
Lemma created_iface n o s :
  uci_get_section s "network" (Named n) = None ->
  (needsBridge (driverOf o) = true -> deviceOf o <> n) ->
  lookupSect (sections s "network" ++ createdNetwork parseInt prefixToMask n o s)
             (Named n)
  = Some (withOpts (ip6Opts o) (ifaceSect' n (deviceOf o) o)).
Proof.
  intros Hn Hd. unfold createdNetwork.
  set (dev := if needsBridge (driverOf o) then _ else _).
  assert (Hdev : lookupSect (sections s "network" ++ dev) (Named n) = None).
  { rewrite lookupSect_app. rewrite uci_get_section_sections in Hn. rewrite Hn.
    subst dev. destruct (needsBridge (driverOf o)); [|done].
    destruct (uci_get_section s "network" (Named (deviceOf o))); [done|].
    rewrite lookupSect_singleton, decide_False; [done|].
    unfold bridgeSect. rewrite sname_withOpts. cbn. intros [= E]. by apply Hd. }
  rewrite Hdev, app_assoc, lookupSect_app, Hdev.
  rewrite lookupSect_singleton, decide_True; [done|].
  unfold ifaceSect', ifaceSect. by rewrite !sname_withOpts.
Qed.

Lemma ifaceSect_opts n d o :
  let x := withOpts (ip6Opts o) (ifaceSect' n d o) in
  sopts x !! "device" = storedValue (str d) /\
  sopts x !! "ipaddr" = storedValue (str (gateway o)) /\
  sopts x !! "netmask" = storedValue (netmaskOf' o) /\
  sopts x !! "proto" = Some (VStr "static").
Proof.
  cbn zeta. unfold ip6Opts, ifaceSect', ifaceSect, ifaceOpts.
  destruct (truthy (ipv6subnet o) && truthy (ipv6gateway o));
    cbn [withOpts foldl fst snd]; rewrite !sopts_setOpt; cbn; done.
Qed.

(** X5: once [createIntegration] has resolved, [hasIntegration] resolves
    to true; and when no section of that name was there before (and the
    bridge device is not called like the network), [getIntegration] reads
    back what was written: the device, the gateway as address, the netmask
    of the subnet and the protocol 'static'. An empty value was not stored
    and reads back as absent. *)
Theorem created_integration_reads_back (n : string) (o : Options) (w w' : World) :
  createIntegration' n o w = (w', Resolved tt) ->
  hasIntegration n w' = (w', Resolved true) /\
  (uci_get_section (staged w) "network" (Named n) = None ->
   (needsBridge (driverOf o) = true -> deviceOf o <> n) ->
   getIntegration n w' =
   (w', Resolved (Some (mkIntegration n
                          (storedValue (str (deviceOf o)))
                          (storedValue (str (gateway o)))
                          (storedValue (netmaskOf' o))
                          (Some (VStr "static")))))).
Proof.
  intros H.
  pose proof (created_network n o w w' H) as Hnet.
  destruct (createIntegration_resolved parseInt prefixToMask _ _ _ _ H)
    as (Hl & _ & Hf & _ & _).
  assert (Hl' : fails w' (CallLoad "network") = false)
    by (by rewrite (fails_same w w')).
  split.
  - unfold hasIntegration, catch, mbind, Promise_bind, uci_load, settle.
    rewrite Hl', callback_read. do 2 f_equal.
    unfold interfaceExists. apply bool_decide_eq_true.
    rewrite uci_get_section_sections, Hnet.
    destruct (uci_get_section (staged w) "network" (Named n)) as [x|] eqn:E.
    + rewrite lookupSect_app. rewrite uci_get_section_sections in E. by rewrite E.
    + destruct (decide (needsBridge (driverOf o) = true /\ deviceOf o = n))
        as [[Hb Hd]|Hne].
      * (* the device section just added carries the name *)
        unfold createdNetwork. rewrite Hb, Hd, E.
        rewrite lookupSect_app. rewrite uci_get_section_sections in E. rewrite E.
        rewrite (lookupSect_app [_]), lookupSect_singleton.
        rewrite decide_True; [by eexists|].
        unfold bridgeSect. by rewrite sname_withOpts.
      * rewrite created_iface; [by eexists | done |].
        intros Hb Hd. by apply Hne.
  - intros Hn Hd.
    unfold getIntegration, catch, mbind, Promise_bind, uci_load, settle.
    rewrite Hl', callback_read. do 2 f_equal.
    unfold readIntegration.
    rewrite !uci_get_sections, uci_get_section_sections, Hnet.
    unfold lookupOpt. rewrite (created_iface n o (staged w) Hn Hd).
    destruct (ifaceSect_opts n (deviceOf o) o) as (-> & -> & -> & ->). done.
Qed.

End ReadBack.

Lemma created_integration_reads_back_witness :
  let w' := (createIntegration sampleParseInt sampleMask "net2"
               (mkOptions (Some "bridge") "br-pod2" "" "10.90.0.0/16" "10.90.0.1"
                  None None (Some "podman"))
               (worldOf zoneStore [])).1 in
  getIntegration "net2" w' =
  (w', Resolved (Some (mkIntegration "net2" (Some (VStr "br-pod2"))
                         (Some (VStr "10.90.0.1")) (Some (VStr "255.255.0.0"))
                         (Some (VStr "static"))))).
Proof.
  refine (proj2 (created_integration_reads_back sampleParseInt sampleMask "net2"
                   (mkOptions (Some "bridge") "br-pod2" "" "10.90.0.0/16" "10.90.0.1"
                      None None (Some "podman"))
                   (worldOf zoneStore []) _
                   (run_resolved _ _ _ _)) _ _).
  - vm_compute. reflexivity.
  - vm_compute. reflexivity.
  - intros _. discriminate.
Defined.

(** ** Removing, then reading back *)

(** The network sections [removeIntegration]'s callback leaves. *)
Lemma removeEdits_network n d drv s s' b :
  removeEdits n d drv s = (s', Some b) ->
  b = needsBridge drv && negb (referencedByOthers s n d) /\
  sections s' "network" =
    (if b then without (Named d) else id) (without (Named n) (sections s "network")) /\
  s' !! "dhcp" = s !! "dhcp".
Proof.
  intros H. pose proof (touches_removeEdits_dhcp n d drv s) as Hdhcp.
  rewrite H in Hdhcp. cbn [fst] in Hdhcp.
  unfold removeEdits in H.
  destruct (removeZoneEdits n s) as [s1|] eqn:Ez; [|done].
  pose proof (touches_removeZoneEdits _ _ _ Ez) as Hz.
  destruct (removeNetworkEdits_spec n d drv s1) as (Hb & Hnet & _).
  destruct (removeNetworkEdits n d drv s1) as [s2 b2]. cbn [fst snd] in *.
  injection H as <- <-.
  assert (Hl : sections s1 "network" = sections s "network")
    by (by apply (touches_sections "firewall")).
  assert (Href : referencedByOthers s1 n d = referencedByOthers s n d).
  { unfold referencedByOthers, uci_sections, uci_get, uci_get_section.
    by rewrite Hl. }
  rewrite Hl, Href in *. by rewrite Hb in *.
Qed.

Lemma removed_network n d drv w w' :
  removeIntegration n d drv w = (w', Resolved tt) ->
  let b := needsBridge (orDefault drv "bridge")
           && negb (referencedByOthers (staged w) n d) in
  sections (staged w') "network" =
    (if b then without (Named d) else id)
      (without (Named n) (sections (staged w) "network")) /\
  fails w' (CallLoad "network") = false.
Proof.
  intros H. cbn zeta.
  apply removeIntegration_resolved in H as (s & b & He & Hl & _ & Hf & -> & _).
  apply removeEdits_network in He as (Hb & Hnet & _).
  split; [|by rewrite (fails_same w w')].
  assert (E : needsBridge (orDefault drv "bridge") && b = b).
  { rewrite Hb. by destruct (needsBridge _). }
  rewrite E. rewrite <- Hb.
  destruct b; [rewrite dnsmasqEdits_network|]; exact Hnet.
Qed.

Lemma lookupSect_removed n d (b : bool) l :
  lookupSect ((if b then without (Named d) else id) (without (Named n) l)) (Named n)
  = None.
Proof.
  destruct b; cbn [id]; [|apply lookupSect_without].
  destruct (decide (d = n)) as [->|Hne]; [apply lookupSect_without|].
  rewrite lookupSect_without_ne by congruence. apply lookupSect_without.
Qed.

(** X6: once [removeIntegration] has resolved, the interface section is
    gone: [hasIntegration] resolves to false, [getIntegration] to null, and
    [isIntegrationComplete] to a status that is not complete. *)
Theorem removed_integration_is_gone (n d : string) (drv drv' : option string)
    (w w' : World) :
  removeIntegration n d drv w = (w', Resolved tt) ->
  hasIntegration n w' = (w', Resolved false) /\
  getIntegration n w' = (w', Resolved None) /\
  exists st,
    isIntegrationComplete n drv' w' = (w', Resolved st) /\
    complete st = false /\
    hasInterface (details st) = false.
Proof.
  intros H. apply removed_network in H as [Hnet Hl].
  assert (Hn : uci_get_section (staged w') "network" (Named n) = None).
  { rewrite uci_get_section_sections, Hnet. apply lookupSect_removed. }
  split; [|split].
  - unfold hasIntegration, catch, mbind, Promise_bind, uci_load, settle.
    rewrite Hl, callback_read. unfold interfaceExists. by rewrite Hn.
  - unfold getIntegration, catch, mbind, Promise_bind, uci_load, settle.
    rewrite Hl, callback_read. unfold readIntegration. by rewrite Hn.
  - eexists. split; [apply isIntegrationComplete_run|].
    destruct (fails w' (CallLoad "network") || fails w' (CallLoad "dhcp")); [done|].
    unfold inspect, uci_get. rewrite Hn. done.
Qed.

Lemma removed_integration_is_gone_witness :
  let w' := (removeIntegration "net1" "br-pod" (Some "bridge")
               (worldOf sampleStore [])).1 in
  hasIntegration "net1" w' = (w', Resolved false).
Proof.
  refine (proj1 (removed_integration_is_gone "net1" "br-pod" (Some "bridge") None
                   (worldOf sampleStore []) _ (run_resolved _ _ _ _))).
  vm_compute. reflexivity.
Defined.

(** ** The dnsmasq exclusion list *)

(** The exclusion list as both readers see it. *)
Definition excluded (s : Store) : list string :=
  match uci_sections s "dhcp" "dnsmasq" with
  | [] => []
  | main :: _ => asList (uci_get s "dhcp" (sname main) "notinterface")
  end.

Lemma deviceExcluded_asList v d :
  deviceExcluded v (VStr d) = includes (asList v) d.
Proof.
  unfold deviceExcluded, asList, includes.
  destruct v as [[x|l]|]; [|done|].
  - case_bool_decide as Hx; cbn [negb andb].
    + symmetry. apply bool_decide_eq_false. apply not_elem_of_nil.
    + apply bool_decide_ext. rewrite list_elem_of_singleton. split; congruence.
  - symmetry. apply bool_decide_eq_false. apply not_elem_of_nil.
Qed.

Lemma isExcluded_excluded s d : isExcluded s d = includes (excluded s) d.
Proof.
  unfold isExcluded, excluded.
  destruct (uci_sections s "dhcp" "dnsmasq") as [|main rest].
  { symmetry. apply bool_decide_eq_false. apply not_elem_of_nil. }
  rewrite <- deviceExcluded_asList. unfold deviceExcluded.
  by destruct (uci_get s "dhcp" (sname main) "notinterface") as [[x|l]|].
Qed.

(** After a set on the first dnsmasq section, that section is still the
    first one and holds the value stored. *)
Lemma excluded_set s main rest val :
  uci_sections s "dhcp" "dnsmasq" = main :: rest ->
  excluded (uci_set s "dhcp" (sname main) "notinterface" val)
  = asList (storedValue val) /\
  uci_sections (uci_set s "dhcp" (sname main) "notinterface" val) "dhcp" "dnsmasq"
  <> [].
Proof.
  intros E. unfold excluded.
  rewrite uci_sections_sections, sections_set, decide_True by done.
  rewrite uci_sections_sections in E.
  pose proof (sameShape_filter "dnsmasq" _ _
                (sameShape_updSect (sname main) (setOpt "notinterface" val)
                   (sections s "dhcp") (sname_setOpt _ _) (stype_setOpt _ _))) as Hshape.
  rewrite E in Hshape.
  inversion Hshape as [|? main' ? rest' [Hname _] _ Heq1 Heq2]; subst.
  split; [|done].
  rewrite uci_get_sections, sections_set, decide_True by done.
  rewrite <- Hname, lookupOpt_updSect, decide_True by done.
  assert (Hin : is_Some (lookupSect (sections s "dhcp") (sname main))).
  { apply lookupSect_is_Some, In_names. by eapply filter_head_In. }
  by destruct Hin as [x ->].
Qed.

(** What the dnsmasq step does to the exclusion list: switching on appends
    the bridge unless it is listed, switching off filters it out. *)
Lemma dnsmasqEdits_excluded d e s :
  uci_sections s "dhcp" "dnsmasq" <> [] ->
  excluded (dnsmasqEdits d e s).1 =
  (if e then
     if includes (excluded s) d then excluded s else excluded s ++ [d]
   else List.filter (fun i => negb (bool_decide (i = d))) (excluded s)) /\
  uci_sections (dnsmasqEdits d e s).1 "dhcp" "dnsmasq" <> [].
Proof.
  intros Hne. unfold dnsmasqEdits.
  destruct (uci_sections s "dhcp" "dnsmasq") as [|main rest] eqn:E; [done|].
  assert (Hex : excluded s = asList (uci_get s "dhcp" (sname main) "notinterface"))
    by (unfold excluded; by rewrite E).
  rewrite <- Hex. destruct e.
  - destruct (includes (excluded s) d); cbn [negb fst].
    + split; [done | by rewrite E].
    + destruct (excluded_set s main rest (Some (VList (excluded s ++ [d]))) E)
        as [-> ?]. done.
  - case_bool_decide as Hlen; cbn [fst].
    + destruct (excluded_set s main rest
                  (Some (VList (List.filter (fun i => negb (bool_decide (i = d)))
                                  (excluded s)))) E) as [-> ?]. done.
    + unfold uci_unset. destruct (excluded_set s main rest None E) as [-> ?].
      split; [|done]. cbn.
      destruct (List.filter _ (excluded s)); [done | cbn in Hlen; lia].
Qed.

Lemma dnsmasqEdits_none d e s :
  uci_sections s "dhcp" "dnsmasq" = [] -> dnsmasqEdits d e s = (s, true).
Proof. intros E. unfold dnsmasqEdits. by rewrite E. Qed.

Lemma includes_app_other (l : list string) d d' :
  d' <> d -> includes (l ++ [d]) d' = includes l d'.
Proof.
  intros Hne. unfold includes. apply bool_decide_ext.
  rewrite elem_of_app, list_elem_of_singleton. tauto.
Qed.

Lemma includes_filter_other (l : list string) d d' :
  d' <> d ->
  includes (List.filter (fun i => negb (bool_decide (i = d))) l) d' = includes l d'.
Proof.
  intros Hne. unfold includes. apply bool_decide_ext.
  rewrite !list_elem_of_In, filter_In. split; [tauto|]. intros H. split; [done|].
  by rewrite bool_decide_eq_false_2.
Qed.

Lemma _isDnsmasqExcluded_run d w :
  _isDnsmasqExcluded d w =
  (w, Resolved (if fails w (CallLoad "dhcp") then false
                else includes (excluded (staged w)) d)).
Proof.
  unfold _isDnsmasqExcluded, catch, mbind, Promise_bind, uci_load, settle.
  destruct (fails w (CallLoad "dhcp")); [done|].
  by rewrite callback_read, isExcluded_excluded.
Qed.

(** X7: after [_configureDnsmasq(bridge, enable)] has resolved on a host
    with a dnsmasq section, [_isDnsmasqExcluded(bridge)] resolves to
    [enable]; on a host without one nothing was changed and the answer is
    false. Whether any other bridge is excluded stays as it was. *)
Theorem exclusion_round_trip (d : string) (e : bool) (w w' : World) :
  _configureDnsmasq d e w = (w', Resolved tt) ->
  (uci_sections (staged w) "dhcp" "dnsmasq" <> [] ->
   _isDnsmasqExcluded d w' = (w', Resolved e)) /\
  (uci_sections (staged w) "dhcp" "dnsmasq" = [] ->
   w' = w /\ _isDnsmasqExcluded d w' = (w', Resolved false)) /\
  (forall d', d' <> d ->
     (_isDnsmasqExcluded d' w').2 = (_isDnsmasqExcluded d' w).2).
Proof.
  intros H.
  pose proof (_configureDnsmasq_resolved_world _ _ _ _ H) as (Hl & Hf & Hs & Hv).
  assert (Hl' : fails w' (CallLoad "dhcp") = false) by (by rewrite (fails_same w w')).
  split; [|split].
  - intros Hne. rewrite _isDnsmasqExcluded_run, Hl', Hs.
    destruct (dnsmasqEdits_excluded d e (staged w) Hne) as [-> _].
    do 2 f_equal. destruct e.
    + destruct (includes (excluded (staged w)) d) eqn:Ei; [done|].
      apply includes_snoc.
    + apply includes_filter_out.
  - intros Hnone. rewrite _isDnsmasqExcluded_run, Hl', Hs.
    rewrite (dnsmasqEdits_none d e _ Hnone). cbn [fst].
    split.
    + rewrite _configureDnsmasq_run, Hl, (dnsmasqEdits_none d e _ Hnone) in H.
      rewrite withStaged_id in H. by injection H.
    + unfold excluded. by rewrite Hnone.
  - intros d' Hne. rewrite !_isDnsmasqExcluded_run, Hl', Hl, Hs. cbn [snd]. f_equal.
    destruct (uci_sections (staged w) "dhcp" "dnsmasq") as [|main rest] eqn:E.
    { by rewrite (dnsmasqEdits_none d e _ E). }
    destruct (dnsmasqEdits_excluded d e (staged w)) as [-> _]; [by rewrite E|].
    destruct e.
    + destruct (includes (excluded (staged w)) d); [done|].
      by apply includes_app_other.
    + by apply includes_filter_other.
Qed.

Lemma exclusion_round_trip_witness :
  let w' := (_configureDnsmasq "br-new" true (worldOf sampleStore [])).1 in
  _isDnsmasqExcluded "br-new" w' = (w', Resolved true).
Proof.
  refine (proj1 (exclusion_round_trip "br-new" true (worldOf sampleStore []) _
                   (run_resolved _ _ _ _)) _).
  - vm_compute. reflexivity.
  - vm_compute. discriminate.
Defined.

(** ** Creating, then checking *)

Lemma enabled_is_excluded d s :
  match uci_sections (dnsmasqEdits d true s).1 "dhcp" "dnsmasq" with
  | [] => True
  | main :: _ =>
      deviceExcluded (uci_get (dnsmasqEdits d true s).1 "dhcp" (sname main)
                        "notinterface") (VStr d) = true
  end.
Proof.
  destruct (uci_sections s "dhcp" "dnsmasq") as [|m r] eqn:E.
  { rewrite (dnsmasqEdits_none d true s E). cbn [fst]. by rewrite E. }
  destruct (dnsmasqEdits_excluded d true s) as [Hex _]; [by rewrite E|].
  unfold excluded in Hex at 1.
  destruct (uci_sections (dnsmasqEdits d true s).1 "dhcp" "dnsmasq"); [done|].
  rewrite deviceExcluded_asList, Hex.
  destruct (includes (excluded s) d) eqn:Ei; [done | apply includes_snoc].
Qed.

Section CreateThenCheck.

Variable parseInt : string -> option Z.
Variable prefixToMask : option Z -> option string.

Let createEdits' := createEdits parseInt prefixToMask.
Let createIntegration' := createIntegration parseInt prefixToMask.

(** The device section after creation: the one that was there, or the
    bridge section just written. *)
Lemma created_device n o s :
  needsBridge (driverOf o) = true ->
  lookupSect (sections s "network" ++ createdNetwork parseInt prefixToMask n o s)
             (Named (deviceOf o))
  = match uci_get_section s "network" (Named (deviceOf o)) with
    | Some x => Some x
    | None => Some (bridgeSect (deviceOf o) (ipv6subnet o))
    end.
Proof.
  intros Hb. unfold createdNetwork. rewrite Hb.
  rewrite lookupSect_app, <- uci_get_section_sections.
  destruct (uci_get_section s "network" (Named (deviceOf o))); [done|].
  rewrite (lookupSect_app [_]), lookupSect_singleton, decide_True; [done|].
  unfold bridgeSect. by rewrite sname_withOpts.
Qed.

(** X8: on a store that has no section called like the network, a
    resolved [createIntegration] leaves an integration that
    [isIntegrationComplete] reports complete, provided the device name is
    not empty and, for a driver that needs a bridge, differs from the
    network name and names no section or a section of type 'bridge'. *)
Theorem created_integration_is_complete (n : string) (o : Options) (w w' : World) :
  createIntegration' n o w = (w', Resolved tt) ->
  uci_get_section (staged w) "network" (Named n) = None ->
  deviceOf o <> "" ->
  (needsBridge (driverOf o) = true ->
   deviceOf o <> n /\
   (uci_get_section (staged w) "network" (Named (deviceOf o)) = None \/
    uci_get (staged w) "network" (Named (deviceOf o)) "type" = Some (VStr "bridge"))) ->
  fails w (CallLoad "dhcp") = false ->
  exists st,
    isIntegrationComplete n (Some (driverOf o)) w' = (w', Resolved st) /\
    complete st = true.
Proof.
  intros H Hn Hd Hb Hdhcp.
  pose proof (created_network parseInt prefixToMask n o w w' H) as Hnet.
  destruct (createIntegration_resolved parseInt prefixToMask _ _ _ _ H)
    as (Hl & _ & Hf & Hs & _).
  eexists. split; [apply isIntegrationComplete_run|].
  rewrite !(fails_same w w') by done. rewrite Hl, Hdhcp. cbn [orb].
  rewrite orDefault_driverOf. apply inspect_integrated.
  exists (VStr (deviceOf o)).
  assert (Hi : lookupSect (sections (staged w') "network") (Named n)
               = Some (withOpts (ip6Opts o)
                         (ifaceSect parseInt prefixToMask n (deviceOf o) o))).
  { rewrite Hnet. apply created_iface; [done|]. intros Hbr. by apply Hb. }
  split; [|split].
  - rewrite uci_get_sections. unfold lookupOpt. rewrite Hi.
    destruct (ifaceSect_opts parseInt prefixToMask n (deviceOf o) o) as (-> & _).
    by apply storedValue_str.
  - cbn. by rewrite bool_decide_eq_false_2.
  - intros Hbr. destruct (Hb Hbr) as [_ Hdev]. cbn [jsKey]. split.
    + rewrite uci_get_sections. unfold lookupOpt. rewrite Hnet.
      rewrite (created_device n o (staged w) Hbr).
      unfold uci_get in Hdev.
      destruct (uci_get_section (staged w) "network" (Named (deviceOf o))) as [x|].
      * by destruct Hdev.
      * apply bridgeSect_type.
    + rewrite Hs, Hbr. apply enabled_is_excluded.
Qed.

End CreateThenCheck.

Lemma created_integration_is_complete_witness :
  let w' := (createIntegration sampleParseInt sampleMask "net2"
               (mkOptions (Some "bridge") "br-pod2" "" "10.90.0.0/16" "10.90.0.1"
                  None None (Some "podman"))
               (worldOf zoneStore [])).1 in
  exists st,
    isIntegrationComplete "net2" (Some "bridge") w' = (w', Resolved st) /\
    complete st = true.
Proof.
  refine (created_integration_is_complete sampleParseInt sampleMask "net2"
            (mkOptions (Some "bridge") "br-pod2" "" "10.90.0.0/16" "10.90.0.1"
               None None (Some "podman"))
            (worldOf zoneStore []) _ (run_resolved _ _ _ _) _ _ _ _).
  - vm_compute. reflexivity.
  - vm_compute. reflexivity.
  - discriminate.
  - intros _. split; [discriminate|]. left. vm_compute. reflexivity.
  - vm_compute. reflexivity.
Defined.

(** ** What creation and repair leave of the network configuration *)

Section AppendOnly.

Variable parseInt : string -> option Z.
Variable prefixToMask : option Z -> option string.

Let createEdits' := createEdits parseInt prefixToMask.
Let createIntegration' := createIntegration parseInt prefixToMask.
Let repairEdits' := repairEdits parseInt prefixToMask.
Let repairIntegration' := repairIntegration parseInt prefixToMask.
Let ifaceSect' := ifaceSect parseInt prefixToMask.

(** A section the two operations may append for network [n]: the bridge
    device, for a driver that needs one, or the interface. *)
Definition ownSection (n : string) (o : Options) (x : Sect) : Prop :=
  (needsBridge (driverOf o) = true /\
   sname x = Named (deviceOf o) /\ stype x = "device") \/
  (sname x = Named n /\ stype x = "interface").

Lemma ownSection_bridge n o v :
  needsBridge (driverOf o) = true -> ownSection n o (bridgeSect (deviceOf o) v).
Proof.
  intros Hb. left. unfold bridgeSect. by rewrite sname_withOpts, stype_withOpts.
Qed.

Lemma ownSection_iface n o ovs :
  ownSection n o (withOpts ovs (ifaceSect' n (deviceOf o) o)).
Proof.
  right. unfold ifaceSect', ifaceSect. by rewrite !sname_withOpts, !stype_withOpts.
Qed.

Lemma createdNetwork_own n o s :
  Forall (ownSection n o) (createdNetwork parseInt prefixToMask n o s).
Proof.
  unfold createdNetwork. apply Forall_app. split.
  - destruct (needsBridge (driverOf o)) eqn:Hb; [|constructor].
    destruct (uci_get_section s "network" (Named (deviceOf o))); constructor;
      [by apply ownSection_bridge | constructor].
  - destruct (lookupSect _ (Named n)); constructor;
      [apply ownSection_iface | constructor].
Qed.

(** The sections [repairIntegration] appends to the network configuration. *)
Definition repairedNetwork (n : string) (o : Options) (st : Details) (s : Store)
  : list Sect :=
  let dev :=
    if negb (hasDevice st) && needsBridge (driverOf o) then
      match uci_get_section s "network" (Named (deviceOf o)) with
      | Some _ => []
      | None => [bridgeSect (deviceOf o) None]
      end
    else [] in
  dev ++
  (if negb (hasInterface st) then
     match lookupSect (sections s "network" ++ dev) (Named n) with
     | Some _ => []
     | None => [ifaceSect' n (deviceOf o) o]
     end
   else []).

Lemma repairEdits_network n o st s :
  sections (repairEdits' n o st s).1 "network"
  = sections s "network" ++ repairedNetwork n o st s.
Proof.
  unfold repairEdits', repairEdits, repairedNetwork. fold (driverOf o).
  set (step1 := if negb (hasDevice st) && needsBridge (driverOf o) then _ else _).
  set (dev := if negb (hasDevice st) && needsBridge (driverOf o) then _ else _).
  assert (H1 : sections step1.1.1 "network" = sections s "network" ++ dev).
  { subst step1 dev. destruct (negb (hasDevice st) && needsBridge (driverOf o));
      [|by rewrite app_nil_r].
    destruct (uci_get_section s "network" (Named (deviceOf o))) eqn:E;
      [by rewrite app_nil_r|].
    apply lookupSect_None in E. by apply addBridgeDevice_sections. }
  destruct step1 as [[s1 a1] k1]. cbn [fst snd] in H1.
  rewrite <- H1, <- uci_get_section_sections.
  destruct (negb (hasInterface st)); cbn [fst]; [|by rewrite app_assoc, app_nil_r].
  destruct (uci_get_section s1 "network" (Named n)) eqn:E; cbn [fst];
    [by rewrite app_assoc, app_nil_r|].
  apply lookupSect_None in E. rewrite app_assoc.
  rewrite (addInterface_sections parseInt prefixToMask n (deviceOf o) o s1 E).
  by rewrite H1.
Qed.

Lemma repairedNetwork_own n o st s :
  Forall (ownSection n o) (repairedNetwork n o st s).
Proof.
  unfold repairedNetwork. apply Forall_app. split.
  - destruct (hasDevice st); cbn [negb andb]; [constructor|].
    destruct (needsBridge (driverOf o)) eqn:Hb; [|constructor].
    destruct (uci_get_section s "network" (Named (deviceOf o))); constructor;
      [by apply ownSection_bridge | constructor].
  - destruct (negb (hasInterface st)); [|constructor].
    destruct (lookupSect _ (Named n)); constructor;
      [apply (ownSection_iface n o []) | constructor].
Qed.

(** The staged store [repairIntegration] can leave, outside the dhcp
    configuration. *)
Lemma repairIntegration_staged n o w c :
  c <> "dhcp" ->
  staged (repairIntegration' n o w).1 !! c = staged w !! c \/
  staged (repairIntegration' n o w).1 !! c
  = (repairEdits' n o (details (statusOf n o w)) (staged w)).1 !! c.
Proof.
  intros Hc. unfold repairIntegration', repairEdits'. rewrite repairIntegration_run.
  cbn zeta. destruct (complete (statusOf n o w)); [auto|].
  destruct (fails w (CallLoad "network") || fails w (CallLoad "dhcp")); [auto|].
  destruct (repairEdits parseInt prefixToMask n o _ (staged w)) as [s r].
  cbn [fst snd]. pose proof (commit_staged s w) as Hs.
  destruct (commit s w) as [w1 [[]|]]; cbn [fst] in *; [|right; by rewrite Hs].
  destruct (negb _ && _); cbn [fst]; [|right; by rewrite Hs].
  destruct (_configureDnsmasq_frame (deviceOf o) true w1 c Hc) as [Hd _].
  destruct (_configureDnsmasq (deviceOf o) true w1) as [w2 [[]|]]; cbn [fst] in *;
    right; by rewrite Hd, Hs.
Qed.

Lemma create_appends n o w :
  exists added,
    sections (staged (createIntegration' n o w).1) "network"
    = sections (staged w) "network" ++ added /\
    Forall (ownSection n o) added /\ (length added <= 2)%nat.
Proof.
  destruct (createIntegration_stores parseInt prefixToMask n o w "network"
              ltac:(done)) as [[H|H] _].
  - exists []. rewrite app_nil_r. split; [by apply sections_lookup_eq|].
    split; [constructor | cbn; lia].
  - exists (createdNetwork parseInt prefixToMask n o (staged w)).
    split; [|split].
    + rewrite <- (createEdits_network parseInt prefixToMask).
      by apply sections_lookup_eq.
    + apply createdNetwork_own.
    + unfold createdNetwork. rewrite length_app.
      repeat case_match; cbn; lia.
Qed.

Lemma repair_appends n o w :
  exists added,
    sections (staged (repairIntegration' n o w).1) "network"
    = sections (staged w) "network" ++ added /\
    Forall (ownSection n o) added /\ (length added <= 2)%nat.
Proof.
  destruct (repairIntegration_staged n o w "network" ltac:(done)) as [H|H].
  - exists []. rewrite app_nil_r. split; [by apply sections_lookup_eq|].
    split; [constructor | cbn; lia].
  - exists (repairedNetwork n o (details (statusOf n o w)) (staged w)).
    split; [|split].
    + rewrite <- repairEdits_network. by apply sections_lookup_eq.
    + apply repairedNetwork_own.
    + unfold repairedNetwork. rewrite length_app.
      repeat case_match; cbn; lia.
Qed.

(** X9: [createIntegration] and [repairIntegration] only ever append to
    the network configuration. Whatever the outcome, the sections that
    were there are still there, unchanged and in their order, followed by
    at most the bridge device section (only for a driver that needs a
    bridge) and the interface section of the network. *)
Theorem network_sections_survive (n : string) (o : Options) (w : World) :
  (exists added,
     sections (staged (createIntegration' n o w).1) "network"
     = sections (staged w) "network" ++ added /\
     Forall (ownSection n o) added /\ (length added <= 2)%nat) /\
  (exists added,
     sections (staged (repairIntegration' n o w).1) "network"
     = sections (staged w) "network" ++ added /\
     Forall (ownSection n o) added /\ (length added <= 2)%nat).
Proof. split; [apply create_appends | apply repair_appends]. Qed.

(** ** Drivers that need no bridge *)

Lemma createEdits_dhcp n o s : createEdits' n o s !! "dhcp" = s !! "dhcp".
Proof.
  unfold createEdits', createEdits.
  rewrite (touches_ensureDnsRule _ _ "dhcp") by done.
  rewrite (touches_ensureZone _ _ _ "dhcp") by done.
  rewrite (touches_ensureInterface parseInt prefixToMask _ _ _ "dhcp") by done.
  by rewrite (touches_ensureDevice _ _ "dhcp").
Qed.

Lemma filter_own_device n o added l :
  needsBridge (driverOf o) = false ->
  Forall (ownSection n o) added ->
  List.filter (ofType "device") (l ++ added) = List.filter (ofType "device") l.
Proof.
  intros Hb Hown. rewrite List.filter_app.
  assert (E : List.filter (ofType "device") added = []); [|by rewrite E, app_nil_r].
  induction Hown as [|x added Hx _ IH]; [done|]. cbn.
  destruct Hx as [(Hb' & _)|(_ & Hty)]; [congruence|].
  unfold ofType at 1. rewrite Hty. by rewrite bool_decide_eq_false_2.
Qed.

(** X10: for a driver that needs no bridge (macvlan, ipvlan),
    [createIntegration] and [repairIntegration] leave the dhcp
    configuration as it was, never restart the resolver, and add no device
    section to the network configuration, whatever the outcome. *)
Theorem other_drivers_leave_dnsmasq (n : string) (o : Options) (w : World) :
  needsBridge (driverOf o) = false ->
  (staged (createIntegration' n o w).1 !! "dhcp" = staged w !! "dhcp" /\
   existsb isExec (newEvents w (createIntegration' n o w).1) = false /\
   uci_sections (staged (createIntegration' n o w).1) "network" "device"
   = uci_sections (staged w) "network" "device") /\
  (staged (repairIntegration' n o w).1 !! "dhcp" = staged w !! "dhcp" /\
   existsb isExec (newEvents w (repairIntegration' n o w).1) = false /\
   uci_sections (staged (repairIntegration' n o w).1) "network" "device"
   = uci_sections (staged w) "network" "device").
Proof.
  intros Hb. split.
  - split; [|split].
    + unfold createIntegration'. rewrite createIntegration_run, Hb.
      destruct (fails w (CallLoad "network") || fails w (CallLoad "firewall")); [done|].
      pose proof (commit_staged (createEdits parseInt prefixToMask n o (staged w)) w)
        as Hs.
      destruct (commit _ w) as [w1 [[]|]]; cbn [fst] in *;
        rewrite Hs; apply createEdits_dhcp.
    + unfold createIntegration'. rewrite createIntegration_run, Hb.
      destruct (fails w (CallLoad "network") || fails w (CallLoad "firewall"));
        [by rewrite newEvents_refl|].
      pose proof (commit_no_exec (createEdits parseInt prefixToMask n o (staged w)) w)
        as He.
      by destruct (commit _ w) as [w1 [[]|]].
    + destruct (create_appends n o w) as (added & Heq & Hown & _).
      rewrite !uci_sections_sections, Heq. by eapply filter_own_device.
  - split; [|split].
    + unfold repairIntegration'. rewrite repairIntegration_run, Hb. cbn zeta.
      destruct (complete (statusOf n o w)); [done|].
      destruct (fails w (CallLoad "network") || fails w (CallLoad "dhcp")); [done|].
      pose proof (touches_repairEdits parseInt prefixToMask n o
                    (details (statusOf n o w)) (staged w) "dhcp" ltac:(done)) as Hr.
      destruct (repairEdits parseInt prefixToMask n o _ (staged w)) as [s r].
      cbn [fst snd] in *. pose proof (commit_staged s w) as Hs.
      rewrite andb_false_r.
      destruct (commit s w) as [w1 [[]|]]; cbn [fst] in *; by rewrite Hs.
    + unfold repairIntegration'. rewrite repairIntegration_run, Hb. cbn zeta.
      destruct (complete (statusOf n o w)); [by rewrite newEvents_refl|].
      destruct (fails w (CallLoad "network") || fails w (CallLoad "dhcp"));
        [by rewrite newEvents_refl|].
      destruct (repairEdits parseInt prefixToMask n o _ (staged w)) as [s r].
      cbn [fst snd] in *. pose proof (commit_no_exec s w) as He.
      rewrite andb_false_r.
      by destruct (commit s w) as [w1 [[]|]].
    + destruct (repair_appends n o w) as (added & Heq & Hown & _).
      rewrite !uci_sections_sections, Heq. by eapply filter_own_device.
Qed.

End AppendOnly.

Lemma other_drivers_leave_dnsmasq_witness :
  staged (createIntegration sampleParseInt sampleMask "net3"
            (mkOptions (Some "macvlan") "" "eth0" "10.91.0.0/24" "10.91.0.1"
               None None (Some "podman"))
            (worldOf sampleStore [])).1 !! "dhcp" = Some [sampleDnsmasq].
Proof.
  refine (proj1 (proj1 (other_drivers_leave_dnsmasq sampleParseInt sampleMask "net3"
            (mkOptions (Some "macvlan") "" "eth0" "10.91.0.0/24" "10.91.0.1"
               None None (Some "podman"))
            (worldOf sampleStore []) _))).
  vm_compute. reflexivity.
Defined.

(** ** What repair reports *)

Section RepairReport.

Variable parseInt : string -> option Z.
Variable prefixToMask : option Z -> option string.

Let repairEdits' := repairEdits parseInt prefixToMask.
Let repairIntegration' := repairIntegration parseInt prefixToMask.

(** The two arrays after the callback, by what was added. *)
Lemma repairEdits_lists n o st s :
  exists devAdded ifAdded : bool,
    (repairEdits' n o st s).2
    = ((if devAdded then ["device"] else []) ++ (if ifAdded then ["interface"] else []),
       (if devAdded then [] else ["device"]) ++ (if ifAdded then [] else ["interface"]))
    /\
    repairedNetwork parseInt prefixToMask n o st s
    = (if devAdded then [bridgeSect (deviceOf o) None] else []) ++
      (if ifAdded then [ifaceSect parseInt prefixToMask n (deviceOf o) o] else []) /\
    (devAdded = true ->
     needsBridge (driverOf o) = true /\
     uci_get_section s "network" (Named (deviceOf o)) = None) /\
    (ifAdded = true -> uci_get_section s "network" (Named n) = None).
Proof.
  unfold repairEdits', repairEdits, repairedNetwork. fold (driverOf o).
  destruct (negb (hasDevice st) && needsBridge (driverOf o)) eqn:E1.
  - apply andb_true_iff in E1 as [_ Hb].
    destruct (uci_get_section s "network" (Named (deviceOf o))) eqn:E2.
    + rewrite app_nil_r, <- uci_get_section_sections.
      destruct (negb (hasInterface st)); [|by exists false, false].
      destruct (uci_get_section s "network" (Named n)) eqn:E3;
        [by exists false, false | by exists false, true].
    + destruct (negb (hasInterface st)); [|by exists true, false].
      rewrite <- (addBridgeDevice_sections (deviceOf o) None s)
        by (by apply lookupSect_None).
      rewrite <- uci_get_section_sections.
      destruct (uci_get_section (addBridgeDevice _ _ s) "network" (Named n)) eqn:E3;
        [by exists true, false|].
      exists true, true. repeat split; try done.
      intros _. rewrite uci_get_section_sections in E3.
      rewrite addBridgeDevice_sections in E3 by (by apply lookupSect_None).
      rewrite lookupSect_app in E3.
      by destruct (lookupSect (sections s "network") (Named n)) eqn:E4.
  - rewrite app_nil_r, <- uci_get_section_sections.
    destruct (negb (hasInterface st)); [|by exists false, false].
    destruct (uci_get_section s "network" (Named n)) eqn:E3;
      [by exists false, false | by exists false, true].
Qed.

(** X11: a [repairIntegration] that resolves either found the integration
    complete, changed nothing and reports [skipped: ['complete']], or it
    reports each of 'device', 'interface' and 'dnsmasq' exactly once, as
    added or as skipped. A section it reports as added was missing before
    and is there afterwards. *)
Theorem repair_reports_each_component (n : string) (o : Options)
    (w w' : World) (r : RepairResult) :
  repairIntegration' n o w = (w', Resolved r) ->
  (added r = [] /\ skipped r = ["complete"] /\ w' = w) \/
  (added r ++ skipped r ≡ₚ ["device"; "interface"; "dnsmasq"] /\
   ("device" ∈ added r ->
    needsBridge (driverOf o) = true /\
    uci_get_section (staged w) "network" (Named (deviceOf o)) = None /\
    is_Some (uci_get_section (staged w') "network" (Named (deviceOf o)))) /\
   ("interface" ∈ added r ->
    uci_get_section (staged w) "network" (Named n) = None /\
    is_Some (uci_get_section (staged w') "network" (Named n)))).
Proof.
  unfold repairIntegration'. rewrite repairIntegration_run. cbn zeta.
  destruct (complete (statusOf n o w)); [intros [= <- <-]; by left|].
  destruct (fails w (CallLoad "network") || fails w (CallLoad "dhcp")); [done|].
  pose proof (repairEdits_network parseInt prefixToMask n o
                (details (statusOf n o w)) (staged w)) as Hnet.
  destruct (repairEdits_lists n o (details (statusOf n o w)) (staged w))
    as (da & ia & Hl & Hr & Hd & Hi).
  rewrite Hr in Hnet. clear Hr. unfold repairEdits' in *.
  destruct (repairEdits parseInt prefixToMask n o _ (staged w)) as [s [a k]].
  cbn [fst snd] in *. injection Hl as -> ->.
  destruct (commit s w) as [w1 [[]|]] eqn:Ec; [|done].
  apply commit_resolved in Ec. subst w1.
  set (dns := negb _ && _).
  assert (Hw' : forall w2 : World,
             sections (staged w2) "network" = sections s "network" ->
             (da = true ->
              is_Some (uci_get_section (staged w2) "network" (Named (deviceOf o)))) /\
             (ia = true ->
              is_Some (uci_get_section (staged w2) "network" (Named n)))).
  { intros w2 Hw2. rewrite !uci_get_section_sections, Hw2, Hnet. split.
    - intros ->. destruct (Hd eq_refl) as [_ Hnone].
      rewrite uci_get_section_sections in Hnone.
      rewrite lookupSect_app, Hnone, (lookupSect_app [_]), lookupSect_singleton.
      rewrite decide_True; [by eexists|].
      unfold bridgeSect. by rewrite sname_withOpts.
    - intros ->. rewrite app_assoc, lookupSect_app.
      destruct (lookupSect (_ ++ _) (Named n)); [by eexists|].
      rewrite lookupSect_singleton, decide_True; [by eexists|].
      unfold ifaceSect. by rewrite sname_withOpts. }
  assert (Hin : forall (b : bool) (x : string) (l : list string),
             x ∉ l -> x ∈ (if b then [x] else []) ++ l -> b = true).
  { intros [] x l Hx; [done|]. cbn. done. }
  intros H. right.
  assert (Hres : exists w2 (dd : bool),
             w2 = w' /\ sections (staged w2) "network" = sections s "network" /\
             added r = ((if da then ["device"] else [])
                        ++ (if ia then ["interface"] else []))
                       ++ (if dd then ["dnsmasq"] else []) /\
             skipped r = ((if da then [] else ["device"])
                          ++ (if ia then [] else ["interface"]))
                         ++ (if dd then [] else ["dnsmasq"])).
  { destruct dns.
    - destruct (_configureDnsmasq (deviceOf o) true _) as [w2 [[]|]] eqn:Ed; [|done].
      injection H as <- <-. exists w2, true. split; [done|].
      apply _configureDnsmasq_resolved_world in Ed as (_ & _ & -> & _).
      cbn [staged]. rewrite dnsmasqEdits_network. by rewrite app_nil_r.
    - injection H as <- <-. eexists _, false. split; [done|].
      cbn [staged added skipped]. by rewrite app_nil_r. }
  destruct Hres as (w2 & dd & <- & Hw2 & Ha & Hk).
  destruct (Hw' w2 Hw2) as [Hda Hia]. rewrite Ha, Hk.
  split; [|split].
  - destruct da, ia, dd; cbn; solve_Permutation.
  - intros Hx. assert (da = true) as ->.
    { destruct da; [done|]. exfalso. revert Hx.
      rewrite !list_elem_of_In. destruct ia, dd; cbn; intuition congruence. }
    destruct (Hd eq_refl). auto.
  - intros Hx. assert (ia = true) as ->.
    { destruct ia; [done|]. exfalso. revert Hx.
      rewrite !list_elem_of_In. destruct da, dd; cbn; intuition congruence. }
    auto.
Qed.

End RepairReport.

Lemma repair_reports_each_component_witness :
  is_Some (uci_get_section
             (staged (repairIntegration sampleParseInt sampleMask "net1" sampleOptions
                        (worldOf orphanStore [])).1)
             "network" (Named "br-pod")).
Proof.
  pose proof (run_resolved
                (repairIntegration sampleParseInt sampleMask "net1" sampleOptions)
                (worldOf orphanStore [])
                (mkRepairResult ["device"; "dnsmasq"] ["interface"]
                   (mkDetails true false false "bridge"))
                ltac:(vm_compute; reflexivity)) as H.
  destruct (repair_reports_each_component sampleParseInt sampleMask "net1"
              sampleOptions (worldOf orphanStore []) _ _ H)
    as [(Ha & _)|(_ & Hd & _)].
  - discriminate Ha.
  - apply Hd. apply list_elem_of_In. left. reflexivity.
Defined.

(** ** Nothing is left unsaved *)

Section Persisted.

Variable parseInt : string -> option Z.
Variable prefixToMask : option Z -> option string.

Let createIntegration' := createIntegration parseInt prefixToMask.
Let repairIntegration' := repairIntegration parseInt prefixToMask.

(** X12: when [createIntegration] or [removeIntegration] resolves, or
    [repairIntegration] resolves after having found something to repair,
    every edit has been saved: the saved store is the staged one. This
    holds although the dnsmasq step applies before it saves. *)
Theorem resolved_operations_persist (n d : string) (o : Options)
    (drv : option string) (w w' : World) :
  createIntegration' n o w = (w', Resolved tt) \/
  removeIntegration n d drv w = (w', Resolved tt) \/
  (exists r, repairIntegration' n o w = (w', Resolved r) /\
             skipped r <> ["complete"]) ->
  saved w' = staged w'.
Proof.
  intros [H|[H|(r & H & Hr)]].
  - by apply createIntegration_resolved in H as (_ & _ & _ & _ & ?).
  - by apply removeIntegration_resolved in H as (? & ? & _ & _ & _ & _ & _ & ?).
  - unfold repairIntegration' in H. rewrite repairIntegration_run in H.
    cbn zeta in H.
    destruct (complete (statusOf n o w)); [by injection H as <- <-|].
    destruct (fails w (CallLoad "network") || fails w (CallLoad "dhcp")); [done|].
    destruct (repairEdits parseInt prefixToMask n o _ (staged w)) as [s [a k]].
    cbn [fst snd] in H.
    destruct (commit s w) as [w1 [[]|]] eqn:Ec; [|done].
    apply commit_resolved in Ec. subst w1.
    destruct (negb _ && _).
    + destruct (_configureDnsmasq (deviceOf o) true _) as [w2 [[]|]] eqn:Ed; [|done].
      injection H as <- <-.
      apply _configureDnsmasq_resolved_world in Ed as (_ & _ & _ & Hv).
      cbn [staged saved] in Hv. destruct Hv as [?|(-> & -> & _)]; done.
    + by injection H as <- <-.
Qed.

End Persisted.

Lemma resolved_operations_persist_witness :
  let w' := (removeIntegration "net1" "br-pod" (Some "bridge")
               (worldOf sampleStore [])).1 in
  saved w' = staged w'.
Proof.
  apply (resolved_operations_persist sampleParseInt sampleMask "net1" "br-pod"
           sampleOptions (Some "bridge") (worldOf sampleStore [])).
  right. left. apply run_resolved. vm_compute. reflexivity.
Defined.

(** ** Listing the podman zones *)

(** The zone sections whose name is an array make [listPodmanZones] throw. *)
Definition scalarName (s : Store) (zone : Sect) : Prop :=
  match uci_get s "firewall" (sname zone) "name" with
  | Some (VList _) => False
  | _ => True
  end.

Lemma podmanZonesOf_sound s zones l z :
  podmanZonesOf s zones = Some l ->
  z ∈ l ->
  String.prefix "podman" z = true /\
  exists zone, In zone zones /\
               uci_get s "firewall" (sname zone) "name" = Some (VStr z).
Proof.
  revert l. induction zones as [|zone zones IH]; intros l; cbn [podmanZonesOf].
  { intros [= <-] Hz. by apply elem_of_nil in Hz. }
  destruct (uci_get s "firewall" (sname zone) "name") as [[zn|?]|] eqn:E; [|done|].
  - destruct (podmanZonesOf s zones) as [l'|]; [|done]. cbn.
    intros [= <-] Hz.
    destruct (negb (bool_decide (zn = "")) && String.prefix "podman" zn) eqn:Ep.
    + apply elem_of_cons in Hz as [->|Hz].
      * apply andb_true_iff in Ep as [_ Hp]. split; [done|].
        exists zone. split; [by left | done].
      * destruct (IH l' eq_refl Hz) as (Hp & zone' & Hin & Hn).
        split; [done|]. exists zone'. split; [by right | done].
    + destruct (IH l' eq_refl Hz) as (Hp & zone' & Hin & Hn).
      split; [done|]. exists zone'. split; [by right | done].
  - intros Hl Hz. destruct (IH l Hl Hz) as (Hp & zone' & Hin & Hn).
    split; [done|]. exists zone'. split; [by right | done].
Qed.

Lemma prefix_nonempty p z : p <> "" -> String.prefix p z = true -> z <> "".
Proof. intros Hp H ->. by destruct p. Qed.

Lemma podmanZonesOf_complete s zones :
  Forall (scalarName s) zones ->
  exists l,
    podmanZonesOf s zones = Some l /\
    forall zone z,
      In zone zones ->
      uci_get s "firewall" (sname zone) "name" = Some (VStr z) ->
      String.prefix "podman" z = true ->
      z ∈ l.
Proof.
  induction 1 as [|zone zones Hzone _ (l & Hl & IH)]; cbn [podmanZonesOf].
  { exists []. split; [done|]. by intros ? ? []. }
  unfold scalarName in Hzone. rewrite Hl.
  destruct (uci_get s "firewall" (sname zone) "name") as [[zn|?]|] eqn:E; [|done|].
  - cbn. eexists. split; [reflexivity|].
    intros zone' z [<-|Hin] Hn Hp.
    + rewrite E in Hn. injection Hn as ->. rewrite Hp.
      rewrite bool_decide_eq_false_2 by (by apply (prefix_nonempty "podman")).
      cbn. apply elem_of_cons. by left.
    + specialize (IH zone' z Hin Hn Hp).
      destruct (negb _ && _); [apply elem_of_cons; by right | done].
  - exists l. split; [done|]. intros zone' z [<-|Hin] Hn Hp; [congruence|].
    by apply (IH zone' z).
Qed.

Lemma listPodmanZones_run w :
  listPodmanZones w =
  (w, Resolved (if fails w (CallLoad "firewall") then []
                else default [] (podmanZonesOf (staged w)
                                   (uci_sections (staged w) "firewall" "zone")))).
Proof.
  unfold listPodmanZones, catch, mbind, Promise_bind, uci_load, settle,
    callbackThrowing.
  destruct (fails w (CallLoad "firewall")); [done|].
  rewrite withStaged_id. by destruct (podmanZonesOf _ _).
Qed.

Lemma find_is_Some (P : Sect -> bool) l x :
  In x l -> P x = true -> is_Some (List.find P l).
Proof.
  intros Hin HP. destruct (List.find P l) eqn:E; [by eexists|].
  by rewrite (find_none _ _ E x Hin) in HP.
Qed.

(** X13: [listPodmanZones] never rejects and changes nothing. Every name
    it returns starts with 'podman' and is the name of a zone section; when
    the firewall configuration cannot be loaded the list is empty; and
    when it can and no zone has an array as its name, every zone whose name
    starts with 'podman' is listed. *)
Theorem listPodmanZones_lists_podman_zones (w : World) :
  exists l,
    listPodmanZones w = (w, Resolved l) /\
    (fails w (CallLoad "firewall") = true -> l = []) /\
    (forall z, z ∈ l ->
       String.prefix "podman" z = true /\
       is_Some (findByName (staged w) "firewall" "zone" z)) /\
    (fails w (CallLoad "firewall") = false ->
     Forall (scalarName (staged w)) (uci_sections (staged w) "firewall" "zone") ->
     forall z, String.prefix "podman" z = true ->
               is_Some (findByName (staged w) "firewall" "zone" z) -> z ∈ l).
Proof.
  eexists. split; [apply listPodmanZones_run|].
  destruct (fails w (CallLoad "firewall")).
  { split; [done|]. split; [|done]. intros z Hz. by apply elem_of_nil in Hz. }
  split; [done|]. split.
  - intros z Hz.
    destruct (podmanZonesOf (staged w) _) as [l|] eqn:E;
      [|by apply elem_of_nil in Hz].
    destruct (podmanZonesOf_sound _ _ _ _ E Hz) as (Hp & zone & Hin & Hn).
    split; [done|]. unfold findByName.
    apply (find_is_Some _ _ zone Hin). by apply bool_decide_eq_true.
  - intros _ Hsc z Hp [zone Hz].
    destruct (podmanZonesOf_complete _ _ Hsc) as (l & -> & Hall). cbn.
    unfold findByName in Hz. apply find_some in Hz as [Hin Hn].
    apply bool_decide_eq_true in Hn. by apply (Hall zone).
Qed.

Lemma listPodmanZones_lists_podman_zones_witness :
  "podman" ∈ default [] (podmanZonesOf zoneStore (uci_sections zoneStore "firewall" "zone")).
Proof.
  destruct (listPodmanZones_lists_podman_zones (worldOf zoneStore []))
    as (l & Hl & _ & _ & Hall).
  rewrite listPodmanZones_run in Hl. injection Hl as <-.
  apply Hall.
  - reflexivity.
  - cbn. repeat constructor.
  - reflexivity.
  - vm_compute. by eexists.
Defined.

(** ** The patterns of the validation *)

(** A non-empty run of decimal digits. *)
Definition digitsText (a : string) : Prop := a <> "" /\ isDigits a = true.

(** [r] is empty or starts with a character that is no digit. *)
Definition noDigitAhead (r : string) : Prop :=
  match r with
  | EmptyString => True
  | String c _ => isDigit c = false
  end.

Lemma skipDigits_split s :
  exists a, isDigits a = true /\ s = a +:+ skipDigits s.
Proof.
  induction s as [|c s (a & Ha & Hs)]; cbn [skipDigits].
  { by exists "". }
  destruct (isDigit c) eqn:Ec.
  - exists (String c a). split; [cbn; by rewrite Ha, andb_true_r|].
    rewrite append_cons. by f_equal.
  - by exists "".
Qed.

Lemma skipDigits_app a r :
  isDigits a = true -> noDigitAhead r -> skipDigits (a +:+ r) = r.
Proof.
  intros Ha Hr. induction a as [|c a IH].
  - rewrite append_nil_l. destruct r as [|x r]; [done|]. cbn in *. by rewrite Hr.
  - cbn in Ha. apply andb_true_iff in Ha as [Hc Ha].
    rewrite append_cons. cbn [skipDigits]. unfold isDigit. rewrite Hc. by apply IH.
Qed.

Lemma digitRun_split s r :
  digitRun s = Some r -> exists a, digitsText a /\ s = a +:+ r.
Proof.
  destruct s as [|c s]; [done|]. cbn [digitRun].
  destruct (isDigit c) eqn:Ec; [|done]. intros [= <-].
  destruct (skipDigits_split s) as (a & Ha & Hs).
  exists (String c a). split.
  - split; [done|]. cbn. by rewrite Ha, andb_true_r.
  - rewrite append_cons. by f_equal.
Qed.

Lemma digitRun_app a r :
  digitsText a -> noDigitAhead r -> digitRun (a +:+ r) = Some r.
Proof.
  intros [Hne Ha] Hr. destruct a as [|c a]; [done|].
  cbn in Ha. apply andb_true_iff in Ha as [Hc Ha].
  rewrite append_cons. cbn [digitRun]. unfold isDigit. rewrite Hc.
  f_equal. by apply skipDigits_app.
Qed.

Lemma literal_split c s r : literal c s = Some r <-> s = String c r.
Proof.
  destruct s as [|x s]; cbn [literal]; [done|].
  case_bool_decide as Hx; [subst|]; split; intros [=]; by subst.
Qed.

(** The text 'a.b.c.d' from its parts. *)
Definition quadOf (a b c d : string) : string :=
  a +:+ "." +:+ b +:+ "." +:+ c +:+ "." +:+ d.

Lemma dottedQuad_split s r :
  dottedQuad s = Some r ->
  exists a b c d,
    digitsText a /\ digitsText b /\ digitsText c /\ digitsText d /\
    s = quadOf a b c d +:+ r.
Proof.
  unfold dottedQuad. intros H.
  destruct (digitRun s) as [r1|] eqn:E1; [|done]. cbn in H.
  destruct (literal "." r1) as [r2|] eqn:E2; [|done]. cbn in H.
  destruct (digitRun r2) as [r3|] eqn:E3; [|done]. cbn in H.
  destruct (literal "." r3) as [r4|] eqn:E4; [|done]. cbn in H.
  destruct (digitRun r4) as [r5|] eqn:E5; [|done]. cbn in H.
  destruct (literal "." r5) as [r6|] eqn:E6; [|done]. cbn in H.
  apply digitRun_split in E1 as (a & Ha & ->).
  apply digitRun_split in E3 as (b & Hb & ->).
  apply digitRun_split in E5 as (c & Hc & ->).
  apply digitRun_split in H as (d & Hd & ->).
  apply literal_split in E2 as ->. apply literal_split in E4 as ->.
  apply literal_split in E6 as ->.
  exists a, b, c, d. do 4 (split; [done|]).
  unfold quadOf. rewrite !append_assoc. reflexivity.
Qed.

Lemma dottedQuad_app a b c d r :
  digitsText a -> digitsText b -> digitsText c -> digitsText d ->
  noDigitAhead r ->
  dottedQuad (quadOf a b c d +:+ r) = Some r.
Proof.
  intros Ha Hb Hc Hd Hr. unfold dottedQuad, quadOf. rewrite !append_assoc.
  rewrite !append_cons, !append_nil_l.
  rewrite (digitRun_app a) by done. cbn. rewrite bool_decide_eq_true_2 by done. cbn.
  rewrite (digitRun_app b) by done. cbn. rewrite bool_decide_eq_true_2 by done. cbn.
  rewrite (digitRun_app c) by done. cbn. rewrite bool_decide_eq_true_2 by done. cbn.
  by apply digitRun_app.
Qed.

Lemma atEnd_Some r : atEnd r = true <-> r = Some "".
Proof. destruct r as [[|]|]; cbn; split; congruence. Qed.

Lemma patterns_digit_runs (s : string) :
  (matchesIp s = true <->
   exists a b c d,
     digitsText a /\ digitsText b /\ digitsText c /\ digitsText d /\
     s = quadOf a b c d) /\
  (matchesCidr s = true <->
   exists a b c d n,
     digitsText a /\ digitsText b /\ digitsText c /\ digitsText d /\
     digitsText n /\ s = ipv4Of a b c d n).
Proof.
  split.
  - unfold matchesIp. rewrite atEnd_Some. split.
    + intros H. apply dottedQuad_split in H as (a & b & c & d & ? & ? & ? & ? & ->).
      exists a, b, c, d. by rewrite append_nil_r.
    + intros (a & b & c & d & Ha & Hb & Hc & Hd & ->).
      rewrite <- (append_nil_r (quadOf a b c d)). by apply dottedQuad_app.
  - unfold matchesCidr. rewrite atEnd_Some. split.
    + intros H. destruct (dottedQuad s) as [r1|] eqn:E1; [|done]. cbn in H.
      destruct (literal "/" r1) as [r2|] eqn:E2; [|done]. cbn in H.
      apply dottedQuad_split in E1 as (a & b & c & d & ? & ? & ? & ? & ->).
      apply literal_split in E2 as ->.
      apply digitRun_split in H as (n & Hn & ->).
      exists a, b, c, d, n. do 5 (split; [done|]).
      unfold ipv4Of, quadOf. rewrite append_nil_r, !append_assoc. reflexivity.
    + intros (a & b & c & d & n & Ha & Hb & Hc & Hd & Hn & ->).
      assert (E : ipv4Of a b c d n = quadOf a b c d +:+ String "/" n).
      { unfold ipv4Of, quadOf. rewrite !append_assoc. reflexivity. }
      rewrite E, dottedQuad_app by done. cbn.
      rewrite bool_decide_eq_true_2 by done. cbn.
      rewrite <- (append_nil_r n) at 1. by apply digitRun_app.
Qed.

(** X14: the two patterns of [validateIntegration] accept exactly the
    texts made of non-empty runs of decimal digits: four runs separated by
    dots for an address, and the same followed by a slash and a fifth run
    for a subnet. Nothing bounds the numbers the runs stand for. *)
Theorem patterns_accept_digit_runs (s : string) :
  (matchesIp s = true <->
   exists a b c d,
     digitsText a /\ digitsText b /\ digitsText c /\ digitsText d /\
     s = quadOf a b c d) /\
  (matchesCidr s = true <->
   exists a b c d n,
     digitsText a /\ digitsText b /\ digitsText c /\ digitsText d /\
     digitsText n /\ s = ipv4Of a b c d n).
Proof. apply patterns_digit_runs. Qed.

(** ** Validation *)

Lemma filter_nil_existsb {A} (P : A -> bool) (l : list A) :
  List.filter P l = [] <-> existsb P l = false.
Proof.
  induction l as [|x l IH]; cbn; [done|].
  destruct (P x); cbn; [split; done | exact IH].
Qed.

Lemma length_zero_nil {A} (l : list A) :
  bool_decide (length l = 0%nat) = true <-> l = [].
Proof. rewrite bool_decide_eq_true. by destruct l. Qed.

Section ValidationFacts.

Variable trim : string -> string.

Let blank' := blank trim.
Let fieldErrors' := fieldErrors trim.
Let validateIntegration' := validateIntegration trim.

(** What the store has to be like for the second round of checks to pass. *)
Definition noConflict (n : string) (o : Options) (s : Store) : Prop :=
  (uci_get_section s "network" (Named n) = None \/
   uci_get s "network" (Named n) "proto" = Some (VStr "static")) /\
  (needsBridge (driverOf o) = true ->
   bridgeName o <> "" ->
   referencedByOthers s n (bridgeName o) = false).

(** What the fields have to be like for the first round to pass. *)
Definition fieldsOk (n : string) (o : Options) : Prop :=
  blank' n = false /\
  blank' (deviceOf o) = false /\
  blank' (subnet o) = false /\
  blank' (gateway o) = false /\
  matchesCidr (subnet o) = true /\
  matchesIp (gateway o) = true.

Lemma blank_empty : blank' "" = true.
Proof. done. Qed.

Lemma fieldErrors_nil n o : fieldErrors' n o = [] <-> fieldsOk n o.
Proof.
  unfold fieldErrors', fieldErrors, fieldsOk, deviceOf. fold (driverOf o).
  fold blank'.
  assert (Hs : blank' (subnet o) = false -> bool_decide (subnet o = "") = false).
  { unfold blank', blank. by intros [? _]%orb_false_iff. }
  assert (Hg : blank' (gateway o) = false -> bool_decide (gateway o = "") = false).
  { unfold blank', blank. by intros [? _]%orb_false_iff. }
  split.
  - intros H.
    destruct (blank' n); [done|]. cbn [app] in H.
    destruct (needsBridge (driverOf o)).
    + destruct (blank' (bridgeName o)); [done|]. cbn [app] in H.
      destruct (blank' (subnet o)); [done|]. cbn [app] in H.
      destruct (blank' (gateway o)); [done|]. cbn [app] in H.
      rewrite Hs, Hg in H by done. cbn [negb andb] in H.
      destruct (matchesCidr (subnet o)); [|done].
      by destruct (matchesIp (gateway o)).
    + destruct (blank' (parent o)); [done|]. cbn [app] in H.
      destruct (blank' (subnet o)); [done|]. cbn [app] in H.
      destruct (blank' (gateway o)); [done|]. cbn [app] in H.
      rewrite Hs, Hg in H by done. cbn [negb andb] in H.
      destruct (matchesCidr (subnet o)); [|done].
      by destruct (matchesIp (gateway o)).
  - intros (-> & Hd & Hsn & Hgw & -> & ->).
    rewrite Hsn, Hgw, (Hs Hsn), (Hg Hgw).
    destruct (needsBridge (driverOf o)); by rewrite Hd.
Qed.

Lemma conflictErrors_nil n o s : conflictErrors n o s = [] <-> noConflict n o s.
Proof.
  unfold conflictErrors, noConflict. fold (driverOf o).
  set (others := List.filter _ _).
  assert (Hoth : others = [] <-> referencedByOthers s n (bridgeName o) = false)
    by apply filter_nil_existsb.
  split.
  - intros H. apply app_nil in H as [H1 H2]. split.
    + destruct (uci_get_section s "network" (Named n)); [|by left].
      right. destruct (decide (uci_get s "network" (Named n) "proto"
                               = Some (VStr "static"))) as [?|Hne]; [done|].
      by rewrite (bool_decide_eq_false_2 _ Hne) in H1.
    + intros Hb Hbn. rewrite Hb in H2. cbn [andb] in H2.
      rewrite bool_decide_eq_false_2 in H2 by done. cbn [negb] in H2.
      apply Hoth. by destruct others.
  - intros [H1 H2]. apply app_nil. split.
    + destruct H1 as [H1|H1]; [by rewrite H1|].
      destruct (uci_get_section s "network" (Named n)); [|done].
      by rewrite bool_decide_eq_true_2.
    + destruct (needsBridge (driverOf o)); cbn [andb]; [|done].
      case_bool_decide as Hbn; cbn [negb]; [done|].
      by rewrite (proj2 Hoth (H2 eq_refl Hbn)).
Qed.


Lemma validateIntegration_run n o w :
  validateIntegration' n o w =
  (w, Resolved
        (if bool_decide (0 < length (fieldErrors' n o))%nat
         then mkValidation false (fieldErrors' n o)
         else if fails w (CallLoad "network") || fails w (CallLoad "firewall")
         then mkValidation false (fieldErrors' n o ++ [ValidateFailed])
         else
           let errors := fieldErrors' n o ++ conflictErrors n o (staged w) in
           mkValidation (bool_decide (length errors = 0%nat)) errors)).
Proof.
  unfold validateIntegration', validateIntegration. fold (fieldErrors' n o).
  case_bool_decide; [done|].
  unfold catch, mbind, Promise_bind. rewrite all2_load.
  destruct (fails w (CallLoad "network") || fails w (CallLoad "firewall")); [done|].
  unfold callback. cbn zeta. by rewrite withStaged_id.
Qed.

(** X15: [validateIntegration] never rejects and changes nothing. Its
    verdict is [valid] exactly when it reports no error. When a field is
    rejected the store is not consulted: the errors are those of the
    fields alone. When the fields pass and a configuration cannot be
    loaded, the one error reported is the failure to validate. *)
Theorem validateIntegration_never_rejects (n : string) (o : Options) (w : World) :
  exists v,
    validateIntegration' n o w = (w, Resolved v) /\
    (valid v = true <-> errors v = []) /\
    (fieldErrors' n o <> [] -> v = mkValidation false (fieldErrors' n o)) /\
    (fieldErrors' n o = [] ->
     fails w (CallLoad "network") || fails w (CallLoad "firewall") = true ->
     v = mkValidation false [ValidateFailed]).
Proof.
  eexists. split; [apply validateIntegration_run|].
  destruct (fieldErrors' n o) as [|e l] eqn:E.
  - rewrite bool_decide_eq_false_2 by (cbn; lia).
    destruct (fails w (CallLoad "network") || fails w (CallLoad "firewall")).
    + cbn. repeat split; done.
    + cbn [app]. split; [apply length_zero_nil|]. split; [done|]. done.
  - rewrite bool_decide_eq_true_2 by (cbn; lia).
    cbn. repeat split; done.
Qed.

(** What [validateIntegration] accepts: a network name and a device name
    (the bridge or the parent, by driver) that are not blank, a subnet of
    the form a.b.c.d/n and a gateway of the form a.b.c.d; both
    configurations load; the interface section is absent or has the
    protocol 'static'; and for a driver that needs a bridge no other
    interface section uses the bridge as its device. *)
Definition acceptable (n : string) (o : Options) (w : World) : Prop :=
  n <> "" /\ trim n <> "" /\
  deviceOf o <> "" /\ trim (deviceOf o) <> "" /\
  trim (subnet o) <> "" /\ trim (gateway o) <> "" /\
  (exists a b c d p,
     digitsText a /\ digitsText b /\ digitsText c /\ digitsText d /\
     digitsText p /\ subnet o = ipv4Of a b c d p) /\
  (exists a b c d,
     digitsText a /\ digitsText b /\ digitsText c /\ digitsText d /\
     gateway o = quadOf a b c d) /\
  fails w (CallLoad "network") = false /\
  fails w (CallLoad "firewall") = false /\
  (uci_get_section (staged w) "network" (Named n) = None \/
   uci_get (staged w) "network" (Named n) "proto" = Some (VStr "static")) /\
  (needsBridge (driverOf o) = true ->
   referencedByOthers (staged w) n (bridgeName o) = false).

Lemma blank_false x : blank' x = false <-> x <> "" /\ trim x <> "".
Proof.
  unfold blank', blank. rewrite orb_false_iff, !bool_decide_eq_false. done.
Qed.

Lemma fieldsOk_acceptable n o :
  fieldsOk n o <->
  n <> "" /\ trim n <> "" /\
  deviceOf o <> "" /\ trim (deviceOf o) <> "" /\
  trim (subnet o) <> "" /\ trim (gateway o) <> "" /\
  matchesCidr (subnet o) = true /\ matchesIp (gateway o) = true.
Proof.
  unfold fieldsOk. rewrite !blank_false. split.
  - tauto.
  - intros (? & ? & ? & ? & ? & ? & Hc & Hi).
    assert (subnet o <> "") by (intros E; by rewrite E in Hc).
    assert (gateway o <> "") by (intros E; by rewrite E in Hi).
    tauto.
Qed.

(** X16: [validateIntegration] declares the configuration valid exactly
    when it is acceptable in the sense above. *)
Theorem validateIntegration_accepts (n : string) (o : Options)
    (w w' : World) (v : Validation) :
  validateIntegration' n o w = (w', Resolved v) ->
  (valid v = true <-> acceptable n o w).
Proof.
  rewrite validateIntegration_run. intros [= _ <-].
  pose proof (fieldErrors_nil n o) as Hf. rewrite fieldsOk_acceptable in Hf.
  pose proof (conflictErrors_nil n o (staged w)) as Hc.
  destruct (patterns_digit_runs (subnet o)) as [_ Hcidr].
  destruct (patterns_digit_runs (gateway o)) as [Hip _].
  unfold acceptable. rewrite <- Hcidr, <- Hip. clear Hcidr Hip.
  fold fieldErrors' in Hf.
  destruct (fieldErrors' n o) as [|e l] eqn:E.
  - rewrite bool_decide_eq_false_2 by (cbn; lia).
    destruct (proj1 Hf eq_refl) as (H1 & H2 & H3 & H4 & H5 & H6 & H7 & H8).
    destruct (fails w (CallLoad "network")), (fails w (CallLoad "firewall"));
      cbn [orb valid].
    1-3: split; [done | intros (_ & _ & _ & _ & _ & _ & _ & _ & ? & ? & _); done].
    cbn [app]. rewrite length_zero_nil, Hc. unfold noConflict.
    split.
    + intros [Hi Hb]. repeat split; try done.
      intros Hbr. apply Hb; [done|].
      unfold deviceOf in H3. fold (driverOf o) in H3. by rewrite Hbr in H3.
    + intros (_ & _ & _ & _ & _ & _ & _ & _ & _ & _ & Hi & Hb).
      split; [done|]. auto.
  - rewrite bool_decide_eq_true_2 by (cbn; lia). cbn [valid].
    split; [done|]. intros (? & ? & ? & ? & ? & ? & ? & ? & _).
    assert (e :: l = []) by (apply Hf; tauto). done.
Qed.

End ValidationFacts.

Lemma validateIntegration_accepts_witness :
  acceptable (fun s => s) "net2"
    (mkOptions (Some "bridge") "br-pod2" "" "10.90.0.0/16" "10.90.0.1"
       None None (Some "podman"))
    (worldOf sampleStore []).
Proof.
  apply (validateIntegration_accepts (fun s => s) "net2"
           (mkOptions (Some "bridge") "br-pod2" "" "10.90.0.0/16" "10.90.0.1"
              None None (Some "podman"))
           (worldOf sampleStore []) _ _ eq_refl).
  vm_compute. reflexivity.
Defined.

(** ** What creation adds to the firewall configuration *)

Definition zoneOpts (zone n : string) : list (string * option Value) :=
  [("name", str zone); ("input", str "DROP"); ("output", str "ACCEPT");
   ("forward", str "REJECT"); ("network", Some (VList [n]))].

Definition zoneSect (id : Sid) (zone n : string) : Sect :=
  withOpts (zoneOpts zone n) (mkSect id "zone" ∅).

Definition ruleOpts (zone : string) : list (string * option Value) :=
  [("name", str (dnsRuleNameOf zone)); ("src", str zone); ("dest_port", str "53");
   ("target", str "ACCEPT")].

Definition ruleSect (id : Sid) (zone : string) : Sect :=
  withOpts (ruleOpts zone) (mkSect id "rule" ∅).

(** The id the store generates for the next anonymous section. *)
Definition nextId (l : list Sect) : Sid := Generated (genBound l).

Lemma nextId_fresh l : nextId l ∉ names l.
Proof. apply genBound_fresh. Qed.

Lemma ensureZone_new n zone s :
  findByName s "firewall" "zone" zone = None ->
  sections (ensureZone n zone s) "firewall"
  = sections s "firewall" ++ [zoneSect (nextId (sections s "firewall")) zone n].
Proof.
  intros E. unfold ensureZone. rewrite E. unfold uci_add_anon.
  fold (nextId (sections s "firewall")).
  change (sections (setAll "firewall" (nextId (sections s "firewall"))
                      (zoneOpts zone n)
                      (uci_add s "firewall" "zone" (nextId (sections s "firewall"))))
                   "firewall"
          = sections s "firewall"
            ++ [zoneSect (nextId (sections s "firewall")) zone n]).
  apply sections_setAll_last; [|done|apply nextId_fresh].
  by rewrite sections_add, decide_True.
Qed.

Lemma ensureDnsRule_new zone s :
  findByName s "firewall" "rule" (dnsRuleNameOf zone) = None ->
  sections (ensureDnsRule zone s) "firewall"
  = sections s "firewall" ++ [ruleSect (nextId (sections s "firewall")) zone].
Proof.
  intros E. unfold ensureDnsRule. rewrite E. unfold uci_add_anon.
  fold (nextId (sections s "firewall")).
  change (sections (setAll "firewall" (nextId (sections s "firewall"))
                      (ruleOpts zone)
                      (uci_add s "firewall" "rule" (nextId (sections s "firewall"))))
                   "firewall"
          = sections s "firewall" ++ [ruleSect (nextId (sections s "firewall")) zone]).
  apply sections_setAll_last; [|done|apply nextId_fresh].
  by rewrite sections_add, decide_True.
Qed.

Lemma zoneSect_facts id zone n :
  zone <> "" ->
  sname (zoneSect id zone n) = id /\
  stype (zoneSect id zone n) = "zone" /\
  sopts (zoneSect id zone n) !! "name" = Some (VStr zone) /\
  sopts (zoneSect id zone n) !! "network" = Some (VList [n]).
Proof.
  intros Hz. unfold zoneSect. rewrite sname_withOpts, stype_withOpts.
  split; [done|]. split; [done|].
  cbn [zoneOpts withOpts foldl fst snd]. rewrite !sopts_setOpt.
  split; [|by rewrite decide_True].
  repeat (rewrite decide_False by done). rewrite decide_True by done.
  by apply storedValue_str.
Qed.

Lemma ruleSect_facts id zone :
  sname (ruleSect id zone) = id /\
  stype (ruleSect id zone) = "rule" /\
  sopts (ruleSect id zone) !! "name" = Some (VStr (dnsRuleNameOf zone)).
Proof.
  unfold ruleSect. rewrite sname_withOpts, stype_withOpts.
  split; [done|]. split; [done|].
  cbn [ruleOpts withOpts foldl fst snd]. rewrite !sopts_setOpt.
  repeat (rewrite decide_False by done). rewrite decide_True by done.
  by apply storedValue_str.
Qed.

(** The two sections a first creation appends to the firewall
    configuration [l]. *)
Definition createdFirewall (l : list Sect) (zone n : string) : list Sect :=
  [zoneSect (nextId l) zone n;
   ruleSect (nextId (l ++ [zoneSect (nextId l) zone n])) zone].

Section CreatedFirewall.

Variable parseInt : string -> option Z.
Variable prefixToMask : option Z -> option string.

Let createEdits' := createEdits parseInt prefixToMask.

Lemma createEdits_firewall_new n o s :
  findByName s "firewall" "zone" (resolveZone n o) = None ->
  findByName s "firewall" "rule" (dnsRuleNameOf (resolveZone n o)) = None ->
  sections (createEdits' n o s) "firewall"
  = sections s "firewall"
    ++ createdFirewall (sections s "firewall") (resolveZone n o) n.
Proof.
  intros Hz Hr. unfold createEdits', createEdits.
  set (s2 := ensureInterface parseInt prefixToMask n o (ensureDevice o s)).
  assert (H2 : sections s2 "firewall" = sections s "firewall").
  { subst s2.
    rewrite (touches_sections "network" _ _ "firewall"
               (touches_ensureInterface parseInt prefixToMask _ _ _)) by done.
    by rewrite (touches_sections "network" _ _ "firewall" (touches_ensureDevice _ _)). }
  assert (Hz2 : findByName s2 "firewall" "zone" (resolveZone n o) = None)
    by (by rewrite findByName_sections, H2, <- findByName_sections).
  pose proof (ensureZone_new n _ s2 Hz2) as H3. rewrite H2 in H3.
  assert (Hr3 : findByName (ensureZone n (resolveZone n o) s2) "firewall" "rule"
                  (dnsRuleNameOf (resolveZone n o)) = None).
  { rewrite findByName_sections, H3.
    destruct (zoneSect_facts (nextId (sections s "firewall")) (resolveZone n o) n)
      as (Hn & Ht & _); [apply resolveZone_nonempty|].
    rewrite findByNameL_app_fresh by (rewrite Hn; apply nextId_fresh).
    rewrite <- findByName_sections, Hr. unfold ofType. rewrite Ht.
    by rewrite bool_decide_eq_false_2. }
  rewrite (ensureDnsRule_new _ _ Hr3), H3, <- app_assoc. done.
Qed.

End CreatedFirewall.

(** ** Removing what was created *)

Lemma lookupSect_app_old l l' sid :
  sid ∈ names l -> lookupSect (l ++ l') sid = lookupSect l sid.
Proof.
  intros H. rewrite lookupSect_app. by apply lookupSect_is_Some in H as [x ->].
Qed.

Lemma lookupSect_app_fresh l l' sid :
  sid ∉ names l -> lookupSect (l ++ l') sid = lookupSect l' sid.
Proof. intros H. rewrite lookupSect_app. by apply lookupSect_None in H as ->. Qed.

Lemma lookupOpt_app_old' l l' sid o :
  sid ∈ names l -> lookupOpt (l ++ l') sid o = lookupOpt l sid o.
Proof. intros H. unfold lookupOpt. by rewrite lookupSect_app_old. Qed.

Lemma without_app sid l l' : without sid (l ++ l') = without sid l ++ without sid l'.
Proof. unfold without. apply List.filter_app. Qed.

Lemma without_cons_eq sid x l : sname x = sid -> without sid (x :: l) = without sid l.
Proof.
  intros H. unfold without. cbn. by rewrite (proj2 (hasName_true sid x) H).
Qed.

Lemma without_cons_ne sid x l :
  sname x <> sid -> without sid (x :: l) = x :: without sid l.
Proof.
  intros H. unfold without. cbn. by rewrite (proj2 (hasName_false sid x) H).
Qed.

Lemma names_app l l' : names (l ++ l') = names l ++ names l'.
Proof. unfold names. apply map_app. Qed.

(** No zone of the firewall configuration [l] lists network [n]. *)
Definition unlisted (n : string) (l : list Sect) : Prop :=
  List.find (fun z => includes (asList (lookupOpt l (sname z) "network")) n)
            (List.filter (ofType "zone") l) = None.

Lemma removeZoneEdits_created n zone s1 lf :
  sections s1 "firewall" = lf ++ createdFirewall lf zone n ->
  zone <> "" ->
  String.prefix "podman" zone = true ->
  unlisted n lf ->
  findByNameL lf "rule" (dnsRuleNameOf zone) = None ->
  exists s2, removeZoneEdits n s1 = Some s2 /\ sections s2 "firewall" = lf.
Proof.
  intros Hs Hz Hp Hun Hrule. unfold createdFirewall in Hs.
  set (g1 := nextId lf) in *.
  set (zs := zoneSect g1 zone n) in *.
  set (g2 := nextId (lf ++ [zs])) in *.
  set (rs := ruleSect g2 zone) in *.
  destruct (zoneSect_facts g1 zone n Hz) as (Hzn & Hzt & Hzname & Hznet).
  destruct (ruleSect_facts g2 zone) as (Hrn & Hrt & Hrname).
  fold zs in Hzn, Hzt, Hzname, Hznet. fold rs in Hrn, Hrt, Hrname.
  assert (Hg1 : g1 ∉ names lf) by apply nextId_fresh.
  assert (Hg2 : (g2 ∉ names lf) /\ g2 <> g1).
  { pose proof (nextId_fresh (lf ++ [zs])) as H. fold g2 in H.
    rewrite names_app, not_elem_of_app in H. destruct H as [H1 H2].
    split; [done|]. intros E. apply H2. unfold names. cbn [map]. rewrite Hzn, E.
    apply elem_of_cons. by left. }
  destruct Hg2 as [Hg2 Hg21].
  (* the zone that lists the network is the one creation appended *)
  assert (Hget : forall o, uci_get s1 "firewall" g1 o = sopts zs !! o).
  { intros o. rewrite uci_get_sections, Hs. unfold lookupOpt.
    rewrite lookupSect_app_fresh by done. unfold lookupSect. cbn [List.find].
    by rewrite (proj2 (hasName_true g1 zs) Hzn). }
  assert (Hfound :
    List.find (fun z => includes (asList (uci_get s1 "firewall" (sname z) "network")) n)
              (uci_sections s1 "firewall" "zone") = Some zs).
  { rewrite uci_sections_sections, Hs, List.filter_app. cbn [List.filter].
    unfold ofType at 2 3. rewrite Hzt, Hrt.
    rewrite bool_decide_eq_true_2, bool_decide_eq_false_2 by done.
    rewrite find_app_last.
    assert (Hold : List.find
               (fun z => includes (asList (uci_get s1 "firewall" (sname z) "network")) n)
               (List.filter (ofType "zone") lf) = None).
    { rewrite <- Hun. apply find_ext_in. intros z Hin.
      apply filter_In in Hin as [Hin _].
      rewrite uci_get_sections, Hs. by rewrite lookupOpt_app_old' by by apply In_names. }
    rewrite Hold, Hzn, Hget, Hznet. cbn [asList].
    unfold includes. rewrite bool_decide_eq_true_2; [done|].
    apply elem_of_cons. by left. }
  unfold removeZoneEdits. rewrite Hfound. cbn zeta. rewrite Hzn. cbn [sidTruthy].
  rewrite !Hget, Hznet, Hzname. cbn [asList List.filter].
  rewrite (bool_decide_eq_true_2 (n = n)) by done. cbn [negb length].
  rewrite (bool_decide_eq_false_2 (0 < 0)%nat) by lia.
  rewrite (bool_decide_eq_false_2 (zone = "")) by done. rewrite Hp. cbn [negb andb].
  assert (H1 : sections (uci_remove s1 "firewall" g1) "firewall" = lf ++ [rs]).
  { rewrite sections_remove, decide_True by done. fold (without g1 (sections s1 "firewall")).
    rewrite Hs, without_app, (without_absent g1 lf) by done.
    rewrite without_cons_eq by done. rewrite without_cons_ne by (by rewrite Hrn).
    done. }
  assert (Hr : findByName (uci_remove s1 "firewall" g1) "firewall" "rule"
                 (dnsRuleNameOf zone) = Some rs).
  { rewrite findByName_sections, H1.
    rewrite findByNameL_app_fresh by (by rewrite Hrn).
    rewrite Hrule. unfold ofType. rewrite Hrt, Hrname.
    by rewrite !bool_decide_eq_true_2. }
  fold (dnsRuleNameOf zone). rewrite Hr.
  eexists. split; [reflexivity|].
  rewrite sections_remove, decide_True by done.
  fold (without (sname rs) (sections (uci_remove s1 "firewall" g1) "firewall")).
  rewrite H1, Hrn, without_app, (without_absent g2 lf) by done.
  rewrite without_cons_eq by done. cbn. apply app_nil_r.
Qed.

Lemma existsb_ext_in {A} (P Q : A -> bool) (l : list A) :
  (forall x, In x l -> P x = Q x) -> existsb P l = existsb Q l.
Proof.
  induction l as [|x l IH]; cbn; [done|]. intros H.
  rewrite (H x) by auto. f_equal. apply IH. auto.
Qed.

(** The network part of the removal, on a configuration that consists of
    [ln] followed by the sections creation appended. *)
Lemma removeNetworkEdits_created n d drv s2 (s : Store) dev x :
  sections s2 "network" = sections s "network" ++ dev ++ [x] ->
  sname x = Named n ->
  Named n ∉ names (sections s "network") ->
  (if needsBridge drv
   then exists b, dev = [b] /\ sname b = Named d /\ stype b = "device" /\
                  d <> n /\ (Named d ∉ names (sections s "network")) /\
                  referencedByOthers s n d = false
   else dev = []) ->
  sections (removeNetworkEdits n d drv s2).1 "network" = sections s "network" /\
  (removeNetworkEdits n d drv s2).2 = needsBridge drv.
Proof.
  intros Hs Hx Hn Hdev.
  destruct (removeNetworkEdits_spec n d drv s2) as (Hb & Hnet & _).
  rewrite Hb, Hnet. clear Hb Hnet. rewrite Hs.
  set (ln := sections s "network") in *.
  destruct (needsBridge drv) eqn:Hbr; cbn [andb].
  - destruct Hdev as (b & -> & Hbn & Hbt & Hdn & Hd & Href).
    assert (Hr : referencedByOthers s2 n d = false).
    { unfold referencedByOthers in *. rewrite uci_sections_sections in *.
      rewrite Hs. fold ln in Href.
      rewrite !List.filter_app, !existsb_app. cbn [List.filter].
      unfold ofType at 2. rewrite Hbt. rewrite bool_decide_eq_false_2 by done.
      cbn [existsb]. rewrite orb_false_l.
      assert (Hold : existsb
                (fun y => bool_decide (uci_get s2 "network" (sname y) "device"
                                       = Some (VStr d))
                          && negb (bool_decide (sname y = Named n)))
                (List.filter (ofType "interface") ln) = false).
      { etrans; [|exact Href]. apply existsb_ext_in. intros y Hy.
        apply filter_In in Hy as [Hy _].
        rewrite !uci_get_sections, Hs. fold ln.
        by rewrite lookupOpt_app_old' by by apply In_names. }
      rewrite Hold, orb_false_l.
      destruct (ofType "interface" x); [|done]. cbn [existsb].
      rewrite (bool_decide_eq_true_2 _ Hx). by rewrite andb_false_r. }
    rewrite Hr. cbn [negb]. split; [|done].
    rewrite !without_app, (without_absent (Named n) ln) by done.
    rewrite without_cons_ne by (rewrite Hbn; congruence).
    rewrite (without_cons_eq (Named n) x) by done.
    change (without (Named n) []) with (@nil Sect).
    rewrite (without_absent (Named d) ln) by done.
    rewrite (without_cons_eq (Named d) b) by done. cbn. apply app_nil_r.
  - subst dev. split; [|done]. cbn [id app].
    rewrite without_app, (without_absent (Named n) ln) by done.
    rewrite without_cons_eq by done. cbn. apply app_nil_r.
Qed.

Lemma excluded_frame (s s' : Store) :
  s' !! "dhcp" = s !! "dhcp" ->
  excluded s' = excluded s /\
  uci_sections s' "dhcp" "dnsmasq" = uci_sections s "dhcp" "dnsmasq".
Proof.
  intros H. unfold excluded, uci_sections, uci_get, uci_get_section, sections.
  by rewrite H.
Qed.

Lemma filter_out_snoc (l : list string) d :
  d ∉ l -> List.filter (fun i => negb (bool_decide (i = d))) (l ++ [d]) = l.
Proof.
  intros Hd. rewrite List.filter_app. cbn.
  rewrite (bool_decide_eq_true_2 (d = d)) by done. cbn. rewrite app_nil_r.
  induction l as [|x l IH]; [done|]. apply not_elem_of_cons in Hd as [Hx Hl].
  cbn. rewrite bool_decide_eq_false_2 by congruence. cbn. by rewrite IH.
Qed.

(** Switching the exclusion of a bridge on and then off again gives back
    the exclusion list, when the bridge was not on it. *)
Lemma exclusion_on_off d (s s3 : Store) :
  includes (excluded s) d = false ->
  s3 !! "dhcp" = (dnsmasqEdits d true s).1 !! "dhcp" ->
  excluded (dnsmasqEdits d false s3).1 = excluded s.
Proof.
  intros Hd H3. destruct (excluded_frame _ _ H3) as [He3 Hs3].
  destruct (uci_sections s "dhcp" "dnsmasq") as [|m r] eqn:E.
  - rewrite (dnsmasqEdits_none d true s E) in *. cbn [fst] in *.
    rewrite (dnsmasqEdits_none d false s3) by (by rewrite Hs3). by cbn [fst].
  - destruct (dnsmasqEdits_excluded d true s) as [Hon Hne]; [by rewrite E|].
    destruct (dnsmasqEdits_excluded d false s3) as [-> _]; [by rewrite Hs3|].
    rewrite He3, Hon, Hd. apply filter_out_snoc.
    by apply bool_decide_eq_false in Hd.
Qed.

Section Undo.

Variable parseInt : string -> option Z.
Variable prefixToMask : option Z -> option string.

Let createEdits' := createEdits parseInt prefixToMask.
Let createIntegration' := createIntegration parseInt prefixToMask.

(** X17: [removeIntegration] undoes a first [createIntegration]. When the
    store had no section called like the network (nor, for a driver that
    needs a bridge, one called like the device, which no other interface
    uses), no zone and no DNS rule of the resolved zone name, a zone name
    that starts with 'podman', and no zone listing the network, then after
    both calls have resolved the network and the firewall configuration
    hold exactly the sections they held before, and the dnsmasq exclusion
    list is the one from before if the device was not on it. *)
Theorem remove_undoes_create (n : string) (o : Options) (w w1 w2 : World) :
  createIntegration' n o w = (w1, Resolved tt) ->
  removeIntegration n (deviceOf o) (Some (driverOf o)) w1 = (w2, Resolved tt) ->
  uci_get_section (staged w) "network" (Named n) = None ->
  (needsBridge (driverOf o) = true ->
   uci_get_section (staged w) "network" (Named (deviceOf o)) = None /\
   deviceOf o <> n /\
   referencedByOthers (staged w) n (deviceOf o) = false) ->
  findByName (staged w) "firewall" "zone" (resolveZone n o) = None ->
  findByName (staged w) "firewall" "rule" (dnsRuleNameOf (resolveZone n o)) = None ->
  unlisted n (sections (staged w) "firewall") ->
  String.prefix "podman" (resolveZone n o) = true ->
  sections (staged w2) "network" = sections (staged w) "network" /\
  sections (staged w2) "firewall" = sections (staged w) "firewall" /\
  (includes (excluded (staged w)) (deviceOf o) = false ->
   excluded (staged w2) = excluded (staged w)).
Proof.
  intros Hc Hr Hn Hb Hz Hrule Hun Hp.
  set (s := staged w) in *. set (d := deviceOf o) in *.
  set (s1 := createEdits' n o s).
  apply createIntegration_resolved in Hc as (_ & _ & _ & Hs1 & _).
  fold s createEdits' s1 d in Hs1.
  apply removeIntegration_resolved in Hr as (s3 & b & He & _ & _ & _ & Hs2 & _).
  rewrite orDefault_driverOf in He, Hs2.
  (* what creation left *)
  assert (Hw1n : sections (staged w1) "network"
                 = sections s "network" ++ createdNetwork parseInt prefixToMask n o s).
  { rewrite Hs1. destruct (needsBridge (driverOf o)); rewrite ?dnsmasqEdits_network;
      apply createEdits_network. }
  assert (Hw1f : sections (staged w1) "firewall"
                 = sections s "firewall"
                   ++ createdFirewall (sections s "firewall") (resolveZone n o) n).
  { rewrite Hs1. destruct (needsBridge (driverOf o));
      rewrite ?(touches_sections "dhcp" _ _ "firewall" (touches_dnsmasqEdits _ _ _))
        by done; by apply createEdits_firewall_new. }
  assert (Hw1d : staged w1 !! "dhcp"
                 = (if needsBridge (driverOf o) then (dnsmasqEdits d true s).1 else s)
                     !! "dhcp").
  { rewrite Hs1.
    assert (Hd1 : s1 !! "dhcp" = s !! "dhcp")
      by apply (createEdits_dhcp parseInt prefixToMask).
    destruct (needsBridge (driverOf o)); [|done].
    unfold dnsmasqEdits.
    destruct (excluded_frame _ _ Hd1) as [_ Hsec]. rewrite Hsec.
    destruct (uci_sections s "dhcp" "dnsmasq") as [|m r]; [done|].
    assert (Hg : uci_get s1 "dhcp" (sname m) "notinterface"
                 = uci_get s "dhcp" (sname m) "notinterface").
    { unfold uci_get, uci_get_section, sections. by rewrite Hd1. }
    rewrite Hg.
    destruct (negb (includes _ d)); cbn [fst]; [|done].
    unfold uci_set. by rewrite !lookup_alter, Hd1. }
  (* the zone part of the removal *)
  unfold removeEdits in He.
  destruct (removeZoneEdits_created n (resolveZone n o) (staged w1)
              (sections s "firewall") Hw1f (resolveZone_nonempty n o) Hp Hun)
    as (s2 & Ez & Hs2f).
  { by rewrite <- findByName_sections. }
  rewrite Ez in He.
  pose proof (touches_removeZoneEdits _ _ _ Ez) as Htz.
  (* the network part *)
  assert (Hs2n : sections s2 "network"
                 = sections s "network"
                   ++ (if needsBridge (driverOf o)
                       then [bridgeSect d (ipv6subnet o)] else [])
                   ++ [withOpts (ip6Opts o)
                         (ifaceSect parseInt prefixToMask n d o)]).
  { rewrite (touches_sections "firewall" _ _ "network" Htz) by done.
    rewrite Hw1n. f_equal. unfold createdNetwork. fold d.
    assert (Hdev : (if needsBridge (driverOf o)
                    then match uci_get_section s "network" (Named d) with
                         | Some _ => []
                         | None => [bridgeSect d (ipv6subnet o)]
                         end
                    else [])
                   = (if needsBridge (driverOf o)
                      then [bridgeSect d (ipv6subnet o)] else [])).
    { destruct (needsBridge (driverOf o)); [|done].
      by destruct (Hb eq_refl) as (-> & _). }
    rewrite Hdev. f_equal.
    assert (Hfresh : lookupSect
                       (sections s "network"
                        ++ (if needsBridge (driverOf o)
                            then [bridgeSect d (ipv6subnet o)] else []))
                       (Named n) = None).
    { rewrite lookupSect_app. rewrite uci_get_section_sections in Hn. rewrite Hn.
      destruct (needsBridge (driverOf o)); [|done].
      destruct (Hb eq_refl) as (_ & Hdn & _).
      rewrite lookupSect_singleton, decide_False; [done|].
      unfold bridgeSect. rewrite sname_withOpts. cbn. congruence. }
    by rewrite Hfresh. }
  destruct (removeNetworkEdits_created n d (driverOf o) s2 s _ _ Hs2n) as [Hs3n Hbb].
  { unfold ifaceSect. by rewrite !sname_withOpts. }
  { by apply lookupSect_None. }
  { destruct (needsBridge (driverOf o)); [|done].
    destruct (Hb eq_refl) as (Hd & Hdn & Href).
    eexists. split; [reflexivity|]. unfold bridgeSect.
    rewrite sname_withOpts, stype_withOpts. repeat split; try done.
    by apply lookupSect_None. }
  pose proof (removeNetworkEdits_spec n d (driverOf o) s2) as (_ & _ & Htn).
  destruct (removeNetworkEdits n d (driverOf o) s2) as [s3' b'].
  cbn [fst snd] in *. injection He as <- <-.
  assert (Hs3f : sections s3' "firewall" = sections s "firewall").
  { by rewrite (touches_sections "network" _ _ "firewall" Htn). }
  assert (Hs3d : s3' !! "dhcp" = staged w1 !! "dhcp").
  { rewrite (Htn "dhcp") by done. by rewrite (Htz "dhcp"). }
  rewrite Hbb, andb_diag in Hs2. rewrite Hw1d in Hs3d.
  rewrite Hs2. destruct (needsBridge (driverOf o)).
  - rewrite dnsmasqEdits_network.
    rewrite (touches_sections "dhcp" _ _ "firewall" (touches_dnsmasqEdits _ _ _))
      by done.
    repeat split; try done.
    intros Hex. by apply exclusion_on_off.
  - repeat split; try done. intros _. by apply excluded_frame.
Qed.

End Undo.

Lemma remove_undoes_create_witness :
  let o := mkOptions (Some "bridge") "br-pod2" "" "10.90.0.0/16" "10.90.0.1"
             None None (Some "_create_new_") in
  let w1 := (createIntegration sampleParseInt sampleMask "net2" o
               (worldOf sampleStore [])).1 in
  let w2 := (removeIntegration "net2" "br-pod2" (Some "bridge") w1).1 in
  sections (staged w2) "network" = sections sampleStore "network" /\
  sections (staged w2) "firewall" = sections sampleStore "firewall".
Proof.
  intros o w1 w2.
  destruct (remove_undoes_create sampleParseInt sampleMask "net2" o
              (worldOf sampleStore []) w1 w2) as (Hn & Hf & _).
  - apply (run_resolved (createIntegration sampleParseInt sampleMask "net2" o)
             (worldOf sampleStore [])).
    vm_compute. reflexivity.
  - apply (run_resolved (removeIntegration "net2" "br-pod2" (Some "bridge")) w1).
    vm_compute. reflexivity.
  - vm_compute. reflexivity.
  - intros _. split; [vm_compute; reflexivity|]. split; [discriminate|].
    vm_compute. reflexivity.
  - vm_compute. reflexivity.
  - vm_compute. reflexivity.
  - vm_compute. reflexivity.
  - vm_compute. reflexivity.
  - exact (conj Hn Hf).
Defined.

(** ** Zone membership: what the operations do to the list *)

(** The networks the zone section [zid] lists, as the module reads them. *)
Definition members (s : Store) (zid : Sid) : list string :=
  asList (uci_get s "firewall" zid "network").

(** The zone [removeIntegration] picks: the first that lists the network. *)
Definition listingZone (n : string) (s : Store) : option Sect :=
  List.find (fun zone => includes (members s (sname zone)) n)
            (uci_sections s "firewall" "zone").

Lemma members_sections (s s' : Store) zid :
  sections s' "firewall" = sections s "firewall" -> members s' zid = members s zid.
Proof. intros H. unfold members. by rewrite !uci_get_sections, H. Qed.

Lemma findByName_frame (s s' : Store) ty name :
  sections s' "firewall" = sections s "firewall" ->
  findByName s' "firewall" ty name = findByName s "firewall" ty name.
Proof. intros H. by rewrite !findByName_sections, H. Qed.

(** The zone step on a zone that exists: the name is appended when it is
    absent, and the list is left alone when it is there. *)
Lemma ensureZone_existing n zone s z :
  findByName s "firewall" "zone" zone = Some z ->
  (exists z', findByName (ensureZone n zone s) "firewall" "zone" zone = Some z' /\
              sname z' = sname z) /\
  members (ensureZone n zone s) (sname z)
  = (if includes (members s (sname z)) n
     then members s (sname z) else members s (sname z) ++ [n]).
Proof.
  intros E. unfold ensureZone. rewrite E. fold (members s (sname z)).
  destruct (includes (members s (sname z)) n) eqn:Ei; cbn [negb].
  { split; [by exists z | done]. }
  rewrite findByName_sections in E.
  set (v := Some (VList (members s (sname z) ++ [n]))).
  set (l := sections s "firewall") in *.
  set (l' := updSect (sname z) (setOpt "network" v) l).
  assert (Hl' : sections (uci_set s "firewall" (sname z) "network" v) "firewall" = l')
    by (by rewrite sections_set, decide_True).
  split.
  - assert (Hfind : option_Forall2 (fun x y => sname x = sname y)
                      (findByNameL l "zone" zone) (findByNameL l' "zone" zone)).
    { apply sameShape_find.
      - apply sameShape_filter, sameShape_updSect;
          [apply sname_setOpt | apply stype_setOpt].
      - intros x y Hxy. subst l'. rewrite Hxy, lookupOpt_updSect.
        rewrite decide_False; [done | by intros [_ ?]]. }
    rewrite E in Hfind. inversion Hfind as [? z' Hname Hz1 Hz2|]; subst.
    exists z'. by rewrite findByName_sections, Hl'.
  - unfold members at 1. rewrite uci_get_sections, Hl'. unfold l'.
    rewrite lookupOpt_updSect, decide_True by done.
    assert (Hin : is_Some (lookupSect l (sname z))).
    { apply lookupSect_is_Some, In_names. by apply (findByNameL_In _ "zone" zone). }
    by destruct Hin as [x ->].
Qed.

(** The zone step when no zone has the name: a new zone whose list is
    exactly the network. *)
Lemma ensureZone_seeds n zone s :
  zone <> "" ->
  findByName s "firewall" "zone" zone = None ->
  exists z',
    findByName (ensureZone n zone s) "firewall" "zone" zone = Some z' /\
    (sname z' ∉ names (sections s "firewall")) /\
    members (ensureZone n zone s) (sname z') = [n].
Proof.
  intros Hz E. pose proof (ensureZone_new n zone s E) as Hs.
  set (g := nextId (sections s "firewall")) in *.
  destruct (zoneSect_facts g zone n Hz) as (Hn & Ht & Hname & Hnet).
  assert (Hg : sname (zoneSect g zone n) ∉ names (sections s "firewall"))
    by (rewrite Hn; apply nextId_fresh).
  exists (zoneSect g zone n). split; [|split; [done|]].
  - rewrite findByName_sections, Hs, findByNameL_app_fresh by done.
    rewrite <- findByName_sections, E. unfold ofType. rewrite Ht, Hname.
    by rewrite !bool_decide_eq_true_2.
  - unfold members. rewrite uci_get_sections, Hs, lookupOpt_app_new by done.
    by rewrite Hnet.
Qed.

(** The rule step leaves the zones and their lists as they are. *)
Lemma ensureDnsRule_zone zone' s zone z zid :
  findByName s "firewall" "zone" zone = Some z ->
  zid ∈ names (sections s "firewall") ->
  findByName (ensureDnsRule zone' s) "firewall" "zone" zone = Some z /\
  members (ensureDnsRule zone' s) zid = members s zid.
Proof.
  intros Hz Hzid.
  destruct (findByName s "firewall" "rule" (dnsRuleNameOf zone')) as [r|] eqn:E.
  { unfold ensureDnsRule. by rewrite E. }
  pose proof (ensureDnsRule_new zone' s E) as Hs.
  destruct (ruleSect_facts (nextId (sections s "firewall")) zone') as (Hn & _ & _).
  split.
  - rewrite findByName_sections, Hs.
    rewrite findByNameL_app_fresh by (rewrite Hn; apply nextId_fresh).
    by rewrite <- findByName_sections, Hz.
  - unfold members. rewrite !uci_get_sections, Hs. by rewrite lookupOpt_app_old'.
Qed.

Lemma findByName_In s zone z :
  findByName s "firewall" "zone" zone = Some z ->
  sname z ∈ names (sections s "firewall").
Proof.
  rewrite findByName_sections. intros H. apply In_names.
  by apply (findByNameL_In _ "zone" zone).
Qed.

(** What the zone part of the removal does to the list of the zone it
    picks: the network is filtered out; a zone that is deleted lists
    nothing. *)
Lemma removeZoneEdits_members n s s' :
  removeZoneEdits n s = Some s' ->
  match listingZone n s with
  | Some f =>
      if sidTruthy (sname f)
      then members s' (sname f)
           = List.filter (fun m => negb (bool_decide (m = n))) (members s (sname f))
      else s' = s
  | None => s' = s
  end.
Proof.
  unfold removeZoneEdits, listingZone, members. cbn zeta.
  destruct (List.find _ (uci_sections s "firewall" "zone")) as [f|] eqn:Ef;
    [|by intros [= <-]].
  destruct (sidTruthy (sname f)); [|by intros [= <-]].
  apply find_some in Ef as [Hin _]. rewrite uci_sections_sections in Hin.
  apply filter_In in Hin as [Hin _].
  assert (Hf : is_Some (lookupSect (sections s "firewall") (sname f)))
    by (by apply lookupSect_is_Some, In_names).
  set (rest := List.filter _ (asList (uci_get s "firewall" (sname f) "network"))).
  assert (Hset : forall s0,
             Some (uci_set s "firewall" (sname f) "network" (Some (VList rest))) = Some s0 ->
             asList (uci_get s0 "firewall" (sname f) "network") = rest).
  { intros s0 [= <-]. rewrite uci_get_sections, sections_set, decide_True by done.
    rewrite lookupOpt_updSect, decide_True by done. by destruct Hf as [x ->]. }
  assert (Hgone : forall l,
             lookupSect (without (sname f) l) (sname f) = None)
    by (intros; apply lookupSect_without).
  case_bool_decide as Hlen; [apply Hset|].
  assert (Hrest : rest = []) by (destruct rest; [done | cbn in Hlen; lia]).
  destruct (uci_get s "firewall" (sname f) "name") as [[zn|?]|] eqn:En;
    [|done|apply Hset].
  destruct (negb (bool_decide (zn = "")) && String.prefix "podman" zn);
    [|apply Hset].
  rewrite Hrest.
  destruct (findByName _ "firewall" "rule" _) as [r|]; intros [= <-].
  - rewrite uci_get_sections, !sections_remove, !decide_True by done.
    unfold lookupOpt. rewrite lookupSect_remove.
    case_decide; [done|]. fold (without (sname f) (sections s "firewall")).
    by rewrite Hgone.
  - rewrite uci_get_sections, sections_remove, decide_True by done.
    unfold lookupOpt. fold (without (sname f) (sections s "firewall")).
    by rewrite Hgone.
Qed.

Section ZoneLists.

Variable parseInt : string -> option Z.
Variable prefixToMask : option Z -> option string.

Let createEdits' := createEdits parseInt prefixToMask.
Let createIntegration' := createIntegration parseInt prefixToMask.

(** Once both configurations are loaded the callback has run: the staged
    firewall configuration is the edited one, whatever happens later. *)
Lemma createIntegration_staged_firewall n o w :
  fails w (CallLoad "network") = false ->
  fails w (CallLoad "firewall") = false ->
  sections (staged (createIntegration' n o w).1) "firewall"
  = sections (createEdits' n o (staged w)) "firewall".
Proof.
  intros Hn Hf. unfold createIntegration', createEdits'.
  rewrite createIntegration_run, Hn, Hf. cbn [orb].
  pose proof (commit_staged (createEdits parseInt prefixToMask n o (staged w)) w) as Hs.
  destruct (commit _ w) as [w1 [[]|]]; cbn [fst] in *; [|by rewrite Hs].
  destruct (needsBridge (driverOf o)); cbn [fst]; [|by rewrite Hs].
  destruct (_configureDnsmasq_frame (deviceOf o) true w1 "firewall" ltac:(done))
    as [Hd _].
  by rewrite (sections_lookup_eq _ _ _ Hd), Hs.
Qed.

Lemma removeIntegration_staged_firewall n d drv w s1 :
  fails w (CallLoad "network") = false ->
  fails w (CallLoad "firewall") = false ->
  removeZoneEdits n (staged w) = Some s1 ->
  sections (staged (removeIntegration n d drv w).1) "firewall"
  = sections s1 "firewall".
Proof.
  intros Hn Hf Hz. rewrite removeIntegration_run, Hn, Hf. cbn [orb]. cbn zeta.
  unfold removeEdits. rewrite Hz.
  pose proof (removeNetworkEdits_spec n d (orDefault drv "bridge") s1) as (_ & _ & Ht).
  destruct (removeNetworkEdits n d (orDefault drv "bridge") s1) as [s2 b].
  cbn [fst snd] in *.
  rewrite <- (touches_sections "network" _ _ "firewall" Ht) by done.
  pose proof (commit_staged s2 w) as Hs.
  destruct (commit s2 w) as [w1 [[]|]]; cbn [fst] in *; [|by rewrite Hs].
  destruct (needsBridge _ && b); cbn [fst]; [|by rewrite Hs].
  destruct (_configureDnsmasq_frame d false w1 "firewall" ltac:(done)) as [Hd _].
  by rewrite (sections_lookup_eq _ _ _ Hd), Hs.
Qed.

(** What the callback of [createIntegration] does to the zone. *)
Lemma createEdits_zone n o s :
  match findByName s "firewall" "zone" (resolveZone n o) with
  | Some z =>
      (exists z', findByName (createEdits' n o s) "firewall" "zone" (resolveZone n o)
                  = Some z' /\ sname z' = sname z) /\
      members (createEdits' n o s) (sname z)
      = (if includes (members s (sname z)) n
         then members s (sname z) else members s (sname z) ++ [n])
  | None =>
      exists z',
        findByName (createEdits' n o s) "firewall" "zone" (resolveZone n o) = Some z' /\
        (sname z' ∉ names (sections s "firewall")) /\
        members (createEdits' n o s) (sname z') = [n]
  end.
Proof.
  unfold createEdits', createEdits.
  set (s2 := ensureInterface parseInt prefixToMask n o (ensureDevice o s)).
  assert (H2 : sections s2 "firewall" = sections s "firewall").
  { subst s2.
    rewrite (touches_sections "network" _ _ "firewall"
               (touches_ensureInterface parseInt prefixToMask _ _ _)) by done.
    by rewrite (touches_sections "network" _ _ "firewall" (touches_ensureDevice _ _)). }
  rewrite <- (findByName_frame s s2 "zone" _ H2).
  set (Z0 := resolveZone n o).
  destruct (findByName s2 "firewall" "zone" Z0) as [z|] eqn:E.
  - rewrite <- !(members_sections s s2 _ H2).
    destruct (ensureZone_existing n Z0 s2 z E) as [(z' & Hz' & Hn) Hm].
    destruct (ensureDnsRule_zone Z0 (ensureZone n Z0 s2) Z0 z' (sname z) Hz')
      as [Hz'' Hm'].
    { rewrite <- Hn. by eapply findByName_In. }
    split; [by exists z'|]. by rewrite Hm'.
  - rewrite <- H2.
    destruct (ensureZone_seeds n Z0 s2 (resolveZone_nonempty n o) E)
      as (z' & Hz' & Hfresh & Hm).
    destruct (ensureDnsRule_zone Z0 (ensureZone n Z0 s2) Z0 z' (sname z') Hz')
      as [Hz'' Hm'].
    { by eapply findByName_In. }
    exists z'. split; [done|]. split; [done|]. by rewrite Hm'.
Qed.

(** C9: the at-most-once membership invariant is kept, and by these
    means. If every firewall zone lists each network at most once before
    [createIntegration] or [removeIntegration], in the staged and in the
    saved store, then so it is afterwards. Once both configurations are
    loaded, [createIntegration] has appended the network name to the list
    of the zone of the resolved name when the name was absent, left the
    list alone when it was there, and, when no zone had that name, made a
    new zone whose list is exactly that one name; and [removeIntegration],
    unless its callback throws, has filtered the name out of the list of
    the first zone that listed it (a zone it deleted lists nothing) and
    changed nothing in the firewall configuration when no zone listed it. *)
Theorem zone_membership_at_most_once (n d : string) (o : Options)
    (drv : option string) (w : World) :
  (zonesOk (staged w) ->
   zonesOk (saved w) ->
   zonesOk (staged (createIntegration' n o w).1) /\
   zonesOk (saved (createIntegration' n o w).1) /\
   zonesOk (staged (removeIntegration n d drv w).1) /\
   zonesOk (saved (removeIntegration n d drv w).1)) /\
  (fails w (CallLoad "network") = false ->
   fails w (CallLoad "firewall") = false ->
   let s' := staged (createIntegration' n o w).1 in
   match findByName (staged w) "firewall" "zone" (resolveZone n o) with
   | Some z =>
       (exists z', findByName s' "firewall" "zone" (resolveZone n o) = Some z' /\
                   sname z' = sname z) /\
       members s' (sname z)
       = (if includes (members (staged w) (sname z)) n
          then members (staged w) (sname z)
          else members (staged w) (sname z) ++ [n])
   | None =>
       exists z',
         findByName s' "firewall" "zone" (resolveZone n o) = Some z' /\
         (sname z' ∉ names (sections (staged w) "firewall")) /\
         members s' (sname z') = [n]
   end) /\
  (fails w (CallLoad "network") = false ->
   fails w (CallLoad "firewall") = false ->
   removeZoneEdits n (staged w) <> None ->
   let s' := staged (removeIntegration n d drv w).1 in
   match listingZone n (staged w) with
   | Some f =>
       if sidTruthy (sname f)
       then members s' (sname f)
            = List.filter (fun m => negb (bool_decide (m = n)))
                          (members (staged w) (sname f))
       else sections s' "firewall" = sections (staged w) "firewall"
   | None => sections s' "firewall" = sections (staged w) "firewall"
   end).
Proof.
  split; [|split].
  - apply (zonesOk_operations parseInt prefixToMask).
  - intros Hn Hf. cbn zeta.
    pose proof (createIntegration_staged_firewall n o w Hn Hf) as Hs.
    pose proof (createEdits_zone n o (staged w)) as Hz.
    rewrite <- (findByName_frame _ _ "zone" _ Hs) in Hz.
    destruct (findByName (staged w) "firewall" "zone" (resolveZone n o)) as [z|].
    + by rewrite <- (members_sections _ _ _ Hs) in Hz.
    + destruct Hz as (z' & Hz' & Hfresh & Hm). exists z'.
      by rewrite <- (members_sections _ _ _ Hs) in Hm.
  - intros Hn Hf Hz. cbn zeta.
    destruct (removeZoneEdits n (staged w)) as [s1|] eqn:Ez; [|done].
    pose proof (removeIntegration_staged_firewall n d drv w s1 Hn Hf Ez) as Hs.
    pose proof (removeZoneEdits_members n _ _ Ez) as Hm.
    destruct (listingZone n (staged w)) as [f|].
    + destruct (sidTruthy (sname f)).
      * by rewrite (members_sections _ _ _ Hs).
      * by rewrite Hs, Hm.
    + by rewrite Hs, Hm.
Qed.

End ZoneLists.

Lemma zone_membership_at_most_once_witness :
  let o := mkOptions (Some "bridge") "br-pod2" "" "10.90.0.0/24" "10.90.0.1"
             None None (Some "podman") in
  let w := worldOf zoneStore [] in
  let created := staged (createIntegration sampleParseInt sampleMask "net2" o w).1 in
  let removed := staged (removeIntegration "net1" "br-pod" (Some "bridge") w).1 in
  zonesOk created /\ members created (Generated 0) = ["net1"; "net2"] /\
  zonesOk removed /\ members removed (Generated 0) = [].
Proof.
  intros o w created removed.
  destruct (zone_membership_at_most_once sampleParseInt sampleMask "net2" "br-pod" o
              (Some "bridge") w) as (Hok & Hc & _).
  destruct (Hok zonesOk_zoneStore zonesOk_zoneStore) as (Hok1 & _).
  specialize (Hc eq_refl eq_refl).
  destruct (zone_membership_at_most_once sampleParseInt sampleMask "net1" "br-pod" o
              (Some "bridge") w) as (Hok' & _ & Hr).
  destruct (Hok' zonesOk_zoneStore zonesOk_zoneStore) as (_ & _ & Hok2 & _).
  specialize (Hr eq_refl eq_refl ltac:(vm_compute; discriminate)).
  destruct Hc as [_ Hc].
  exact (conj Hok1 (conj Hc (conj Hok2 Hr))).
Defined.

(** ** The zones a removal leaves alone *)

(** What the zone part of the removal does to the firewall configuration:
    nothing, when no zone lists the network; or it rewrites the network
    list of the first zone that lists the network, without that network;
    or, when that leaves the list empty and the zone's name starts with
    'podman', it deletes the zone and, if there is one, the DNS rule named
    after it. *)
Lemma removeZoneEdits_cases n s s' :
  removeZoneEdits n s = Some s' ->
  let l := sections s "firewall" in
  (sections s' "firewall" = l /\
   forall f, listingZone n s = Some f -> sidTruthy (sname f) = false) \/
  (exists f,
     listingZone n s = Some f /\
     In f l /\ stype f = "zone" /\
     let listed := asList (uci_get s "firewall" (sname f) "network") in
     let rest := List.filter (fun m => negb (bool_decide (m = n))) listed in
     (sections s' "firewall"
      = updSect (sname f) (setOpt "network" (Some (VList rest))) l /\
      (rest = [] ->
       forall zn, uci_get s "firewall" (sname f) "name" = Some (VStr zn) ->
                  String.prefix "podman" zn = false)) \/
     (rest = [] /\
      (exists zn, uci_get s "firewall" (sname f) "name" = Some (VStr zn) /\
                  String.prefix "podman" zn = true) /\
      (sections s' "firewall" = without (sname f) l \/
       exists r, In r l /\ stype r = "rule" /\
                 sections s' "firewall" = without (sname r) (without (sname f) l)))).
Proof.
  unfold removeZoneEdits, listingZone, members. cbn zeta.
  destruct (List.find _ (uci_sections s "firewall" "zone")) as [f|] eqn:Ef;
    [|intros [= <-]; by left].
  apply find_some in Ef as [Hin _]. rewrite uci_sections_sections in Hin.
  apply filter_In in Hin as [Hin Hty]. apply bool_decide_eq_true in Hty.
  destruct (sidTruthy (sname f)) eqn:Etr;
    [|intros [= <-]; left; split; [done|]; by intros ? [= <-]].
  set (rest := List.filter _ (asList (uci_get s "firewall" (sname f) "network"))).
  intros H. right. exists f. split; [done|]. split; [done|]. split; [done|].
  cbn zeta. fold rest.
  assert (Hset : forall s0,
             Some (uci_set s "firewall" (sname f) "network" (Some (VList rest))) = Some s0 ->
             sections s0 "firewall"
             = updSect (sname f) (setOpt "network" (Some (VList rest)))
                 (sections s "firewall")).
  { intros s0 [= <-]. by rewrite sections_set, decide_True. }
  case_bool_decide as Hlen.
  { left. split; [by apply Hset|]. intros E. rewrite E in Hlen. cbn in Hlen. lia. }
  assert (Hrest : rest = []) by (destruct rest; [done | cbn in Hlen; lia]).
  destruct (uci_get s "firewall" (sname f) "name") as [[zn|?]|] eqn:En; [|done|].
  2: { left. split; [by apply Hset | done]. }
  destruct (negb (bool_decide (zn = "")) && String.prefix "podman" zn) eqn:Ep.
  - apply andb_true_iff in Ep as [_ Hp]. right.
    split; [done|]. split; [by exists zn|].
    destruct (findByName _ "firewall" "rule" _) as [r|] eqn:Er.
    + right. injection H as <-. exists r.
      rewrite findByName_sections in Er. apply findByNameL_In in Er as [Hr Hrt].
      rewrite sections_remove, decide_True in Hr by done.
      apply filter_In in Hr as [Hr _].
      split; [done|]. split; [done|].
      rewrite sections_remove, decide_True by done.
      by rewrite sections_remove, decide_True by done.
    + left. injection H as <-. by rewrite sections_remove, decide_True.
  - left. split; [by apply Hset|]. intros _ zn' [= <-].
    apply andb_false_iff in Ep as [Hz|Hp]; [|done].
    apply negb_false_iff, bool_decide_eq_true in Hz. by subst.
Qed.

Lemma NoDup_names_In l x y :
  NoDup (names l) -> In x l -> In y l -> sname x = sname y -> x = y.
Proof.
  unfold names. induction l as [|a l IH]; [done|]. cbn.
  intros Hnd [->|Hx] [->|Hy] Hxy; try done.
  - apply NoDup_cons in Hnd as [Ha _]. exfalso. apply Ha. rewrite Hxy.
    apply list_elem_of_fmap. exists y. split; [done | by apply list_elem_of_In].
  - apply NoDup_cons in Hnd as [Ha _]. exfalso. apply Ha. rewrite <- Hxy.
    apply list_elem_of_fmap. exists x. split; [done | by apply list_elem_of_In].
  - apply NoDup_cons in Hnd as [_ Hnd]. by apply IH.
Qed.

Lemma NoDup_lookupSect l x :
  NoDup (names l) -> In x l -> lookupSect l (sname x) = Some x.
Proof.
  intros Hnd Hx.
  assert (Hs : is_Some (lookupSect l (sname x)))
    by (by apply lookupSect_is_Some, In_names).
  destruct Hs as [y Hy]. rewrite Hy. f_equal.
  apply lookupSect_Some in Hy as [Hy Hn]. by eapply NoDup_names_In.
Qed.

Lemma In_updSect_other sid f l x :
  In x l -> sname x <> sid -> In x (updSect sid f l).
Proof.
  induction l as [|a l IH]; [done|]. cbn. intros [->|Hx] Hne.
  - rewrite (proj2 (hasName_false sid x)) by done. by left.
  - destruct (hasName sid a); right; [done | by apply IH].
Qed.

Lemma In_updSect_same sid f l x :
  In x l -> lookupSect l sid = Some x -> In (f x) (updSect sid f l).
Proof.
  unfold lookupSect. induction l as [|a l IH]; [done|]. cbn.
  destruct (hasName sid a).
  - intros _ [= ->]. by left.
  - intros [->|Hx] Hl; right; apply IH; try done.
    by apply find_some in Hl as [? _].
Qed.

Lemma In_without sid l x : In x l -> sname x <> sid -> In x (without sid l).
Proof.
  intros Hx Hne. unfold without. apply filter_In. split; [done|].
  by rewrite (proj2 (hasName_false sid x)).
Qed.

(** A zone the removal of network [n] has to keep: it lists another
    network, or its name is no text that starts with 'podman'. *)
Definition keptZone (n : string) (z : Sect) : Prop :=
  (exists m, m <> n /\ m ∈ asList (sopts z !! "network")) \/
  (forall zn, sopts z !! "name" = Some (VStr zn) -> String.prefix "podman" zn = false).

(** The zone [z'] is zone [z] with at most network [n] taken off its list. *)
Definition sameZone (n : string) (z z' : Sect) : Prop :=
  sname z' = sname z /\ stype z' = stype z /\
  (forall o, o <> "network" -> sopts z' !! o = sopts z !! o) /\
  (forall m, m <> n ->
     m ∈ asList (sopts z' !! "network") <-> m ∈ asList (sopts z !! "network")).

(** The network list of zone [z] without network [n]. *)
Definition listWithout (n : string) (z : Sect) : list string :=
  List.filter (fun m => negb (bool_decide (m = n))) (asList (sopts z !! "network")).

Lemma sameZone_refl n z : sameZone n z z.
Proof. by repeat split. Qed.

Lemma listWithout_spec n z : n ∉ listWithout n z.
Proof.
  unfold listWithout. rewrite list_elem_of_In, filter_In.
  intros [_ H]. by rewrite bool_decide_eq_true_2 in H.
Qed.

Lemma removeZoneEdits_keeps n s s' z :
  removeZoneEdits n s = Some s' ->
  NoDup (names (sections s "firewall")) ->
  In z (sections s "firewall") ->
  stype z = "zone" ->
  keptZone n z ->
  exists z',
    In z' (sections s' "firewall") /\ sameZone n z z' /\
    (listingZone n s <> Some z -> z' = z) /\
    (listingZone n s = Some z -> sidTruthy (sname z) = true ->
     asList (sopts z' !! "network") = listWithout n z).
Proof.
  intros H Hnd Hz Hty Hkeep.
  destruct (removeZoneEdits_cases n s s' H) as [[-> Hno]|(f & Hfirst & Hf & Hft & Hcase)].
  { exists z. split; [done|]. split; [apply sameZone_refl|]. split; [done|].
    intros Hl Ht. by rewrite (Hno z Hl) in Ht. }
  cbn zeta in Hcase.
  assert (Hget : forall o, uci_get s "firewall" (sname f) o = sopts f !! o).
  { intros o. rewrite uci_get_sections. unfold lookupOpt.
    by rewrite NoDup_lookupSect. }
  rewrite !Hget in Hcase. fold (listWithout n f) in Hcase.
  assert (Hrest : forall m, m <> n ->
            m ∈ listWithout n f <-> m ∈ asList (sopts f !! "network")).
  { intros m Hm. unfold listWithout. rewrite !list_elem_of_In, filter_In.
    rewrite bool_decide_eq_false_2 by done. cbn. tauto. }
  destruct (decide (sname z = sname f)) as [Hzf|Hzf].
  - assert (z = f) as -> by (by eapply NoDup_names_In). clear Hzf Hz.
    destruct Hcase as [[-> Hnp]|(Hempty & (zn & Hzn & Hp) & _)].
    + exists (setOpt "network" (Some (VList (listWithout n f))) f). split.
      * apply In_updSect_same; [done | by apply NoDup_lookupSect].
      * split; [|split; [done|]].
        -- split; [apply sname_setOpt|]. split; [apply stype_setOpt|]. split.
           ++ intros o Ho. rewrite sopts_setOpt. by rewrite decide_False.
           ++ intros m Hm. rewrite sopts_setOpt, decide_True by done. cbn.
              by apply Hrest.
        -- intros _ _. by rewrite sopts_setOpt, decide_True.
    + (* the zone to delete cannot be one to keep *)
      exfalso. destruct Hkeep as [(m & Hm & Hin)|Hname].
      * apply (Hrest m Hm) in Hin. rewrite Hempty in Hin. by apply elem_of_nil in Hin.
      * rewrite (Hname zn Hzn) in Hp. done.
  - exists z. split; [|split; [apply sameZone_refl|]].
    + destruct Hcase as [[-> _]|(_ & _ & [->|(r & Hr & Hrt & ->)])].
      * by apply In_updSect_other.
      * by apply In_without.
      * apply In_without; [by apply In_without|].
        intros E. assert (z = r) by (by eapply NoDup_names_In). subst. congruence.
    + split; [done|]. intros Hl. rewrite Hfirst in Hl. by injection Hl as ->.
Qed.

(** X18: [removeIntegration] leaves the firewall zones it has to keep in
    place and takes the network off one list only. On a firewall
    configuration whose section names are distinct, a zone that lists
    another network, or whose name does not start with 'podman', is still
    there afterwards, whatever the outcome, with its name, its type, every
    other option and every other member. Unless it is the first zone that
    lists the network it is left exactly as it was. If it is that zone, and
    both configurations load and the callback does not throw, its list
    afterwards is the old one filtered of the network, which is then no
    member. *)
Theorem removal_keeps_other_zones (n d : string) (drv : option string)
    (w : World) (z : Sect) :
  NoDup (names (sections (staged w) "firewall")) ->
  In z (sections (staged w) "firewall") ->
  stype z = "zone" ->
  keptZone n z ->
  exists z',
    In z' (sections (staged (removeIntegration n d drv w).1) "firewall") /\
    sameZone n z z' /\
    (listingZone n (staged w) <> Some z -> z' = z) /\
    (fails w (CallLoad "network") = false ->
     fails w (CallLoad "firewall") = false ->
     removeZoneEdits n (staged w) <> None ->
     listingZone n (staged w) = Some z ->
     sidTruthy (sname z) = true ->
     asList (sopts z' !! "network") = listWithout n z /\
     (n ∉ asList (sopts z' !! "network"))).
Proof.
  intros Hnd Hz Hty Hkeep.
  assert (Hsame : sections (staged (removeIntegration n d drv w).1) "firewall"
                  = sections (staged w) "firewall" ->
                  (fails w (CallLoad "network") = false ->
                   fails w (CallLoad "firewall") = false ->
                   removeZoneEdits n (staged w) <> None -> False) ->
                  exists z',
                    In z' (sections (staged (removeIntegration n d drv w).1) "firewall") /\
                    sameZone n z z' /\
                    (listingZone n (staged w) <> Some z -> z' = z) /\
                    (fails w (CallLoad "network") = false ->
                     fails w (CallLoad "firewall") = false ->
                     removeZoneEdits n (staged w) <> None ->
                     listingZone n (staged w) = Some z ->
                     sidTruthy (sname z) = true ->
                     asList (sopts z' !! "network") = listWithout n z /\
                     (n ∉ asList (sopts z' !! "network")))).
  { intros -> Hno. exists z. split; [done|]. split; [apply sameZone_refl|].
    split; [done|]. intros H1 H2 H3. destruct (Hno H1 H2 H3). }
  destruct (removeZoneEdits n (staged w)) as [s1|] eqn:Ez.
  2: { apply Hsame; [|by intros _ _ ?].
       destruct (removeIntegration_stores n d drv w "firewall" ltac:(done))
         as [[H|H] _]; rewrite (sections_lookup_eq _ _ _ H); [done|].
       unfold removeEdits. by rewrite Ez. }
  destruct (fails w (CallLoad "network")) eqn:En.
  { apply Hsame; [|by intros ?]. by rewrite removeIntegration_run, En. }
  destruct (fails w (CallLoad "firewall")) eqn:Ef.
  { apply Hsame; [|by intros _ ?]. by rewrite removeIntegration_run, En, Ef. }
  clear Hsame.
  rewrite (removeIntegration_staged_firewall n d drv w s1 En Ef Ez).
  destruct (removeZoneEdits_keeps n _ _ z Ez Hnd Hz Hty Hkeep)
    as (z' & Hin & Hsame & Hother & Hfirst).
  exists z'. split; [done|]. split; [done|]. split; [done|].
  intros _ _ _ Hl Ht. rewrite (Hfirst Hl Ht). split; [done | apply listWithout_spec].
Qed.

Definition lanZone : Sect :=
  sect (Generated 5) "zone" [("name", VStr "lan"); ("network", VList ["net1"])].

Lemma removal_keeps_other_zones_witness :
  let w := worldOf (<["firewall" := [lanZone]]> sampleStore) [] in
  exists z',
    In z' (sections
             (staged (removeIntegration "net1" "br-pod" (Some "bridge") w).1)
             "firewall") /\
    sameZone "net1" lanZone z' /\
    asList (sopts z' !! "network") = [].
Proof.
  intros w.
  destruct (removal_keeps_other_zones "net1" "br-pod" (Some "bridge") w lanZone)
    as (z' & Hin & Hsame & _ & Hfirst).
  - vm_compute. apply NoDup_singleton.
  - vm_compute. by left.
  - reflexivity.
  - right. intros zn. vm_compute. intros [= <-]. reflexivity.
  - exists z'. split; [done|]. split; [done|].
    by destruct (Hfirst eq_refl eq_refl ltac:(vm_compute; discriminate)
                   eq_refl eq_refl) as [-> _].
Defined.

(** ** Listing the zone a creation made *)

(** No zone of the firewall configuration [l] has an array as its name. *)
Definition scalarNames (l : list Sect) : Prop :=
  Forall (fun z => match lookupOpt l (sname z) "name" with
                   | Some (VList _) => False
                   | _ => True
                   end)
         (List.filter (ofType "zone") l).

Lemma scalarNames_store s :
  Forall (scalarName s) (uci_sections s "firewall" "zone")
  <-> scalarNames (sections s "firewall").
Proof. reflexivity. Qed.

Lemma Forall_sameShape (P Q : Sect -> Prop) l l' :
  sameShape l l' ->
  (forall x y, sname x = sname y -> P x -> Q y) ->
  Forall P l -> Forall Q l'.
Proof.
  intros Hs HPQ. induction Hs as [|x y l l' [Hn _] _ IH]; [constructor|].
  intros H. apply Forall_cons in H as [Hx Hl]. constructor; eauto.
Qed.

Lemma scalarNames_set_network l sid v :
  scalarNames l -> scalarNames (updSect sid (setOpt "network" v) l).
Proof.
  unfold scalarNames. apply Forall_sameShape.
  - apply sameShape_filter, sameShape_updSect;
      [apply sname_setOpt | apply stype_setOpt].
  - intros x y Hxy. rewrite lookupOpt_updSect, <- Hxy.
    rewrite decide_False; [done | by intros [_ ?]].
Qed.

Lemma scalarNames_app l x :
  scalarNames l ->
  sname x ∉ names l ->
  (forall v, sopts x !! "name" = Some (VList v) -> stype x <> "zone") ->
  scalarNames (l ++ [x]).
Proof.
  unfold scalarNames. intros Hl Hfresh Hx.
  rewrite List.filter_app. apply Forall_app. split.
  - rewrite Forall_forall in *. intros z Hz.
    assert (Hin : In z l).
    { apply list_elem_of_In in Hz. by apply filter_In in Hz as [? _]. }
    rewrite lookupOpt_app_old by (by apply In_names). by apply Hl.
  - cbn. unfold ofType. case_bool_decide as Hty; [|constructor].
    constructor; [|constructor]. rewrite lookupOpt_app_new by done.
    destruct (sopts x !! "name") as [[?|v]|] eqn:E; try done.
    by apply (Hx v).
Qed.

Lemma scalarNames_ensureZone n zone s :
  zone <> "" ->
  scalarNames (sections s "firewall") ->
  scalarNames (sections (ensureZone n zone s) "firewall").
Proof.
  intros Hz H.
  destruct (findByName s "firewall" "zone" zone) as [z|] eqn:E.
  - unfold ensureZone. rewrite E. destruct (negb _); [|done].
    rewrite sections_set, decide_True by done. by apply scalarNames_set_network.
  - rewrite (ensureZone_new n zone s E).
    destruct (zoneSect_facts (nextId (sections s "firewall")) zone n Hz)
      as (Hn & _ & Hname & _).
    apply scalarNames_app; [done | rewrite Hn; apply nextId_fresh|].
    intros v. by rewrite Hname.
Qed.

Lemma scalarNames_ensureDnsRule zone s :
  scalarNames (sections s "firewall") ->
  scalarNames (sections (ensureDnsRule zone s) "firewall").
Proof.
  intros H.
  destruct (findByName s "firewall" "rule" (dnsRuleNameOf zone)) as [r|] eqn:E.
  - unfold ensureDnsRule. by rewrite E.
  - rewrite (ensureDnsRule_new zone s E).
    destruct (ruleSect_facts (nextId (sections s "firewall")) zone) as (Hn & Ht & _).
    apply scalarNames_app; [done | rewrite Hn; apply nextId_fresh|].
    intros v _. by rewrite Ht.
Qed.

Section ListCreated.

Variable parseInt : string -> option Z.
Variable prefixToMask : option Z -> option string.

Let createEdits' := createEdits parseInt prefixToMask.
Let createIntegration' := createIntegration parseInt prefixToMask.

Lemma scalarNames_createEdits n o s :
  scalarNames (sections s "firewall") ->
  scalarNames (sections (createEdits' n o s) "firewall").
Proof.
  intros H. unfold createEdits', createEdits.
  apply scalarNames_ensureDnsRule, scalarNames_ensureZone;
    [apply resolveZone_nonempty|].
  rewrite (touches_sections "network" _ _ "firewall"
             (touches_ensureInterface parseInt prefixToMask _ _ _)) by done.
  by rewrite (touches_sections "network" _ _ "firewall" (touches_ensureDevice _ _)).
Qed.

(** X19: after [createIntegration] has resolved with a zone name that
    starts with 'podman', as the default 'podman_' followed by the network
    name does, [listPodmanZones] lists that zone, provided no zone of the
    firewall configuration had an array as its name. *)
Theorem created_zone_is_listed (n : string) (o : Options) (w w' : World) :
  createIntegration' n o w = (w', Resolved tt) ->
  Forall (scalarName (staged w)) (uci_sections (staged w) "firewall" "zone") ->
  String.prefix "podman" (resolveZone n o) = true ->
  exists l,
    listPodmanZones w' = (w', Resolved l) /\
    resolveZone n o ∈ l.
Proof.
  intros H Hsc Hp.
  apply createIntegration_resolved in H as (_ & Hl & Hf & Hs & _).
  assert (Hfw : sections (staged w') "firewall"
                = sections (createEdits' n o (staged w)) "firewall").
  { rewrite Hs. destruct (needsBridge (driverOf o)); [|done].
    by rewrite (touches_sections "dhcp" _ _ "firewall" (touches_dnsmasqEdits _ _ _)). }
  destruct (createEdits_settled parseInt prefixToMask n o (staged w))
    as (_ & _ & (z & Hz & _) & _).
  fold createEdits' in Hz.
  rewrite findByName_sections, <- Hfw, <- findByName_sections in Hz.
  apply scalarNames_store, (scalarNames_createEdits n o) in Hsc.
  rewrite <- Hfw in Hsc. apply scalarNames_store in Hsc.
  destruct (podmanZonesOf_complete _ _ Hsc) as (l & Hl' & Hall).
  exists l. split.
  - rewrite listPodmanZones_run, (fails_same w w') by done. by rewrite Hl, Hl'.
  - unfold findByName in Hz. apply find_some in Hz as [Hin Hn].
    apply bool_decide_eq_true in Hn. by apply (Hall z).
Qed.

End ListCreated.

Lemma created_zone_is_listed_witness :
  let w' := (createIntegration sampleParseInt sampleMask "net2"
               (mkOptions (Some "bridge") "br-pod2" "" "10.90.0.0/16" "10.90.0.1"
                  None None None)
               (worldOf zoneStore [])).1 in
  exists l, listPodmanZones w' = (w', Resolved l) /\ "podman_net2" ∈ l.
Proof.
  refine (created_zone_is_listed sampleParseInt sampleMask "net2"
            (mkOptions (Some "bridge") "br-pod2" "" "10.90.0.0/16" "10.90.0.1"
               None None None)
            (worldOf zoneStore []) _ (run_resolved _ _ _ _) _ _).
  - vm_compute. reflexivity.
  - vm_compute. repeat constructor.
  - reflexivity.
Defined.

(** ** When the operations resolve *)

Lemma fails_none w c :
  (forall c', c' ∈ failing w -> c' = CallExec) -> c <> CallExec -> fails w c = false.
Proof. intros H Hc. apply fails_false. intros Hin. by apply H in Hin. Qed.

Lemma commit_ok s w :
  fails w CallSave = false -> fails w CallApply = false ->
  fails w CallFlushCache = false ->
  commit s w
  = (mkWorld s s (trace w ++ [EvSave; EvApply 90; EvFlushCache]) (failing w),
     Resolved tt).
Proof. intros H1 H2 H3. unfold commit. by rewrite H1, H2, H3. Qed.

Lemma _configureDnsmasq_ok b e w :
  fails w (CallLoad "dhcp") = false -> fails w CallSave = false ->
  fails w CallApply = false ->
  exists w', _configureDnsmasq b e w = (w', Resolved tt).
Proof.
  intros H1 H2 H3. rewrite _configureDnsmasq_run, H1, H2, H3.
  destruct (dnsmasqEdits b e (staged w)) as [s [|]]; eauto.
Qed.

Section Resolve.

Variable parseInt : string -> option Z.
Variable prefixToMask : option Z -> option string.

Let createIntegration' := createIntegration parseInt prefixToMask.
Let repairIntegration' := repairIntegration parseInt prefixToMask.

(** X20: when no collaborator other than the dnsmasq restart fails,
    [createIntegration] and [repairIntegration] resolve, and so does
    [removeIntegration] unless its callback throws; a restart that fails
    never makes an operation reject. When the callback of
    [removeIntegration] throws (a zone to delete has an array as its
    name), the promise rejects and the store is as it was. *)
Theorem operations_resolve (n d : string) (o : Options) (drv : option string)
    (w : World) :
  (forall c, c ∈ failing w -> c = CallExec) ->
  (exists w', createIntegration' n o w = (w', Resolved tt)) /\
  (exists w' r, repairIntegration' n o w = (w', Resolved r)) /\
  (removeZoneEdits n (staged w) <> None ->
   exists w', removeIntegration n d drv w = (w', Resolved tt)) /\
  (removeZoneEdits n (staged w) = None ->
   removeIntegration n d drv w = (w, Rejected)).
Proof.
  intros Hf.
  assert (Hn : fails w (CallLoad "network") = false) by (by apply fails_none).
  assert (Hfw : fails w (CallLoad "firewall") = false) by (by apply fails_none).
  assert (Hd : fails w (CallLoad "dhcp") = false) by (by apply fails_none).
  assert (Hs : fails w CallSave = false) by (by apply fails_none).
  assert (Ha : fails w CallApply = false) by (by apply fails_none).
  assert (Hc : fails w CallFlushCache = false) by (by apply fails_none).
  assert (Hdns : forall b e s,
             exists w', _configureDnsmasq b e
                          (mkWorld s s (trace w ++ [EvSave; EvApply 90; EvFlushCache])
                             (failing w)) = (w', Resolved tt)).
  { intros b e s. apply _configureDnsmasq_ok; by rewrite (fails_same w). }
  split; [|split; [|split]].
  - unfold createIntegration'. rewrite createIntegration_run, Hn, Hfw. cbn [orb].
    rewrite commit_ok by done. destruct (needsBridge _); [apply Hdns | eauto].
  - unfold repairIntegration'. rewrite repairIntegration_run. cbn zeta.
    destruct (complete _); [eauto|]. rewrite Hn, Hd. cbn [orb].
    rewrite commit_ok by done. destruct (negb _ && _); [|eauto].
    destruct (Hdns (deviceOf o) true
                (repairEdits parseInt prefixToMask n o
                   (details (statusOf n o w)) (staged w)).1) as [w' ->].
    eauto.
  - intros Hz. rewrite removeIntegration_run, Hn, Hfw. cbn [orb]. cbn zeta.
    unfold removeEdits. destruct (removeZoneEdits n (staged w)) as [s1|]; [|done].
    destruct (removeNetworkEdits n d _ s1) as [s2 b]. cbn [fst snd].
    rewrite commit_ok by done. destruct (needsBridge _ && b); [apply Hdns | eauto].
  - intros Hz. rewrite removeIntegration_run, Hn, Hfw. cbn [orb]. cbn zeta.
    unfold removeEdits. rewrite Hz. cbn [fst snd]. by rewrite withStaged_id.
Qed.

End Resolve.

Lemma operations_resolve_witness :
  exists w', createIntegration sampleParseInt sampleMask "net1" sampleOptions
               (worldOf sampleStore [CallExec]) = (w', Resolved tt).
Proof.
  refine (proj1 (operations_resolve sampleParseInt sampleMask "net1" "br-pod"
                   sampleOptions None (worldOf sampleStore [CallExec]) _)).
  intros c Hc. cbn in Hc. by apply list_elem_of_singleton in Hc.
Defined.

(** ** Setting up from the networks page *)

Section SetupFacts.

Variable parseInt : string -> option Z.
Variable prefixToMask : option Z -> option string.

Let setupOperation' := setupOperation parseInt prefixToMask.
Let executeSetupIntegration' := executeSetupIntegration parseInt prefixToMask.

Lemma repairIntegration_firewall n o w :
  staged (repairIntegration parseInt prefixToMask n o w).1 !! "firewall"
  = staged w !! "firewall".
Proof.
  destruct (repairIntegration_staged parseInt prefixToMask n o w "firewall"
              ltac:(done)) as [H|H]; [done|].
  rewrite H. by apply (touches_repairEdits parseInt prefixToMask).
Qed.

Lemma executeSetupIntegration_world name driver deviceName subnet gateway w :
  executeSetupIntegration' name driver deviceName subnet gateway w
  = ((setupOperation' name driver deviceName subnet gateway w).1, Resolved tt).
Proof.
  unfold executeSetupIntegration', executeSetupIntegration, catch, mbind,
    Promise_bind. fold setupOperation'.
  by destruct (setupOperation' _ _ _ _ _ w) as [w' [[]|]].
Qed.

Lemma setupOperation_run name driver deviceName subnet gateway w :
  setupOperation' name driver deviceName subnet gateway w =
  if negb (fails w (CallLoad "network") || fails w (CallLoad "dhcp"))
     && bool_decide (is_Some (uci_get_section (staged w) "network" (Named name)))
  then (repairIntegration parseInt prefixToMask name
          (setupOptions driver deviceName subnet gateway None) ;; mret tt) w
  else createIntegration parseInt prefixToMask name
         (setupOptions driver deviceName subnet gateway (Some "podman")) w.
Proof.
  unfold setupOperation', setupOperation. unfold mbind at 1, Promise_bind at 1.
  rewrite isIntegrationComplete_run.
  destruct (fails w (CallLoad "network") || fails w (CallLoad "dhcp")); [done|].
  cbn [negb andb].
  destruct (inspect_flags name (orDefault (Some driver) "bridge") (staged w))
    as (_ & Hdev & _).
  assert (Hi : hasInterface (details (inspect name (orDefault (Some driver) "bridge")
                                        (staged w)))
               = bool_decide (is_Some (uci_get_section (staged w) "network"
                                         (Named name)))).
  { unfold inspect. by repeat case_match. }
  rewrite <- Hi.
  destruct (hasInterface _) eqn:E1; [done|].
  destruct (hasDevice _) eqn:E2; [by specialize (Hdev eq_refl)|]. done.
Qed.

(** X21: setting up from the networks page, for a driver that is not
    empty. The page's call never rejects and leaves the world the
    operation it chose left. When both configurations load and the
    interface section exists that operation is [repairIntegration] with the
    options built from the arguments and no zone, and the firewall
    configuration stays as it was. When a load fails or the interface
    section is missing it is [createIntegration] with the same options and
    the zone 'podman'; when that resolves on a store without the interface
    section the network is a member of the zone named 'podman'. The options
    name the device that was given. *)
Theorem setup_repairs_or_joins_podman
    (name driver deviceName subnet gateway : string) (w : World) :
  driver <> "" ->
  let repair := repairIntegration parseInt prefixToMask name
                  (setupOptions driver deviceName subnet gateway None) in
  let create := createIntegration parseInt prefixToMask name
                  (setupOptions driver deviceName subnet gateway (Some "podman")) in
  executeSetupIntegration' name driver deviceName subnet gateway w
  = ((setupOperation' name driver deviceName subnet gateway w).1, Resolved tt) /\
  (fails w (CallLoad "network") = false ->
   fails w (CallLoad "dhcp") = false ->
   is_Some (uci_get_section (staged w) "network" (Named name)) ->
   setupOperation' name driver deviceName subnet gateway w = (repair ;; mret tt) w /\
   (executeSetupIntegration' name driver deviceName subnet gateway w).1 = (repair w).1 /\
   staged (repair w).1 !! "firewall" = staged w !! "firewall") /\
  (fails w (CallLoad "network") = true \/
   fails w (CallLoad "dhcp") = true \/
   uci_get_section (staged w) "network" (Named name) = None ->
   setupOperation' name driver deviceName subnet gateway w = create w /\
   (executeSetupIntegration' name driver deviceName subnet gateway w).1 = (create w).1) /\
  (forall w',
     setupOperation' name driver deviceName subnet gateway w = (w', Resolved tt) ->
     uci_get_section (staged w) "network" (Named name) = None ->
     joined name "podman" (staged w')) /\
  (forall zone,
     deviceOf (setupOptions driver deviceName subnet gateway zone) = deviceName).
Proof.
  intros Hdrv repair create.
  split; [|split; [|split; [|split]]].
  - apply executeSetupIntegration_world.
  - intros Hn Hd Hi.
    assert (Hop : setupOperation' name driver deviceName subnet gateway w
                  = (repair ;; mret tt) w).
    { rewrite setupOperation_run, Hn, Hd. cbn [orb negb andb].
      by rewrite bool_decide_eq_true_2. }
    split; [done|]. split.
    + rewrite executeSetupIntegration_world. cbn [fst]. rewrite Hop.
      unfold mbind, Promise_bind. by destruct (repair w) as [w' [r|]].
    + apply repairIntegration_firewall.
  - intros Hc.
    assert (Hop : setupOperation' name driver deviceName subnet gateway w = create w).
    { rewrite setupOperation_run.
      destruct Hc as [Hc|[Hc|Hc]]; rewrite Hc; [done | by rewrite orb_true_r |].
      rewrite (bool_decide_eq_false_2 (is_Some None)) by (by intros [? ?]).
      by rewrite andb_false_r. }
    split; [done|]. rewrite executeSetupIntegration_world. cbn [fst].
    by rewrite Hop.
  - intros w' H Hnone. rewrite setupOperation_run, Hnone in H.
    rewrite (bool_decide_eq_false_2 (is_Some None)) in H by (by intros [? ?]).
    rewrite andb_false_r in H.
    set (o := setupOptions driver deviceName subnet gateway (Some "podman")) in *.
    apply createIntegration_resolved in H as (_ & _ & _ & Hs & _).
    destruct (createEdits_settled parseInt prefixToMask name o (staged w))
      as (_ & _ & Hj & _).
    assert (Hz : resolveZone name o = "podman") by done.
    rewrite Hz in Hj.
    assert (Hfw : staged w' !! "firewall"
                  = createEdits parseInt prefixToMask name o (staged w) !! "firewall").
    { rewrite Hs. destruct (needsBridge (driverOf o)); [|done].
      by apply touches_dnsmasqEdits. }
    unfold joined, findByName, uci_sections, uci_get, uci_get_section, sections in *.
    by rewrite Hfw.
  - intros zone. unfold deviceOf, setupOptions. cbn -[bool_decide].
    unfold orDefault, needsBridge.
    rewrite !(bool_decide_eq_false_2 (driver = "")) by done. cbn [orb].
    by case_bool_decide.
Qed.

End SetupFacts.


Lemma setup_repairs_or_joins_podman_witness :
  let w := worldOf orphanStore [] in
  let after := (executeSetupIntegration sampleParseInt sampleMask "net1" "bridge"
                  "br-pod" "10.89.0.0/24" "10.89.0.1" w).1 in
  after = (repairIntegration sampleParseInt sampleMask "net1"
             (setupOptions "bridge" "br-pod" "10.89.0.0/24" "10.89.0.1" None) w).1 /\
  staged after !! "firewall" = Some [] /\
  uci_get (staged w) "network" (Named "br-pod") "type" = None /\
  uci_get (staged after) "network" (Named "br-pod") "type" = Some (VStr "bridge").
Proof.
  intros w after.
  destruct (setup_repairs_or_joins_podman sampleParseInt sampleMask "net1"
              "bridge" "br-pod" "10.89.0.0/24" "10.89.0.1" w ltac:(done))
    as (_ & Hrepair & _).
  destruct Hrepair as (_ & Hw & Hfw);
    [reflexivity | reflexivity | vm_compute; by eexists |].
  split; [exact Hw|]. split; [|split].
  - unfold after. rewrite Hw. exact Hfw.
  - reflexivity.
  - unfold after. rewrite Hw. vm_compute. reflexivity.
Defined.
